(** * iRedAPD 5.9.1: the SQL dispatcher and two policy plugins

    A shallow embedding of

    - [libs/sql/modeler.py]  ([Modeler.handle_data]),
    - [plugins/ldap_maillist_access_policy.py]  ([restriction]),
    - [plugins/reject_sender_login_mismatch.py]  ([restriction]),

    followed by the properties established about them.

    Conventions.  Python [str] is [string]; a [dict] with string keys is an
    association list read with [dict_get]; a call that may raise returns a
    [result]; a Python [for] loop over a list that the body mutates is an
    index-driven loop with fuel (the list iterator of CPython keeps an index
    and re-reads the length at every step).  Logger calls are kept as
    records of their level and of the format string of the call; the
    formatted arguments are not rendered, except where the code builds
    the message first and also returns it. *)

From Stdlib Require Import String Ascii List Bool Arith Lia.
Import ListNotations.
Open Scope string_scope.
Open Scope list_scope.

(* ================================================================== *)
(** * Python values and string methods *)
(* ================================================================== *)

Module Py.

(** Exceptions that the modelled code can meet.  [BackendError] stands
    for whatever an external collaborator raises (an LDAP or SQL error,
    a transport error of [requests], a JSON decoding error). *)
Inductive exn : Type :=
| IndexError
| KeyError (key : string)
| ValueError
| AttributeError
| TypeError
| BackendError (what : string).

Inductive result (A : Type) : Type :=
| Ok (a : A)
| Raise (e : exn).
Arguments Ok {A} a.
Arguments Raise {A} e.

(** [s.startswith(p)] *)
Definition startswith (p s : string) : bool := String.prefix p s.

(** [s.endswith(suf)] *)
Definition endswith (suf s : string) : bool :=
  let n := String.length s in
  let m := String.length suf in
  if (m <=? n)%nat then String.eqb (String.substring (n - m) m s) suf else false.

(** [s.split(sep)] for a one-character separator: never empty. *)
Fixpoint split (sep : ascii) (s : string) : list string :=
  match s with
  | EmptyString => [EmptyString]
  | String c r =>
      if Ascii.eqb c sep then EmptyString :: split sep r
      else match split sep r with
           | [] => [String c EmptyString]
           | h :: t => String c h :: t
           end
  end.

(** [s.split(sep, 1)]: at most one cut, at the first separator. *)
Fixpoint split1 (sep : ascii) (s : string) : list string :=
  match s with
  | EmptyString => [EmptyString]
  | String c r =>
      if Ascii.eqb c sep then [EmptyString; r]
      else match split1 sep r with
           | [] => [String c EmptyString]
           | h :: t => String c h :: t
           end
  end.

(** [sep.join(l)] *)
Definition join (sep : string) (l : list string) : string :=
  String.concat sep l.

(** [s.lstrip(c)] for a one-character set: all leading [c] go. *)
Fixpoint lstrip (c : ascii) (s : string) : string :=
  match s with
  | EmptyString => EmptyString
  | String a r => if Ascii.eqb a c then lstrip c r else s
  end.

Definition map_ascii (f : ascii -> ascii) : string -> string :=
  fix go (s : string) : string :=
    match s with
    | EmptyString => EmptyString
    | String c r => String (f c) (go r)
    end.

Definition upper_ascii (c : ascii) : ascii :=
  let n := nat_of_ascii c in
  if ((97 <=? n) && (n <=? 122))%nat then ascii_of_nat (n - 32) else c.

Definition lower_ascii (c : ascii) : ascii :=
  let n := nat_of_ascii c in
  if ((65 <=? n) && (n <=? 90))%nat then ascii_of_nat (n + 32) else c.

(** [s.upper()] and [s.lower()], on the ASCII letters. *)
Definition upper : string -> string := map_ascii upper_ascii.
Definition lower : string -> string := map_ascii lower_ascii.

(** [x in l] for a list of strings. *)
Definition str_in (x : string) (l : list string) : bool :=
  existsb (String.eqb x) l.

(** [l == m] for lists of strings. *)
Fixpoint list_eqb (l m : list string) : bool :=
  match l, m with
  | [], [] => true
  | a :: l', b :: m' => String.eqb a b && list_eqb l' m'
  | _, _ => false
  end.

(** Truth value of a string: [''] is false. *)
Definition truthy (s : string) : bool :=
  match s with EmptyString => false | _ => true end.

(** A [dict] with string keys. *)
Definition dict (V : Type) : Type := list (string * V).

Fixpoint dict_get {V : Type} (k : string) (d : dict V) : option V :=
  match d with
  | [] => None
  | (k', v) :: d' => if String.eqb k k' then Some v else dict_get k d'
  end.

(** [d.get(k, dflt)] *)
Definition get {V : Type} (k : string) (dflt : V) (d : dict V) : V :=
  match dict_get k d with Some v => v | None => dflt end.

(** [l.remove(x)]: the first element equal to [x] goes.  (Python raises
    [ValueError] when there is none; every call modelled here removes an
    element just read from the list.) *)
Fixpoint remove (x : string) (l : list string) : list string :=
  match l with
  | [] => []
  | y :: l' => if String.eqb x y then l' else y :: remove x l'
  end.

(** Logger records: level and format string of the call. *)
Inductive level : Type := DEBUG | INFO | ERROR.
Definition log_record : Type := (level * string)%type.

End Py.
Import Py.

(* ================================================================== *)
(** * libs/sql/modeler.py *)
(* ================================================================== *)

Module Modeler.

(** What one run of [handle_data] does to the outside world, in order. *)
Inductive event : Type :=
| Connect (pool : string)
| Close (conn : string)
| Apply (plugin : string)
| Log (lv : level) (fmt : string).

Definition trace : Type := list event.

(** A connection checked out of a pool; [close_raises] tells whether
    its [close()] raises. *)
Record connection : Type := {
  conn_name : string;
  close_raises : bool
}.

(** A pooled engine: [connect()] hands out its connection. *)
Record pool : Type := { checkout : connection }.

Definition connect (p : pool) (w : trace) : connection * trace :=
  (checkout p, w ++ [Connect (conn_name (checkout p))]).

Definition close (c : connection) (w : trace) : result unit * trace :=
  if close_raises c then (Raise (BackendError "close"), w)
  else (Ok tt, w ++ [Close (conn_name c)]).

(** [self.conns]: the amavisd and iredapd entries may be falsy. *)
Record conns : Type := {
  self_conn_vmail : pool;
  self_conn_amavisd : option pool;
  self_conn_iredapd : option pool
}.

Record plugin_kwargs : Type := {
  smtp_session_data : dict string;
  conn_vmail : connection;
  conn_amavisd : option connection;
  conn_iredapd : option connection;
  sender : string;
  sender_without_ext : string;
  recipient : string;
  recipient_without_ext : string;
  client_address : string;
  sender_domain : string;
  recipient_domain : string;
  sasl_username : string;
  sasl_username_domain : string
}.

(** A plugin module: its name, its [SMTP_PROTOCOL_STATE] attribute when
    it has one, and its [restriction] function. *)
Record plugin : Type := {
  plugin_name : string;
  SMTP_PROTOCOL_STATE : option (list string);
  restriction : plugin_kwargs -> result string
}.

Section WithActions.

(** [libs.SMTP_ACTIONS], a table that is not among the sources. *)
Variable SMTP_ACTIONS : string -> string.

(** Modelled from the spec: [utils.apply_plugin] ([libs/utils.py] is
    not among the sources).  The spec, 4.1: a plugin invocation that
    raises is caught, logged at error level, and the dispatcher
    continues with the next plugin, that is, the invocation counts as
    the default action. *)
Definition apply_plugin (p : plugin) (kw : plugin_kwargs) (w : trace)
  : string * trace :=
  match restriction p kw with
  | Ok action => (action, w ++ [Apply (plugin_name p)])
  | Raise _ =>
      (SMTP_ACTIONS "default",
       w ++ [Apply (plugin_name p);
             Log ERROR "<!> Error while applying plugin"])
  end.

(** Lines 56-59: the attribute or, without it, [['RCPT']]. *)
Definition target_protocol_state (p : plugin) : list string :=
  match SMTP_PROTOCOL_STATE p with
  | Some l => l
  | None => ["RCPT"]
  end.

(** Lines 54-68: the plugin loop.  [Some action] is the early
    [return action]; [None] means the loop ran to its end. *)
Fixpoint plugin_loop (protocol_state : string) (kw : plugin_kwargs)
         (plugins : list plugin) (w : trace) : option string * trace :=
  match plugins with
  | [] => (None, w)
  | p :: rest =>
      if negb (str_in protocol_state (target_protocol_state p)) then
        plugin_loop protocol_state kw rest
          (w ++ [Log DEBUG "Skip plugin: {} (protocol_state != {})"])
      else
        let '(action, w1) := apply_plugin p kw w in
        if negb (startswith "DUNNO" action) then (Some action, w1)
        else plugin_loop protocol_state kw rest w1
  end.

(** Lines 70-78: [try: ... except: pass]. *)
Definition close_sql_connections
           (c_vmail : connection)
           (c_amavisd c_iredapd : option connection)
           (w : trace) : trace :=
  match close c_vmail w with
  | (Raise _, w1) => w1
  | (Ok _, w1) =>
      match c_iredapd with
      | None => w1   (* None.close() is an AttributeError, swallowed *)
      | Some ci =>
          match close ci w1 with
          | (Raise _, w2) => w2
          | (Ok _, w2) =>
              match c_amavisd with
              | Some ca => snd (close ca w2)
              | None => w2
              end
          end
      end
  end.

Definition connect_opt (p : option pool) (w : trace)
  : option connection * trace :=
  match p with
  | Some p' => let '(c, w1) := connect p' w in (Some c, w1)
  | None => (None, w)
  end.

(** [Modeler.handle_data]; [plugins = None] is the default argument. *)
Definition handle_data (self : conns)
           (ssd : dict string)
           (plugins : option (list plugin))
           (w : trace) : result string * trace :=
  match plugins with
  | None | Some [] => (Ok (SMTP_ACTIONS "default" ++ " No enabled plugins")%string, w)
  | Some plugins =>
      match dict_get "protocol_state" ssd with
      | None => (Raise (KeyError "protocol_state"), w)
      | Some ps =>
          let protocol_state := upper ps in
          let sender_ := get "sender" "" ssd in
          let recipient_ := get "recipient" "" ssd in
          let client_address_ := get "client_address" "" ssd in
          let sasl_username_ := get "sasl_username" "" ssd in
          let '(c_vmail, w1) := connect (self_conn_vmail self) w in
          let '(c_amavisd, w2) := connect_opt (self_conn_amavisd self) w1 in
          let '(c_iredapd, w3) := connect_opt (self_conn_iredapd self) w2 in
          match dict_get "sender_without_ext" ssd with
          | None => (Raise (KeyError "sender_without_ext"), w3)
          | Some swe =>
              match dict_get "recipient_without_ext" ssd with
              | None => (Raise (KeyError "recipient_without_ext"), w3)
              | Some rwe =>
                  let kw := {|
                    smtp_session_data := ssd;
                    conn_vmail := c_vmail;
                    conn_amavisd := c_amavisd;
                    conn_iredapd := c_iredapd;
                    sender := sender_;
                    sender_without_ext := swe;
                    recipient := recipient_;
                    recipient_without_ext := rwe;
                    client_address := client_address_;
                    sender_domain := get "sender_domain" "" ssd;
                    recipient_domain := get "recipient_domain" "" ssd;
                    sasl_username := sasl_username_;
                    sasl_username_domain := get "sasl_username_domain" "" ssd
                  |} in
                  match plugin_loop protocol_state kw plugins w3 with
                  | (Some action, w4) => (Ok action, w4)
                  | (None, w4) =>
                      (Ok (SMTP_ACTIONS "default"),
                       close_sql_connections c_vmail c_amavisd c_iredapd w4)
                  end
              end
          end
      end
  end.

(** The plugin-kwargs that [handle_data] builds, for stating
    properties of the loop. *)
Definition kwargs_of (self : conns) (ssd : dict string) (swe rwe : string)
  : plugin_kwargs :=
  {| smtp_session_data := ssd;
     conn_vmail := checkout (self_conn_vmail self);
     conn_amavisd := option_map checkout (self_conn_amavisd self);
     conn_iredapd := option_map checkout (self_conn_iredapd self);
     sender := get "sender" "" ssd;
     sender_without_ext := swe;
     recipient := get "recipient" "" ssd;
     recipient_without_ext := rwe;
     client_address := get "client_address" "" ssd;
     sender_domain := get "sender_domain" "" ssd;
     recipient_domain := get "recipient_domain" "" ssd;
     sasl_username := get "sasl_username" "" ssd;
     sasl_username_domain := get "sasl_username_domain" "" ssd |}.

(** The verdict of one plugin: what [apply_plugin] returns for it. *)
Definition verdict (kw : plugin_kwargs) (p : plugin) : string :=
  fst (apply_plugin p kw []).

(** A verdict is DEFAULT when the dispatcher's test says so. *)
Definition is_default (action : string) : bool :=
  startswith "DUNNO" action.

(** The plugins that apply in a protocol state (line 61). *)
Definition applicable (protocol_state : string) (p : plugin) : bool :=
  str_in protocol_state (target_protocol_state p).

(** Names of the plugins applied, in order. *)
Definition applied (w : trace) : list string :=
  flat_map (fun e => match e with Apply n => [n] | _ => [] end) w.

(** Connections closed, in order. *)
Definition closed (w : trace) : list string :=
  flat_map (fun e => match e with Close n => [n] | _ => [] end) w.

(** Connections checked out, in order. *)
Definition connected (w : trace) : list string :=
  flat_map (fun e => match e with Connect n => [n] | _ => [] end) w.

(** Error-level records of a trace. *)
Definition errors_logged (w : trace) : list string :=
  flat_map (fun e => match e with Log ERROR m => [m] | _ => [] end) w.

(** What the loop does, in terms of the applicable plugins only. *)
Inductive loop_outcome (kw : plugin_kwargs) (chain : list plugin)
  : option string -> list string -> Prop :=
| Short_circuit (l1 : list plugin) (p : plugin) (l2 : list plugin) :
    chain = l1 ++ p :: l2 ->
    Forall (fun q => is_default (verdict kw q) = true) l1 ->
    is_default (verdict kw p) = false ->
    loop_outcome kw chain (Some (verdict kw p)) (map plugin_name (l1 ++ [p]))
| All_default :
    Forall (fun q => is_default (verdict kw q) = true) chain ->
    loop_outcome kw chain None (map plugin_name chain).

(** Every connection checked out in a trace is also closed in it. *)
Definition all_released (w : trace) : Prop :=
  forall c, In c (connected w) -> In c (closed w).

(** The names of the connections that [handle_data] checks out. *)
Definition acquired (self : conns) : list string :=
  conn_name (checkout (self_conn_vmail self))
    :: match self_conn_amavisd self with
       | Some p => [conn_name (checkout p)]
       | None => []
       end
    ++ match self_conn_iredapd self with
       | Some p => [conn_name (checkout p)]
       | None => []
       end.

End WithActions.

End Modeler.

(* ================================================================== *)
(** * plugins/ldap_maillist_access_policy.py *)
(* ================================================================== *)

Module MaillistAccessPolicy.

(** Attribute values as an LDAP search hands them out: the plugin runs
    them through [utils.bytes2str] on some paths and not on others, so
    [str] and [bytes] are told apart.  In Python 3 a [bytes] is never
    equal to a [str]. *)
Inductive pyval : Type :=
| PyStr (s : string)
| PyBytes (b : string).

Definition pyval_eqb (x y : pyval) : bool :=
  match x, y with
  | PyStr a, PyStr b => String.eqb a b
  | PyBytes a, PyBytes b => String.eqb a b
  | _, _ => false
  end.

(** [x in l] for a list of attribute values. *)
Definition py_in (x : pyval) (l : list pyval) : bool :=
  existsb (pyval_eqb x) l.

(** One entry of a search result, and the result of [search_s]. *)
Definition ldif : Type := dict (list pyval).
Definition query_result : Type := list (string * ldif).

(** The LDAP connection object: the one method the plugin calls,
    [search_s(base, scope, filterstr, attrlist)]. *)
Record ldap_conn : Type := {
  search_s : string -> nat -> string -> list string -> result query_result
}.

(** The keyword arguments [restriction] reads.  [recipient_ldif] is
    [None] or a dict whose values are lists of [str]. *)
Record kwargs : Type := {
  sasl_username : string;
  recipient_without_ext : string;
  recipient_ldif : option (dict (list string));
  conn_vmail : ldap_conn;
  sender_without_ext : string;
  sender_domain : string;
  recipient_domain : string
}.

(** Lines 96-100.  The loop walks [_domain_parts] by index while its
    body pops the head of that same list. *)
Fixpoint suffix_loop (fuel i : nat) (_domain_parts : list string)
         (_possible_sender_domains : list string) : list string :=
  match fuel with
  | O => _possible_sender_domains
  | S fuel' =>
      match nth_error _domain_parts i with
      | None => _possible_sender_domains
      | Some _ =>
          suffix_loop fuel' (S i) (tl _domain_parts)
            (_possible_sender_domains
               ++ [("." ++ join "." _domain_parts)%string])
      end
  end.

Definition possible_sender_domains (sender_domain : string) : list string :=
  let _domain_parts := split "." sender_domain in
  suffix_loop (List.length _domain_parts) 0 _domain_parts [sender_domain].

(** The dotted suffixes as the specification words them: one for every
    label of the sender domain, from the whole domain down to the last
    label alone. *)
Definition dotted_suffixes_as_specified (sender_domain : string) : list string :=
  let parts := split "." sender_domain in
  map (fun k => ("." ++ join "." (skipn k parts))%string)
      (seq 0 (List.length parts)).

(** Lines 215-218: what goes into [_domains] for an entry. *)
Definition stripped (s : string) : string :=
  if startswith "." s then lstrip "." s else s.

(** The elements at positions 0, 2, 4, ... of a list, and those at
    positions 1, 3, 5, ... *)
Fixpoint evens {A : Type} (l : list A) : list A :=
  match l with
  | [] => []
  | x :: l' => x :: match l' with [] => [] | _ :: l'' => evens l'' end
  end.

Definition odds {A : Type} (l : list A) : list A :=
  match l with [] => [] | _ :: l' => evens l' end.

(** Lines 146-149, 176-179, 246-249: values of the search attributes
    of every entry, after [conv]. *)
Definition collect (conv : ldif -> ldif) (search_attrs : list string)
           (qr : query_result) : list pyval :=
  flat_map (fun e => flat_map (fun k => get k [] (conv (snd e))) search_attrs) qr.

(** Lines 270-278: no [bytes2str] here; an entry one of whose values is
    in [_domains] contributes all its values, once per such value. *)
Definition collect_alias_domains (_domains : list string)
           (search_attrs : list string) (qr : query_result) : list pyval :=
  flat_map
    (fun e =>
       let _all_domains := flat_map (fun k => get k [] (snd e)) search_attrs in
       flat_map (fun domain =>
                   if py_in domain (map PyStr _domains) then _all_domains
                   else [])
                _all_domains)
    qr.

Section WithLibs.

(** Names that the plugin imports from modules that are not among
    the sources: the action table and the policy names of [libs],
    [settings.ldap_basedn], [utils.is_email], [utils.bytes2str],
    [conn_utils.get_primary_and_alias_domains]; [repr_exn] is
    Python's [repr] of an exception. *)
Variable SMTP_ACTIONS : string -> string.
Variables MAILLIST_POLICY_PUBLIC MAILLIST_POLICY_DOMAIN
          MAILLIST_POLICY_SUBDOMAIN MAILLIST_POLICY_MEMBERSONLY
          MAILLIST_POLICY_MODERATORS
          MAILLIST_POLICY_MEMBERSANDMODERATORSONLY : string.
Variable ldap_basedn : string.
Variable is_email : string -> bool.
Variable bytes2str : ldif -> ldif.
Variable get_primary_and_alias_domains :
  ldap_conn -> string -> result (list string).
Variable repr_exn : exn -> string.

(** Lines 207-221.  The loop walks [allowed_senders] by index while
    its body removes elements from that same list.  The result is
    [(allowed_senders, _users, _domains)] after the loop. *)
Fixpoint separate_loop (recipient_domain : string) (fuel i : nat)
         (allowed_senders _users _domains : list string)
  : list string * list string * list string :=
  match fuel with
  | O => (allowed_senders, _users, _domains)
  | S fuel' =>
      match nth_error allowed_senders i with
      | None => (allowed_senders, _users, _domains)
      | Some _as =>
          if is_email _as then
            if endswith ("@" ++ recipient_domain)%string _as then
              separate_loop recipient_domain fuel' (S i)
                (remove _as allowed_senders) (_users ++ [_as]) _domains
            else
              separate_loop recipient_domain fuel' (S i)
                allowed_senders _users _domains
          else
            separate_loop recipient_domain fuel' (S i)
              (remove _as allowed_senders) _users
              (_domains ++ [if startswith "." _as then lstrip "." _as
                            else _as])
      end
  end.

Definition separate (recipient_domain : string)
           (allowed_senders : list string)
  : list string * list string * list string :=
  separate_loop recipient_domain (List.length allowed_senders) 0
                allowed_senders [] [].

(** Lines 226-234 and 251-258: the two search filters. *)
Definition users_filter (_users : list string) : string :=
  ("(&(objectClass=mailUser)(enabledService=shadowaddress)(|"
     ++ String.concat ""
          (map (fun i => "(mail=" ++ i ++ ")(shadowAddress=" ++ i ++ ")")
               _users)
     ++ "))")%string.

Definition domains_filter (_domains : list string) : string :=
  ("(&(objectClass=mailDomain)(enabledService=domainalias)(|"
     ++ String.concat ""
          (map (fun i => "(domainName=" ++ i ++ ")(domainAliasName=" ++ i ++ ")")
               _domains)
     ++ "))")%string.

Definition members_filter (recipient : string) : string :=
  ("(&" ++ "(accountStatus=active)(memberOfGroup=" ++ recipient ++ ")"
        ++ "(|(objectclass=mailUser)(objectClass=mailExternalUser))"
        ++ ")")%string.

Definition members_and_moderators_filter (recipient : string) : string :=
  ("(|" ++ "(&(memberOfGroup=" ++ recipient
        ++ ")(|(objectClass=mailUser)(objectClass=mailExternalUser)))"
        ++ "(&(objectclass=mailList)(mail=" ++ recipient ++ "))"
        ++ ")")%string.

Definition search_logs : list log_record :=
  [(DEBUG, "search base dn: %s"); (DEBUG, "search scope: SUBTREE");
   (DEBUG, "search filter: %s"); (DEBUG, "search attributes: %s")].

Definition onelevel_logs : list log_record :=
  [(DEBUG, "base dn: %s"); (DEBUG, "search scope: ONELEVEL");
   (DEBUG, "search filter: %s"); (DEBUG, "search attributes: %s")].

Definition allowed_by_policy : log_record :=
  (INFO, "Sender ({}) is allowed by access policy of mailing list: {}.").

(** Lines 128-155. *)
Definition members_only (conn : ldap_conn) (recipient sender dn_rcpt_domain : string)
           (lg : list log_record) : result string * list log_record :=
  let _f := members_filter recipient in
  let search_attrs := ["mail"; "shadowAddress"] in
  let lg := lg ++ search_logs in
  match search_s conn dn_rcpt_domain 2 _f search_attrs with
  | Raise e => (Raise e, lg)
  | Ok qr =>
      let allowed_senders := collect bytes2str search_attrs qr in
      if py_in (PyStr sender) allowed_senders then
        (Ok (SMTP_ACTIONS "default"), lg ++ [allowed_by_policy])
      else (Ok (SMTP_ACTIONS "reject_not_authorized"), lg)
  end.

(** Lines 157-189. *)
Definition members_and_moderators_only (conn : ldap_conn)
           (recipient sender dn_rcpt_domain : string)
           (lg : list log_record) : result string * list log_record :=
  let _f := members_and_moderators_filter recipient in
  let search_attrs := ["mail"; "shadowAddress"; "listAllowedUser"] in
  let lg := lg ++ search_logs in
  match search_s conn dn_rcpt_domain 2 _f search_attrs with
  | Raise e =>
      let _msg :=
        ("Error while querying allowed senders of mailing list (access policy: "
           ++ MAILLIST_POLICY_MEMBERSANDMODERATORSONLY ++ "): "
           ++ repr_exn e)%string in
      (Ok (SMTP_ACTIONS "default" ++ " (" ++ _msg ++ ")")%string,
       lg ++ [(ERROR, _msg)])
  | Ok qr =>
      let lg := lg ++ [(DEBUG, "search result: %s")] in
      let allowed_senders := collect bytes2str search_attrs qr in
      if py_in (PyStr sender) allowed_senders then
        (Ok (SMTP_ACTIONS "default"), lg ++ [allowed_by_policy])
      else (Ok (SMTP_ACTIONS "reject_not_authorized"), lg)
  end.

(** Lines 226-249: per-user alias addresses of [_users]. *)
Definition expand_users (conn : ldap_conn) (dn_rcpt_domain : string)
           (_users : list string) (allowed_senders : list pyval)
           (lg : list log_record)
  : result (list pyval) * list log_record :=
  match _users with
  | [] => (Ok allowed_senders, lg)
  | _ =>
      let lg := lg ++ [(DEBUG, "[+] Getting per-account alias addresses of allowed senders.")] in
      let _basedn := ("ou=Users," ++ dn_rcpt_domain)%string in
      let _search_attrs := ["mail"; "shadowAddress"] in
      let lg := lg ++ onelevel_logs in
      match search_s conn _basedn 1 (users_filter _users) _search_attrs with
      | Raise e => (Raise e, lg)
      | Ok qr =>
          (Ok (allowed_senders ++ collect bytes2str _search_attrs qr),
           lg ++ [(DEBUG, "query result: %s")])
      end
  end.

(** Lines 251-278: alias domains of [_domains]. *)
Definition expand_domains (conn : ldap_conn)
           (_domains : list string) (allowed_senders : list pyval)
           (lg : list log_record)
  : result (list pyval) * list log_record :=
  match _domains with
  | [] => (Ok allowed_senders, lg)
  | _ =>
      let lg := lg ++ [(DEBUG, "[+] Getting alias domains of allowed sender (sub-)domains.")] in
      let _basedn := ldap_basedn in
      let _search_attrs := ["domainName"; "domainAliasName"] in
      let lg := lg ++ onelevel_logs in
      match search_s conn _basedn 1 (domains_filter _domains) _search_attrs with
      | Raise e => (Raise e, lg)
      | Ok qr =>
          (Ok (allowed_senders
                 ++ collect_alias_domains _domains _search_attrs qr),
           lg ++ [(DEBUG, "result: %s")])
      end
  end.

(** Lines 191-284. *)
Definition moderators (conn : ldap_conn)
           (sasl_username sender sender_domain recipient_domain
            dn_rcpt_domain : string)
           (explicitly_allowed_senders : list string)
           (lg : list log_record) : result string * list log_record :=
  if negb (truthy sasl_username) then
    (Ok (SMTP_ACTIONS "reject_not_authorized"), lg)
  else
    let allowed_senders :=
      filter (fun s => negb (startswith "*@" s)) explicitly_allowed_senders in
    let '(allowed_senders, _users, _domains) :=
      separate recipient_domain allowed_senders in
    let lg := lg ++ [(DEBUG, "Allowed users: %s");
                     (DEBUG, "Allowed domains: %s")] in
    match expand_users conn dn_rcpt_domain _users
                       (map PyStr allowed_senders) lg with
    | (Raise e, lg) => (Raise e, lg)
    | (Ok allowed_senders, lg) =>
        match expand_domains conn _domains allowed_senders lg with
        | (Raise e, lg) => (Raise e, lg)
        | (Ok allowed_senders, lg) =>
            if py_in (PyStr sender) allowed_senders
               || py_in (PyStr sender_domain) allowed_senders then
              (Ok (SMTP_ACTIONS "default"), lg ++ [allowed_by_policy])
            else (Ok (SMTP_ACTIONS "reject_not_authorized"), lg)
        end
    end.

(** Lines 111-286: the policy-specific part. *)
Definition verify_policy (kw : kwargs) (policy : string)
           (valid_rcpt_domains explicitly_allowed_senders : list string)
           (lg : list log_record) : result string * list log_record :=
  let conn := conn_vmail kw in
  let recipient := recipient_without_ext kw in
  let sender := sender_without_ext kw in
  let sender_domain := sender_domain kw in
  let recipient_domain := recipient_domain kw in
  let dn_rcpt_domain :=
    ("domainName=" ++ recipient_domain ++ "," ++ ldap_basedn)%string in
  if str_in policy [MAILLIST_POLICY_DOMAIN; MAILLIST_POLICY_SUBDOMAIN] then
    if String.eqb policy MAILLIST_POLICY_DOMAIN then
      if str_in sender_domain valid_rcpt_domains then
        (Ok (SMTP_ACTIONS "default"),
         lg ++ [(INFO, "Sender domain ({}) is allowed by access policy of mailing list: {}.")])
      else (Ok (SMTP_ACTIONS "reject_not_authorized"), lg)
    else if String.eqb policy MAILLIST_POLICY_SUBDOMAIN then
      if existsb (fun d => String.eqb sender_domain d
                           || endswith ("." ++ d)%string sender_domain)
                 valid_rcpt_domains then
        (Ok (SMTP_ACTIONS "default"),
         lg ++ [(INFO, "Sender domain ({}) is allowed by access policy of mailing list: {}.")])
      else (Ok (SMTP_ACTIONS "reject_not_authorized"), lg)
    else (Ok (SMTP_ACTIONS "reject_not_authorized"), lg)
  else if String.eqb policy MAILLIST_POLICY_MEMBERSONLY then
    members_only conn recipient sender dn_rcpt_domain lg
  else if String.eqb policy MAILLIST_POLICY_MEMBERSANDMODERATORSONLY then
    members_and_moderators_only conn recipient sender dn_rcpt_domain lg
  else if String.eqb policy MAILLIST_POLICY_MODERATORS then
    moderators conn (sasl_username kw) sender sender_domain recipient_domain
               dn_rcpt_domain explicitly_allowed_senders lg
  else
    (Ok (SMTP_ACTIONS "default" ++ " (Unknown access policy: " ++ policy
           ++ ", no restriction)")%string, lg).

(** Lines 66-106: moderators, owners and the explicit allow-list,
    which come before any policy. *)
Definition explicit_checks (kw : kwargs) (recipient_ldif : dict (list string))
           (policy : string) (lg : list log_record)
  : result string * list log_record :=
  let conn := conn_vmail kw in
  let sender := sender_without_ext kw in
  let sender_domain := sender_domain kw in
  let recipient_domain := recipient_domain kw in
  match get_primary_and_alias_domains conn recipient_domain with
  | Raise e => (Raise e, lg)
  | Ok valid_rcpt_domains =>
      let lg := lg ++ [(DEBUG, "Primary and all alias domain names of recipient domain ({}): {}")] in
      if str_in sender (get "listModerator" [] recipient_ldif) then
        (Ok (SMTP_ACTIONS "default"),
         lg ++ [(DEBUG, "Sender is a moderator. Bypass.")])
      else if str_in sender (get "listOwner" [] recipient_ldif) then
        (Ok (SMTP_ACTIONS "default"),
         lg ++ [(DEBUG, "Sender is an owner. Bypass.")])
      else
        let explicitly_allowed_senders :=
          get "listAllowedUser" [] recipient_ldif in
        if str_in sender explicitly_allowed_senders then
          (Ok (SMTP_ACTIONS "default" ++ "  (Sender is allowed explicitly: "
                 ++ sender ++ ")")%string, lg)
        else if str_in sender_domain explicitly_allowed_senders
                || str_in ("*@" ++ sender_domain)%string
                          explicitly_allowed_senders then
          (Ok (SMTP_ACTIONS "default"
                 ++ "  (Sender domain is allowed explicitly: "
                 ++ sender_domain ++ ")")%string, lg)
        else
          let _possible_sender_domains :=
            possible_sender_domains sender_domain in
          let lg := lg ++ [(DEBUG, "Sender domain and sub-domains: %s")] in
          if existsb (fun d => str_in d explicitly_allowed_senders)
                     _possible_sender_domains then
            (Ok (SMTP_ACTIONS "default"
                   ++ " (Sender domain or its sub-domain is explicitly allowed)")%string,
             lg)
          else
            let lg := lg ++ [(DEBUG, "Sender is not explicitly allowed, perform extra LDAP query to check access.")] in
            verify_policy kw policy valid_rcpt_domains
                          explicitly_allowed_senders lg
  end.

(** [restriction], lines 26-286. *)
Definition restriction (kw : kwargs) : result string * list log_record :=
  let sasl_username := sasl_username kw in
  let recipient := recipient_without_ext kw in
  if String.eqb sasl_username recipient then
    (Ok (SMTP_ACTIONS "default"
           ++ " (sasl_username == recipient, not a mail list account)")%string,
     [])
  else
    match recipient_ldif kw with
    | None | Some [] =>
        (Ok (SMTP_ACTIONS "default"
               ++ " (Recipient is not a local account - no LDIF data)")%string,
         [])
    | Some recipient_ldif =>
        match dict_get "objectClass" recipient_ldif with
        | None => (Raise (KeyError "objectClass"), [])
        | Some objectClass =>
            if negb (str_in "mailList" objectClass) then
              (Ok (SMTP_ACTIONS "default"
                     ++ " (Recipient is not a mailing list account)")%string,
               [])
            else if negb (list_eqb (get "accountStatus" [] recipient_ldif)
                                   ["active"]) then
              (Ok (SMTP_ACTIONS "reject"),
               [(DEBUG, "Recipient (mailing list) is disabled, message rejected.")])
            else
              match get "accessPolicy" [MAILLIST_POLICY_PUBLIC] recipient_ldif with
              | [] => (Raise IndexError, [])
              | p0 :: _ =>
                  let policy := lower p0 in
                  let lg := [(DEBUG, "Access policy of mailing list ({}): {}")] in
                  if String.eqb policy MAILLIST_POLICY_PUBLIC then
                    (Ok (SMTP_ACTIONS "default" ++ " (Access policy: "
                           ++ MAILLIST_POLICY_PUBLIC ++ ", no restriction)")%string,
                     lg)
                  else
                    let policy :=
                      if String.eqb policy "allowedonly"
                      then MAILLIST_POLICY_MODERATORS else policy in
                    if str_in "mlmmj" (get "enabledService" [] recipient_ldif)
                       && str_in policy [MAILLIST_POLICY_MEMBERSONLY;
                                         MAILLIST_POLICY_MODERATORS] then
                      (Ok (SMTP_ACTIONS "default"),
                       lg ++ [(DEBUG, "Recipient is a mlmmj mailing list, let mlmmj handle the ACL.")])
                    else
                      explicit_checks kw recipient_ldif policy lg
              end
        end
    end.

(** The log at the point where the policy-specific part starts. *)
Definition pre_policy_log : list log_record :=
  [(DEBUG, "Access policy of mailing list ({}): {}");
   (DEBUG, "Primary and all alias domain names of recipient domain ({}): {}");
   (DEBUG, "Sender domain and sub-domains: %s");
   (DEBUG, "Sender is not explicitly allowed, perform extra LDAP query to check access.")].

(** The conditions under which [restriction] gets as far as the
    policy-specific part (line 111) with policy name [policy] and
    recipient domains [valid_rcpt_domains]: steps 1 to 10 of the
    decision sequence all pass without a verdict. *)
Record reaches_policy (kw : kwargs) (ldif : dict (list string))
       (policy : string) (valid_rcpt_domains : list string) : Prop := {
  not_the_list_itself : sasl_username kw <> recipient_without_ext kw;
  has_entry : recipient_ldif kw = Some ldif;
  is_mail_list :
    exists oc, dict_get "objectClass" ldif = Some oc
               /\ str_in "mailList" oc = true;
  is_active : get "accountStatus" [] ldif = ["active"];
  reads_policy :
    exists p0 rest,
      get "accessPolicy" [MAILLIST_POLICY_PUBLIC] ldif = p0 :: rest
      /\ lower p0 <> MAILLIST_POLICY_PUBLIC
      /\ policy = (if String.eqb (lower p0) "allowedonly"
                   then MAILLIST_POLICY_MODERATORS else lower p0);
  not_delegated :
    str_in "mlmmj" (get "enabledService" [] ldif)
    && str_in policy [MAILLIST_POLICY_MEMBERSONLY; MAILLIST_POLICY_MODERATORS]
    = false;
  rcpt_domains :
    get_primary_and_alias_domains (conn_vmail kw) (recipient_domain kw)
    = Ok valid_rcpt_domains;
  not_moderator :
    str_in (sender_without_ext kw) (get "listModerator" [] ldif) = false;
  not_owner :
    str_in (sender_without_ext kw) (get "listOwner" [] ldif) = false;
  sender_not_listed :
    str_in (sender_without_ext kw) (get "listAllowedUser" [] ldif) = false;
  domain_not_listed :
    str_in (sender_domain kw) (get "listAllowedUser" [] ldif) = false;
  star_domain_not_listed :
    str_in ("*@" ++ sender_domain kw)%string (get "listAllowedUser" [] ldif)
    = false;
  no_suffix_listed :
    existsb (fun d => str_in d (get "listAllowedUser" [] ldif))
            (possible_sender_domains (sender_domain kw)) = false
}.

(** A DEFAULT verdict (the default action, with or without a reason
    after it) or REJECT-NOT-AUTHORIZED. *)
Definition default_or_not_authorized (a : string) : Prop :=
  (exists reason, a = (SMTP_ACTIONS "default" ++ reason)%string)
  \/ a = SMTP_ACTIONS "reject_not_authorized".

(** ** The same steps, as the specification words them *)

(** The allow-list split "into exactly two groups": the addresses local
    to the recipient domain, and the entries shaped like a domain name,
    with a leading dot stripped.  What is in neither group stays in the
    allow-list. *)
Definition separate_as_specified (recipient_domain : string)
           (allowed_senders : list string)
  : list string * list string * list string :=
  (filter (fun s => is_email s
                    && negb (endswith ("@" ++ recipient_domain)%string s))
          allowed_senders,
   filter (fun s => is_email s
                    && endswith ("@" ++ recipient_domain)%string s)
          allowed_senders,
   map (fun s => if startswith "." s then lstrip "." s else s)
       (filter (fun s => negb (is_email s)) allowed_senders)).

(** The MODERATORS branch over that split. *)
Definition moderators_as_specified (conn : ldap_conn)
           (sasl_username sender sender_domain recipient_domain
            dn_rcpt_domain : string)
           (explicitly_allowed_senders : list string)
  : result string :=
  if negb (truthy sasl_username) then
    Ok (SMTP_ACTIONS "reject_not_authorized")
  else
    let '(allowed_senders, _users, _domains) :=
      separate_as_specified
        recipient_domain
        (filter (fun s => negb (startswith "*@" s)) explicitly_allowed_senders) in
    match fst (expand_users conn dn_rcpt_domain _users
                            (map PyStr allowed_senders) []) with
    | Raise e => Raise e
    | Ok allowed_senders =>
        match fst (expand_domains conn _domains allowed_senders []) with
        | Raise e => Raise e
        | Ok allowed_senders =>
            if py_in (PyStr sender) allowed_senders
               || py_in (PyStr sender_domain) allowed_senders then
              Ok (SMTP_ACTIONS "default")
            else Ok (SMTP_ACTIONS "reject_not_authorized")
        end
    end.

End WithLibs.

End MaillistAccessPolicy.

(* ================================================================== *)
(** * plugins/reject_sender_login_mismatch.py *)
(* ================================================================== *)

Module RejectSenderLoginMismatch.

(** A decoded JSON document ([r.json()]).  Numbers are kept as their
    truth value only. *)
#[local] Unset Elimination Schemes.
Inductive json : Type :=
| JNull
| JBool (b : bool)
| JNumber (nonzero : bool)
| JString (s : string)
| JArray (l : list json)
| JObject (d : list (string * json)).
#[local] Set Elimination Schemes.

(** Python truth value of a decoded JSON document. *)
Definition json_truthy (j : json) : bool :=
  match j with
  | JNull => false
  | JBool b => b
  | JNumber nz => nz
  | JString s => truthy s
  | JArray l => match l with [] => false | _ => true end
  | JObject d => match d with [] => false | _ => true end
  end.

(** [j[key]] for a string key: a dict is looked up, anything else
    refuses the subscript. *)
Definition json_getitem (key : string) (j : json) : result json :=
  match j with
  | JObject d =>
      match dict_get key d with
      | Some v => Ok v
      | None => Raise (KeyError key)
      end
  | _ => Raise TypeError
  end.

(** A [requests] response: [r.json()] decodes the body or raises. *)
Record response : Type := { json_of : result json }.

(** The backend connection: [conn.execute(sql).fetchone()] gives a row
    or [None]. *)
Record conn : Type := {
  execute_fetchone : string -> result (option string)
}.

Record kwargs : Type := {
  sasl_username : string;
  sasl_username_domain : string;
  sender_without_ext : string;
  recipient_domain : string;
  client_address : string;
  conn_vmail : conn
}.

(** The names of [settings] that the plugin reads. *)
Record settings : Type := {
  backend : string;
  CHECK_FORGED_SENDER : bool;
  ALLOWED_FORGED_SENDERS : list string;
  ALLOWED_LOGIN_MISMATCH_SENDERS : list string;
  ALLOWED_LOGIN_MISMATCH_STRICTLY : bool;
  ALLOWED_LOGIN_MISMATCH_LIST_MEMBER : bool;
  CHECK_SPF_IF_LOGIN_MISMATCH : bool;
  mlmmjadmin_api_auth_token : string;
  mlmmjadmin_api_endpoint : string;
  MLMMJADMIN_API_AUTH_TOKEN_HEADER_NAME : string
}.

(** Where the checks of lines 230-356 leave the function: at a
    [return], or at line 358 with [_check_mlmmj_ml] and [real_sender]. *)
Inductive flow : Type :=
| Returned (r : result string)
| Falls (_check_mlmmj_ml : bool) (real_sender : string).

Definition LF : string := String "010"%char EmptyString.

Fixpoint spaces (n : nat) : string :=
  match n with
  | O => EmptyString
  | S n' => String " "%char (spaces n')
  end.

(** Line 126: [sasl_username.split('@', 1)[0]]. *)
Definition user_of (sasl_username : string) : string :=
  hd EmptyString (split1 "@" sasl_username).

(** Truth value of the [dn] half of [get_account_ldif]'s pair. *)
Definition dn_truthy (dn : option string) : bool :=
  match dn with Some s => truthy s | None => false end.

Section WithLibs.

(** Names that the plugin imports from modules that are not among
    the sources: [libs.SMTP_ACTIONS], [settings],
    [utils.is_trusted_client], [is_local_domain] of the configured
    backend, [dnsspf.is_allowed_server_in_spf],
    [conn_utils.get_account_ldif] (of whose pair only the [dn] is
    read), [web.sqlquote], [requests.get]. *)
Variable SMTP_ACTIONS : string -> string.
Variable st : settings.
Variable is_trusted_client : string -> bool.
Variable is_local_domain : conn -> string -> bool -> result bool.
Variable is_allowed_server_in_spf : string -> string -> result bool.
Variable get_account_ldif :
  conn -> string -> string -> list string -> result (option string).
Variable sqlquote : string -> string.
Variable requests_get : string -> dict string -> result response.

(** Lines 110-120: module-level names. *)
Definition check_forged_sender : bool := CHECK_FORGED_SENDER st.
Definition allowed_forged_senders : list string := ALLOWED_FORGED_SENDERS st.
Definition allowed_senders : list string := ALLOWED_LOGIN_MISMATCH_SENDERS st.
Definition is_strict : bool := ALLOWED_LOGIN_MISMATCH_STRICTLY st.
Definition allow_list_member : bool := ALLOWED_LOGIN_MISMATCH_LIST_MEMBER st.
Definition action_reject : string := SMTP_ACTIONS "reject_sender_login_mismatch".

Definition nonempty (l : list string) : bool :=
  match l with [] => false | _ => true end.

(** Lines 149-196: no [sasl_username]. *)
Definition unauthenticated (kw : kwargs)
           (sender sender_name sender_domain : string)
  : result string * list log_record :=
  let recipient_domain := recipient_domain kw in
  let client_address := client_address kw in
  let conn := conn_vmail kw in
  let lg := [(DEBUG, "Not an authenticated sender (no sasl_username).")] in
  if is_trusted_client client_address then
    (Ok (SMTP_ACTIONS "default"), lg ++ [(DEBUG, "Bypass trusted client.")])
  else if negb check_forged_sender then
    (Ok (SMTP_ACTIONS "default"), lg ++ [(DEBUG, "Skip forged sender checks.")])
  else if str_in sender allowed_forged_senders
          || str_in sender_domain allowed_forged_senders
          || str_in (sender_name ++ "@*")%string allowed_forged_senders then
    (Ok (SMTP_ACTIONS "default"), lg ++ [(DEBUG, "Bypass allowed forged sender.")])
  else
    let local :=
      if String.eqb sender_domain recipient_domain then
        (Ok true, lg ++ [(DEBUG, "Sender domain is same as recipient domain.")])
      else
        match is_local_domain conn sender_domain false with
        | Raise e => (Raise e, lg)
        | Ok true =>
            (Ok true,
             lg ++ [(DEBUG, "Sender domain is hosted locally, smtp authentication is required.")])
        | Ok false =>
            (Ok false, lg ++ [(DEBUG, "Sender domain is NOT hosted locally.")])
        end in
    match local with
    | (Raise e, lg) => (Raise e, lg)
    | (Ok false, lg) => (Ok (SMTP_ACTIONS "default"), lg)
    | (Ok true, lg) =>
        let forged :=
          (Ok (SMTP_ACTIONS "reject_forged_sender"),
           [(DEBUG, "Sender is considered as forged, rejecting")]) in
        if CHECK_SPF_IF_LOGIN_MISMATCH st then
          let lg := lg ++ [(DEBUG, "Check whether client is allowed smtp server against DNS SPF record.")] in
          match is_allowed_server_in_spf sender_domain client_address with
          | Raise e => (Raise e, lg)
          | Ok true =>
              (Ok (SMTP_ACTIONS "default"),
               lg ++ [(DEBUG, "Sender server is listed in DNS SPF record, bypassed.")])
          | Ok false =>
              (fst forged,
               lg ++ [(DEBUG, "Sender server is NOT listed in DNS SPF record.")]
                  ++ snd forged)
          end
        else (fst forged, lg ++ snd forged)
    end.

(** Lines 241-277: the LDAP backend. *)
Definition ldap_checks (kw : kwargs) (sender : string)
           (lg : list log_record) : flow * list log_record :=
  let sasl_username := sasl_username kw in
  let conn := conn_vmail kw in
  let filter_user_alias :=
    ("(&(objectClass=mailUser)(mail=" ++ sasl_username
       ++ ")(shadowAddress=" ++ sender ++ "))")%string in
  let filter_list_member :=
    ("(&(objectClass=mailUser)(|(mail=" ++ sasl_username
       ++ ")(shadowAddress=" ++ sasl_username
       ++ "))(memberOfGroup=" ++ sender ++ "))")%string in
  let filter_alias_member :=
    ("(&(objectClass=mailAlias)(|(mail=" ++ sender
       ++ ")(shadowAddress=" ++ sender
       ++ "))(mailForwardingAddress=" ++ sasl_username ++ "))")%string in
  let '(query_filter, success_msg) :=
    if is_strict && negb allow_list_member then
      (filter_user_alias, "Sender is an user alias address.")
    else if negb is_strict && allow_list_member then
      (("(|" ++ filter_list_member ++ filter_alias_member ++ ")")%string,
       "Sender ({}) is member of mail list/alias ({}).")
    else
      (("(|" ++ filter_user_alias ++ filter_list_member
             ++ filter_alias_member ++ ")")%string,
       "Sender ({}) is an user alias address or list/alias member ({}).") in
  match get_account_ldif conn sasl_username query_filter ["dn"] with
  | Raise e => (Returned (Raise e), lg)
  | Ok _dn =>
      if dn_truthy _dn then
        (Returned (Ok (SMTP_ACTIONS "default")), lg ++ [(DEBUG, success_msg)])
      else
        let lg := lg ++ [(DEBUG, "Sender is neither user alias address nor member of list/alias.")] in
        let query_filter :=
          "(&(objectClass=mailList)(enabledService=mlmmj)(accountStatus=active))" in
        match get_account_ldif conn sender query_filter ["dn"] with
        | Raise e => (Returned (Raise e), lg)
        | Ok _dn => (Falls (dn_truthy _dn) sender, lg)
        end
  end.

Definition sql_user_alias (sender real_sasl_username
                           real_sasl_username_user sasl_username_domain : string)
  : string :=
  ("SELECT address" ++ LF
     ++ spaces 27 ++ "FROM forwardings" ++ LF
     ++ spaces 26 ++ "WHERE address=" ++ sqlquote sender
     ++ " AND (forwarding=" ++ sqlquote real_sasl_username
     ++ " OR forwarding LIKE "
     ++ sqlquote (real_sasl_username_user ++ "+%%@" ++ sasl_username_domain)
     ++ ") AND is_alias=1" ++ LF
     ++ spaces 26 ++ "LIMIT 1")%string.

Definition sql_alias_domain (sender_domain sasl_username_domain : string)
  : string :=
  ("SELECT alias_domain" ++ LF
     ++ spaces 31 ++ "FROM alias_domain" ++ LF
     ++ spaces 30 ++ "WHERE alias_domain=" ++ sqlquote sender_domain
     ++ " AND target_domain=" ++ sqlquote sasl_username_domain ++ LF
     ++ spaces 30 ++ "LIMIT 1")%string.

Definition sql_alias_member (real_sender real_sasl_username : string)
  : string :=
  ("SELECT forwarding" ++ LF
     ++ spaces 27 ++ "FROM forwardings" ++ LF
     ++ spaces 26 ++ "WHERE address=" ++ sqlquote real_sender
     ++ " AND forwarding=" ++ sqlquote real_sasl_username
     ++ " AND is_list=1 AND active=1" ++ LF
     ++ spaces 26 ++ "LIMIT 1")%string.

Definition sql_maillist (real_sender : string) : string :=
  ("SELECT id FROM maillists WHERE address=" ++ sqlquote real_sender
     ++ " AND active=1 LIMIT 1")%string.

(** Lines 280-325: [is_strict] on an SQL backend.  [inl] is a
    [return] (or an exception); [inr] carries [real_sasl_username]
    and [real_sender] on to line 327. *)
Definition sql_strict (kw : kwargs)
           (sender sender_name sender_domain sasl_username_user : string)
           (lg : list log_record)
  : (result string + string * string) * list log_record :=
  let sasl_username := sasl_username kw in
  let sasl_username_domain := sasl_username_domain kw in
  let conn := conn_vmail kw in
  let real_sasl_username := sasl_username in
  let real_sasl_username_user := sasl_username_user in
  let real_sender := sender in
  let sql := sql_user_alias sender real_sasl_username
                            real_sasl_username_user sasl_username_domain in
  let lg := lg ++ [(DEBUG, "[SQL] query per-user alias address: " ++ LF ++ "%s")%string] in
  match execute_fetchone conn sql with
  | Raise e => (inl (Raise e), lg)
  | Ok sql_record =>
      let lg := lg ++ [(DEBUG, "SQL query result: %s")] in
      match sql_record with
      | Some _ =>
          (inl (Ok (SMTP_ACTIONS "default")),
           lg ++ [(DEBUG, "Sender {} is an alias address of smtp auth username {}.")])
      | None =>
          let lg := lg ++ [(DEBUG, "No per-user alias address found.")] in
          if negb (String.eqb sender_domain sasl_username_domain) then
            let sql := sql_alias_domain sender_domain sasl_username_domain in
            let lg := lg ++ [(DEBUG, "[SQL] query alias domains: " ++ LF ++ "%s")%string] in
            match execute_fetchone conn sql with
            | Raise e => (inl (Raise e), lg)
            | Ok sql_record =>
                let lg := lg ++ [(DEBUG, "SQL query result: %s")] in
                match sql_record with
                | None =>
                    (inr (real_sasl_username, real_sender),
                     lg ++ [(DEBUG, "No alias domain found.")])
                | Some _ =>
                    let lg := lg ++ [(DEBUG, "Sender domain {} is an alias domain of {}.")] in
                    let real_sasl_username :=
                      (sasl_username_user ++ "@" ++ sasl_username_domain)%string in
                    let real_sender :=
                      (sender_name ++ "@" ++ sasl_username_domain)%string in
                    if negb (String.eqb sender_name sasl_username_user) then
                      (inr (real_sasl_username, real_sender),
                       lg ++ [(DEBUG, "Sender is not an user alias address.")])
                    else
                      (inl (Ok (SMTP_ACTIONS "default")),
                       lg ++ [(DEBUG, "Sender is an alias address of sasl username.")])
                end
            end
          else (inr (real_sasl_username, real_sender), lg)
      end
  end.

(** Lines 327-356: [allow_list_member] on an SQL backend. *)
Definition sql_list_member (kw : kwargs)
           (real_sasl_username real_sender : string)
           (lg : list log_record) : flow * list log_record :=
  let conn := conn_vmail kw in
  let sql := sql_alias_member real_sender real_sasl_username in
  let lg := lg ++ [(DEBUG, "[SQL] query members of mail alias account ({}): " ++ LF ++ "{}")%string] in
  match execute_fetchone conn sql with
  | Raise e => (Returned (Raise e), lg)
  | Ok sql_record =>
      let lg := lg ++ [(DEBUG, "SQL query result: %s")] in
      match sql_record with
      | Some _ =>
          (Returned (Ok (SMTP_ACTIONS "default")),
           lg ++ [(DEBUG, "SASL username ({}) is a member of mail alias ({}).")])
      | None =>
          let lg := lg ++ [(DEBUG, "No such mail alias account.")] in
          let sql := sql_maillist real_sender in
          let lg := lg ++ [(DEBUG, "[SQL] query mailing list account ({}): " ++ LF ++ "{}")%string] in
          match execute_fetchone conn sql with
          | Raise e => (Returned (Raise e), lg)
          | Ok sql_record =>
              let lg := lg ++ [(DEBUG, "SQL query result: %s")] in
              match sql_record with
              | Some _ => (Falls true real_sender, lg)
              | None =>
                  (Falls false real_sender,
                   lg ++ [(DEBUG, "No such mailing list account.")])
              end
          end
      end
  end.

(** Lines 230-356: alias domains, user alias addresses, list
    membership. *)
Definition alias_and_member_checks (kw : kwargs)
           (sender sender_name sender_domain sasl_username_user : string)
           (lg : list log_record) : flow * list log_record :=
  if is_strict || allow_list_member then
    let lg := if is_strict
              then lg ++ [(DEBUG, "Apply strict restriction (ALLOWED_LOGIN_MISMATCH_STRICTLY=True).")]
              else lg in
    let lg := if allow_list_member
              then lg ++ [(DEBUG, "Apply list/alias member restriction (ALLOWED_LOGIN_MISMATCH_LIST_MEMBER=True).")]
              else lg in
    if String.eqb (backend st) "ldap" then
      ldap_checks kw sender lg
    else if str_in (backend st) ["mysql"; "pgsql"] then
      let strict :=
        if is_strict then
          sql_strict kw sender sender_name sender_domain sasl_username_user lg
        else (inr (sasl_username kw, sender), lg) in
      match strict with
      | (inl r, lg) => (Returned r, lg)
      | (inr (real_sasl_username, real_sender), lg) =>
          if allow_list_member then
            sql_list_member kw real_sasl_username real_sender lg
          else (Falls false real_sender, lg)
      end
    else (Falls false sender, lg)
  else (Falls false sender, lg).

(** Lines 358-376: the mlmmjadmin query and the final reject. *)
Definition mlmmj_check (_check_mlmmj_ml : bool)
           (real_sender sasl_username : string) (lg : list log_record)
  : result string * list log_record :=
  if _check_mlmmj_ml then
    let api_auth_token := mlmmjadmin_api_auth_token st in
    if truthy api_auth_token && truthy (mlmmjadmin_api_endpoint st) then
      let _api_endpoint :=
        join "/" [mlmmjadmin_api_endpoint st; real_sender;
                  "has_subscriber"; sasl_username] in
      let api_headers :=
        [(MLMMJADMIN_API_AUTH_TOKEN_HEADER_NAME st, api_auth_token)] in
      let lg := lg ++ [(DEBUG, "mlmmjadmin api endpoint: {}");
                       (DEBUG, "mlmmjadmin api headers: {}")] in
      let caught :=
        (Ok action_reject,
         lg ++ [(ERROR, "Error while querying mlmmjadmin api: {}")]) in
      match requests_get _api_endpoint api_headers with
      | Raise _ => caught
      | Ok r =>
          match json_of r with
          | Raise _ => caught
          | Ok _json =>
              match json_getitem "_success" _json with
              | Raise _ => caught
              | Ok v =>
                  if json_truthy v then
                    (Ok (SMTP_ACTIONS "default"),
                     lg ++ [(DEBUG, "SASL username ({}) is a member of mailing list ({}).")])
                  else (Ok action_reject, lg)
              end
          end
      end
    else (Ok action_reject, lg)
  else (Ok action_reject, lg).

(** Lines 230-376: everything after the explicit allow-list. *)
Definition after_allow_list (kw : kwargs)
           (sender sender_name sender_domain sasl_username_user : string)
           (lg : list log_record) : result string * list log_record :=
  match alias_and_member_checks kw sender sender_name sender_domain
                                sasl_username_user lg with
  | (Returned r, lg) => (r, lg)
  | (Falls _check_mlmmj_ml real_sender, lg) =>
      mlmmj_check _check_mlmmj_ml real_sender (sasl_username kw) lg
  end.

(** Lines 198-376: an authenticated sender. *)
Definition authenticated (kw : kwargs)
           (sender sender_name sender_domain sasl_username_user : string)
  : result string * list log_record :=
  let sasl_username := sasl_username kw in
  let sasl_username_domain := sasl_username_domain kw in
  let lg := [(DEBUG, "Sender: {}, SASL username: {}")] in
  let continue :=
    after_allow_list kw sender sender_name sender_domain sasl_username_user in
  if String.eqb sender sasl_username then
    (Ok (SMTP_ACTIONS "default"),
     lg ++ [(DEBUG, "SKIP: sender == sasl username.")])
  else if negb (nonempty allowed_senders || is_strict || allow_list_member) then
    (Ok action_reject, lg ++ [(DEBUG, "No allowed senders in config file.")])
  else if nonempty allowed_senders then
    let lg := lg ++ [(DEBUG, "Allowed SASL senders: %s")] in
    if str_in sasl_username allowed_senders then
      (Ok (SMTP_ACTIONS "default"),
       lg ++ [(DEBUG, "Sender SASL username is explicitly allowed.")])
    else if str_in sasl_username_domain allowed_senders then
      (Ok (SMTP_ACTIONS "default"),
       lg ++ [(DEBUG, "Sender domain name is explicitly allowed.")])
    else if str_in ("@" ++ sasl_username_domain)%string allowed_senders
            || str_in "@." allowed_senders then
      if String.eqb sasl_username_domain sender_domain then
        (Ok (SMTP_ACTIONS "default"), lg)
      else continue lg
    else
      continue
        (lg ++ [(DEBUG, "Sender is not allowed to send email as other user (ALLOWED_LOGIN_MISMATCH_SENDERS).")])
  else continue lg.

(** Lines 130-133: [sender.split('@', 1)] unpacked into two names. *)
Definition split_sender (sender : string) : result (string * string) :=
  if truthy sender then
    match split1 "@" sender with
    | [sender_name; sender_domain] => Ok (sender_name, sender_domain)
    | _ => Raise ValueError
    end
  else Ok (EmptyString, EmptyString).

(** [restriction], lines 123-376. *)
Definition restriction (kw : kwargs) : result string * list log_record :=
  let sasl_username := sasl_username kw in
  let sasl_username_user := user_of sasl_username in
  let sender := sender_without_ext kw in
  match split_sender sender with
  | Raise e => (Raise e, [])
  | Ok (sender_name, sender_domain) =>
      if truthy sasl_username && negb (truthy sender) then
        (Ok (SMTP_ACTIONS "default"), [])
      else if negb (truthy sasl_username) then
        unauthenticated kw sender sender_name sender_domain
      else
        authenticated kw sender sender_name sender_domain sasl_username_user
  end.

End WithLibs.

End RejectSenderLoginMismatch.

(* ================================================================== *)
(** * Sample deployments, for concrete runs *)
(* ================================================================== *)

Module Samples.

(** An action table in the shape of [libs.SMTP_ACTIONS]. *)
Definition actions (k : string) : string :=
  if String.eqb k "default" then "DUNNO"
  else if String.eqb k "reject" then "REJECT Not authorized"
  else if String.eqb k "reject_not_authorized" then "REJECT Not authorized"
  else if String.eqb k "reject_forged_sender" then
    "REJECT SMTP AUTH is required for users under this sender domain"
  else if String.eqb k "reject_sender_login_mismatch" then
    "REJECT Sender is not same as SMTP authenticate username"
  else EmptyString.

(** ** A dispatcher with three pools and a chain of five plugins *)

Definition pool_of (name : string) (raises : bool) : Modeler.pool :=
  {| Modeler.checkout :=
       {| Modeler.conn_name := name; Modeler.close_raises := raises |} |}.

Definition three_pools : Modeler.conns :=
  {| Modeler.self_conn_vmail := pool_of "vmail" false;
     Modeler.self_conn_amavisd := Some (pool_of "amavisd" false);
     Modeler.self_conn_iredapd := Some (pool_of "iredapd" false) |}.

(** The same pools, but closing the vmail connection fails. *)
Definition failing_pools : Modeler.conns :=
  {| Modeler.self_conn_vmail := pool_of "vmail" true;
     Modeler.self_conn_amavisd := Some (pool_of "amavisd" false);
     Modeler.self_conn_iredapd := Some (pool_of "iredapd" false) |}.

Definition session : dict string :=
  [("protocol_state", "rcpt");
   ("sender", "bob+x@example.com");
   ("sender_without_ext", "bob@example.com");
   ("recipient", "list@lists.org");
   ("recipient_without_ext", "list@lists.org");
   ("client_address", "192.0.2.7");
   ("sender_domain", "example.com");
   ("recipient_domain", "lists.org");
   ("sasl_username", "alice@example.com");
   ("sasl_username_domain", "example.com")].

Definition plugin_eom : Modeler.plugin :=
  {| Modeler.plugin_name := "eom_only";
     Modeler.SMTP_PROTOCOL_STATE := Some ["END-OF-MESSAGE"];
     Modeler.restriction := fun _ => Ok "REJECT never at RCPT" |}.

Definition plugin_dunno : Modeler.plugin :=
  {| Modeler.plugin_name := "no_opinion";
     Modeler.SMTP_PROTOCOL_STATE := None;
     Modeler.restriction := fun _ => Ok "DUNNO (nothing to say)" |}.

Definition plugin_broken : Modeler.plugin :=
  {| Modeler.plugin_name := "broken";
     Modeler.SMTP_PROTOCOL_STATE := Some ["RCPT"; "END-OF-MESSAGE"];
     Modeler.restriction := fun _ => Raise (KeyError "recipient_ldif") |}.

Definition plugin_reject : Modeler.plugin :=
  {| Modeler.plugin_name := "rejecting";
     Modeler.SMTP_PROTOCOL_STATE := Some ["RCPT"];
     Modeler.restriction :=
       fun kw =>
         if String.eqb (Modeler.sender_without_ext kw) (Modeler.sasl_username kw)
         then Ok "DUNNO" else Ok "REJECT Not authorized" |}.

Definition plugin_late : Modeler.plugin :=
  {| Modeler.plugin_name := "late";
     Modeler.SMTP_PROTOCOL_STATE := Some ["RCPT"];
     Modeler.restriction := fun _ => Ok "DEFER too late" |}.

Definition chain : list Modeler.plugin :=
  [plugin_eom; plugin_dunno; plugin_broken; plugin_reject; plugin_late].

(** A chain in which every plugin that applies has no opinion. *)
Definition quiet_chain : list Modeler.plugin :=
  [plugin_eom; plugin_dunno; plugin_broken].

(** The same without the plugin that raises. *)
Definition silent_chain : list Modeler.plugin :=
  [plugin_eom; plugin_dunno].


(** ** A directory and a mailing list *)

Definition PUBLIC := "public".
Definition DOMAIN := "domain".
Definition SUBDOMAIN := "subdomain".
Definition MEMBERSONLY := "membersonly".
Definition MODERATORS := "moderatorsonly".
Definition MEMBERSANDMODERATORSONLY := "membersandmoderatorsonly".

(** An address has an at-sign with something on both sides. *)
Definition is_email (s : string) : bool :=
  match split1 "@" s with
  | [n; d] => truthy n && truthy d
  | _ => false
  end.

(** Decoding turns every [bytes] value into the [str] of the same
    characters. *)
Definition bytes2str (l : MaillistAccessPolicy.ldif) : MaillistAccessPolicy.ldif :=
  map (fun kv =>
         (fst kv,
          map (fun v => match v with
                        | MaillistAccessPolicy.PyBytes b => MaillistAccessPolicy.PyStr b
                        | _ => v
                        end) (snd kv)))
      l.

Definition repr_exn (e : exn) : string :=
  match e with
  | IndexError => "IndexError('list index out of range')"
  | KeyError k => ("KeyError('" ++ k ++ "')")%string
  | ValueError => "ValueError()"
  | AttributeError => "AttributeError()"
  | TypeError => "TypeError()"
  | BackendError what => what
  end.

(** [sub in s] *)
Fixpoint contains (sub s : string) : bool :=
  String.prefix sub s
  || match s with
     | EmptyString => false
     | String _ r => contains sub r
     end.

(** A directory with one alias-domain entry (b.com, alias b-alias.com)
    and one member of list@lists.org; it answers a search by looking
    for the attribute tests in the filter, and hands out [str] values
    for domains and [bytes] values for users. *)
Definition directory : MaillistAccessPolicy.ldap_conn :=
  {| MaillistAccessPolicy.search_s := fun base scope filterstr attrs =>
       if contains "(domainName=b.com)" filterstr then
         Ok [("domainName=b.com,o=domains,dc=example,dc=com",
              [("domainName", [MaillistAccessPolicy.PyStr "b.com"]);
               ("domainAliasName", [MaillistAccessPolicy.PyStr "b-alias.com"])])]
       else if contains "(memberOfGroup=list@lists.org)" filterstr then
         Ok [("mail=member@lists.org,ou=Users,domainName=lists.org,o=domains,dc=example,dc=com",
              [("mail", [MaillistAccessPolicy.PyBytes "member@lists.org"]);
               ("shadowAddress", [MaillistAccessPolicy.PyBytes "m@alias.org"])])]
       else Ok [] |}.

(** A directory that is down. *)
Definition broken_directory : MaillistAccessPolicy.ldap_conn :=
  {| MaillistAccessPolicy.search_s := fun _ _ _ _ =>
       Raise (BackendError "SERVER_DOWN({'desc': 'Can not contact LDAP server'})") |}.

Definition primary_and_alias_domains (_ : MaillistAccessPolicy.ldap_conn)
           (domain : string) : result (list string) :=
  Ok [domain].

(** The entry of an active mailing list. *)
Definition list_entry (accessPolicy allowed : list string) : dict (list string) :=
  [("objectClass", ["mailList"; "amavisAccount"]);
   ("accountStatus", ["active"]);
   ("accessPolicy", accessPolicy);
   ("listAllowedUser", allowed)].

(** A message to list@lists.org. *)
Definition to_list (conn : MaillistAccessPolicy.ldap_conn)
           (sasl sender sender_domain : string)
           (entry : dict (list string)) : MaillistAccessPolicy.kwargs :=
  {| MaillistAccessPolicy.sasl_username := sasl;
     MaillistAccessPolicy.recipient_without_ext := "list@lists.org";
     MaillistAccessPolicy.recipient_ldif := Some entry;
     MaillistAccessPolicy.conn_vmail := conn;
     MaillistAccessPolicy.sender_without_ext := sender;
     MaillistAccessPolicy.sender_domain := sender_domain;
     MaillistAccessPolicy.recipient_domain := "lists.org" |}.

Definition access_policy (kw : MaillistAccessPolicy.kwargs)
  : result string * list log_record :=
  MaillistAccessPolicy.restriction
    actions PUBLIC DOMAIN SUBDOMAIN MEMBERSONLY MODERATORS
    MEMBERSANDMODERATORSONLY "o=domains,dc=example,dc=com"
    is_email bytes2str primary_and_alias_domains repr_exn kw.


(** ** A login-mismatch configuration on an SQL backend *)

Definition settings_with (allowed : list string) (strict member spf : bool)
  : RejectSenderLoginMismatch.settings :=
  {| RejectSenderLoginMismatch.backend := "mysql";
     RejectSenderLoginMismatch.CHECK_FORGED_SENDER := true;
     RejectSenderLoginMismatch.ALLOWED_FORGED_SENDERS := ["support@*"];
     RejectSenderLoginMismatch.ALLOWED_LOGIN_MISMATCH_SENDERS := allowed;
     RejectSenderLoginMismatch.ALLOWED_LOGIN_MISMATCH_STRICTLY := strict;
     RejectSenderLoginMismatch.ALLOWED_LOGIN_MISMATCH_LIST_MEMBER := member;
     RejectSenderLoginMismatch.CHECK_SPF_IF_LOGIN_MISMATCH := spf;
     RejectSenderLoginMismatch.mlmmjadmin_api_auth_token := "s3cr3t";
     RejectSenderLoginMismatch.mlmmjadmin_api_endpoint :=
       "http://127.0.0.1:7790/api";
     RejectSenderLoginMismatch.MLMMJADMIN_API_AUTH_TOKEN_HEADER_NAME :=
       "X-MLMMJADMIN-API-AUTH-TOKEN" |}.

(** A database in which bob@example.com is an alias address of
    alice@example.com, and in which list@example.com is an active
    mailing list and nothing else. *)
Definition database : RejectSenderLoginMismatch.conn :=
  {| RejectSenderLoginMismatch.execute_fetchone := fun sql =>
       if contains "FROM maillists WHERE address='list@example.com'" sql
       then Ok (Some "(7,)")
       else if contains "WHERE address='bob@example.com' AND (forwarding='alice@example.com'" sql
       then Ok (Some "('bob@example.com',)")
       else Ok None |}.

Definition is_trusted_client (client_address : string) : bool :=
  String.eqb client_address "127.0.0.1".

Definition is_local_domain (_ : RejectSenderLoginMismatch.conn)
           (domain : string) (include_backupmx : bool) : result bool :=
  Ok (String.eqb domain "example.com").

Definition is_allowed_server_in_spf (sender_domain ip : string) : result bool :=
  Ok false.

Definition get_account_ldif (_ : RejectSenderLoginMismatch.conn)
           (account query_filter : string) (attrs : list string)
  : result (option string) :=
  Ok None.

Definition sqlquote (s : string) : string := ("'" ++ s ++ "'")%string.

(** Four answers of the mlmmjadmin API. *)
Definition api_down (url : string) (headers : dict string)
  : result RejectSenderLoginMismatch.response :=
  Raise (BackendError "ConnectionError").

Definition api_garbage (url : string) (headers : dict string)
  : result RejectSenderLoginMismatch.response :=
  Ok {| RejectSenderLoginMismatch.json_of :=
          Raise (BackendError "JSONDecodeError") |}.

Definition api_without_field (url : string) (headers : dict string)
  : result RejectSenderLoginMismatch.response :=
  Ok {| RejectSenderLoginMismatch.json_of :=
          Ok (RejectSenderLoginMismatch.JArray []) |}.

Definition api_subscribed (url : string) (headers : dict string)
  : result RejectSenderLoginMismatch.response :=
  if String.eqb url
       "http://127.0.0.1:7790/api/list@example.com/has_subscriber/alice@example.com"
  then Ok {| RejectSenderLoginMismatch.json_of :=
               Ok (RejectSenderLoginMismatch.JObject
                     [("_success", RejectSenderLoginMismatch.JBool true)]) |}
  else Ok {| RejectSenderLoginMismatch.json_of :=
               Ok (RejectSenderLoginMismatch.JObject
                     [("_success", RejectSenderLoginMismatch.JBool false);
                      ("_msg", RejectSenderLoginMismatch.JString "NO_SUCH_SUBSCRIBER")]) |}.

(** alice@example.com, or nobody, sends from 192.0.2.7 to
    rcpt@example.org. *)
Definition sent_as (sasl sasl_domain sender : string)
  : RejectSenderLoginMismatch.kwargs :=
  {| RejectSenderLoginMismatch.sasl_username := sasl;
     RejectSenderLoginMismatch.sasl_username_domain := sasl_domain;
     RejectSenderLoginMismatch.sender_without_ext := sender;
     RejectSenderLoginMismatch.recipient_domain := "example.org";
     RejectSenderLoginMismatch.client_address := "192.0.2.7";
     RejectSenderLoginMismatch.conn_vmail := database |}.

Definition login_mismatch (st : RejectSenderLoginMismatch.settings)
           (requests_get : string -> dict string
                           -> result RejectSenderLoginMismatch.response)
           (kw : RejectSenderLoginMismatch.kwargs)
  : result string * list log_record :=
  RejectSenderLoginMismatch.restriction
    actions st is_trusted_client is_local_domain is_allowed_server_in_spf
    get_account_ldif sqlquote requests_get kw.

End Samples.

(* ================================================================== *)
(** * Properties of the dispatcher *)
(* ================================================================== *)

Module ModelerProofs.
Import Modeler.

Section WithActions.

Variable SMTP_ACTIONS : string -> string.

#[local] Abbreviation verdict := (verdict SMTP_ACTIONS).
#[local] Abbreviation apply_plugin := (apply_plugin SMTP_ACTIONS).
#[local] Abbreviation plugin_loop := (plugin_loop SMTP_ACTIONS).
#[local] Abbreviation handle_data := (handle_data SMTP_ACTIONS).
#[local] Abbreviation loop_outcome := (loop_outcome SMTP_ACTIONS).

Lemma applied_app (w1 w2 : trace) :
  applied (w1 ++ w2) = applied w1 ++ applied w2.
Proof. unfold applied. apply flat_map_app. Qed.

Lemma closed_app (w1 w2 : trace) :
  closed (w1 ++ w2) = closed w1 ++ closed w2.
Proof. unfold closed. apply flat_map_app. Qed.

Lemma errors_logged_app (w1 w2 : trace) :
  errors_logged (w1 ++ w2) = errors_logged w1 ++ errors_logged w2.
Proof. unfold errors_logged. apply flat_map_app. Qed.

Lemma applied_map_Connect (cs : list string) : applied (map Connect cs) = [].
Proof. induction cs as [|c cs IH]; [reflexivity | exact IH]. Qed.

Lemma applied_map_Close (cs : list string) : applied (map Close cs) = [].
Proof. induction cs as [|c cs IH]; [reflexivity | exact IH]. Qed.

Lemma closed_map_Close (cs : list string) : closed (map Close cs) = cs.
Proof.
  induction cs as [|c cs IH]; [reflexivity|].
  change (closed (map Close (c :: cs))) with (c :: closed (map Close cs)).
  now rewrite IH.
Qed.

Lemma errors_logged_map_Close (cs : list string) :
  errors_logged (map Close cs) = [].
Proof. induction cs as [|c cs IH]; [reflexivity | exact IH]. Qed.

(** [apply_plugin] returns the plugin's verdict whatever the trace,
    and records exactly one application. *)
Lemma apply_plugin_verdict (p : plugin) (kw : plugin_kwargs) (w : trace) :
  fst (apply_plugin p kw w) = verdict kw p.
Proof.
  unfold Modeler.verdict, Modeler.apply_plugin.
  destruct (restriction p kw); reflexivity.
Qed.

Lemma apply_plugin_applied (p : plugin) (kw : plugin_kwargs) (w : trace) :
  applied (snd (apply_plugin p kw w)) = applied w ++ [plugin_name p].
Proof.
  unfold Modeler.apply_plugin.
  destruct (restriction p kw); simpl; rewrite applied_app; reflexivity.
Qed.

Lemma plugin_loop_outcome (ps : string) (kw : plugin_kwargs)
      (plugins : list plugin) :
  forall w,
  exists names,
    loop_outcome kw (filter (applicable ps) plugins)
                 (fst (plugin_loop ps kw plugins w)) names
    /\ applied (snd (plugin_loop ps kw plugins w)) = applied w ++ names.
Proof.
  induction plugins as [|p rest IH]; intros w.
  - exists []. split; [apply All_default; constructor | simpl; now rewrite app_nil_r].
  - simpl. unfold applicable at 1.
    destruct (str_in ps (target_protocol_state p)) eqn:Happ; simpl.
    + destruct (apply_plugin p kw w) as [action w1] eqn:Hap.
      pose proof (apply_plugin_verdict p kw w) as Hv.
      pose proof (apply_plugin_applied p kw w) as Ha.
      rewrite Hap in Hv, Ha. simpl in Hv, Ha. subst action.
      destruct (startswith "DUNNO" (verdict kw p)) eqn:Hd; simpl.
      * destruct (IH w1) as (names & Hout & Happl).
        exists (plugin_name p :: names). split.
        -- inversion Hout as [l1 q l2 Hc Hall Hq Hr Hn | Hall Hr Hn].
           ++ rewrite Hc.
              change (plugin_name p :: map plugin_name (l1 ++ [q]))
                with (map plugin_name ((p :: l1) ++ [q])).
              apply (Short_circuit SMTP_ACTIONS kw (p :: l1 ++ q :: l2) (p :: l1) q l2);
                [reflexivity | constructor; assumption | assumption].
           ++ change (plugin_name p :: map plugin_name (filter (applicable ps) rest))
                with (map plugin_name (p :: filter (applicable ps) rest)).
              apply All_default. constructor; assumption.
        -- rewrite Happl, Ha, <- app_assoc. reflexivity.
      * exists [plugin_name p]. split.
        -- apply (Short_circuit SMTP_ACTIONS kw _ [] p (filter (applicable ps) rest));
             [reflexivity | constructor | exact Hd].
        -- exact Ha.
    + destruct (IH (w ++ [Log DEBUG "Skip plugin: {} (protocol_state != {})"]))
        as (names & Hout & Happl).
      exists names. split; [exact Hout|].
      rewrite Happl, applied_app. simpl. now rewrite app_nil_r.
Qed.

(** The trace right before the loop: the connections are checked out
    in the order vmail, amavisd, iredapd. *)
Lemma handle_data_unfold (self : conns) (ssd : dict string)
      (p0 : plugin) (rest : list plugin) (w : trace) (ps swe rwe : string) :
  dict_get "protocol_state" ssd = Some ps ->
  dict_get "sender_without_ext" ssd = Some swe ->
  dict_get "recipient_without_ext" ssd = Some rwe ->
  let kw := kwargs_of self ssd swe rwe in
  let looped :=
    plugin_loop (upper ps) kw (p0 :: rest) (w ++ map Connect (acquired self)) in
  handle_data self ssd (Some (p0 :: rest)) w =
  match looped with
  | (Some action, w4) => (Ok action, w4)
  | (None, w4) =>
      (Ok (SMTP_ACTIONS "default"),
       close_sql_connections (conn_vmail kw) (conn_amavisd kw)
                             (conn_iredapd kw) w4)
  end.
Proof.
  intros Hps Hswe Hrwe. unfold Modeler.handle_data.
  rewrite Hps, Hswe, Hrwe.
  destruct self as [pv [pa|] [pi|]];
    unfold acquired, kwargs_of, connect_opt, connect;
    cbn [self_conn_vmail self_conn_amavisd self_conn_iredapd
         option_map map app conn_vmail conn_amavisd conn_iredapd];
    rewrite <- ?app_assoc; reflexivity.
Qed.

(** The closing block appends nothing but [Close] events. *)
Lemma close_sql_connections_trace (cv : connection)
      (ca ci : option connection) (w : trace) :
  exists cs,
    close_sql_connections cv ca ci w = w ++ map Close cs
    /\ incl cs (conn_name cv
                  :: match ca with Some c => [conn_name c] | None => [] end
                  ++ match ci with Some c => [conn_name c] | None => [] end)
    /\ (close_raises cv = false -> In (conn_name cv) cs)
    /\ (close_raises cv = false ->
        (forall c, ca = Some c -> close_raises c = false) ->
        (exists c, ci = Some c /\ close_raises c = false) ->
        cs = conn_name cv
               :: match ci with Some c => [conn_name c] | None => [] end
               ++ match ca with Some c => [conn_name c] | None => [] end).
Proof.
  unfold close_sql_connections, close.
  destruct (close_raises cv) eqn:Hv.
  { exists []. split; [|split; [|split]]; try discriminate.
    - simpl. now rewrite app_nil_r.
    - intros c []. }
  destruct ci as [ci|].
  2:{ exists [conn_name cv]. split; [|split; [|split]].
      - reflexivity.
      - intros c [<-|[]]. now left.
      - intros _. now left.
      - intros _ _ (c & Hc & _). discriminate. }
  destruct (close_raises ci) eqn:Hi.
  { exists [conn_name cv]. split; [|split; [|split]].
    - reflexivity.
    - intros c [<-|[]]. now left.
    - intros _. now left.
    - intros _ _ (c & Hc & Hr). injection Hc as <-. congruence. }
  destruct ca as [ca|].
  2:{ exists [conn_name cv; conn_name ci]. split; [|split; [|split]].
      - simpl. now rewrite <- app_assoc.
      - intros c [<-|[<-|[]]]; simpl; auto.
      - intros _. now left.
      - reflexivity. }
  destruct (close_raises ca) eqn:Ha.
  { exists [conn_name cv; conn_name ci]. split; [|split; [|split]].
    - simpl. now rewrite <- app_assoc.
    - intros c [<-|[<-|[]]]; simpl; auto.
    - intros _. now left.
    - intros _ H _. specialize (H ca eq_refl). congruence. }
  exists [conn_name cv; conn_name ci; conn_name ca].
  split; [|split; [|split]].
  - simpl. now rewrite <- !app_assoc.
  - intros c [<-|[<-|[<-|[]]]]; simpl; auto.
  - intros _. now left.
  - reflexivity.
Qed.

(** C1.  Short-circuit correctness of the dispatcher.  With no plugin
    list, or an empty one, [handle_data] returns the default action
    followed by " No enabled plugins" and touches nothing.  With a
    non-empty list, look at the plugins whose target protocol states
    (the [SMTP_PROTOCOL_STATE] attribute, [['RCPT']] for a plugin
    without one) contain the upper-cased protocol state of the session,
    in configured order.  Either one of them is the first whose verdict
    does not start with DUNNO: then that verdict is returned, and the
    plugins applied are exactly the applicable ones up to and including
    it, so none after it runs.  Or all of them answer DUNNO: then the
    global default action is returned and all of them were applied. *)
Theorem handle_data_short_circuit
        (self : conns) (ssd : dict string) (plugins : list plugin)
        (w : trace) (ps swe rwe : string) :
  dict_get "protocol_state" ssd = Some ps ->
  dict_get "sender_without_ext" ssd = Some swe ->
  dict_get "recipient_without_ext" ssd = Some rwe ->
  handle_data self ssd None w
  = (Ok (SMTP_ACTIONS "default" ++ " No enabled plugins")%string, w)
  /\ handle_data self ssd (Some []) w
     = (Ok (SMTP_ACTIONS "default" ++ " No enabled plugins")%string, w)
  /\ (plugins <> [] ->
      let kw := kwargs_of self ssd swe rwe in
      let chain := filter (applicable (upper ps)) plugins in
      let out := handle_data self ssd (Some plugins) w in
      (exists l1 p l2,
          chain = l1 ++ p :: l2
          /\ Forall (fun q => is_default (verdict kw q) = true) l1
          /\ is_default (verdict kw p) = false
          /\ fst out = Ok (verdict kw p)
          /\ applied (snd out) = applied w ++ map plugin_name (l1 ++ [p]))
      \/ (Forall (fun q => is_default (verdict kw q) = true) chain
          /\ fst out = Ok (SMTP_ACTIONS "default")
          /\ applied (snd out) = applied w ++ map plugin_name chain)).
Proof.
  intros Hps Hswe Hrwe. split; [reflexivity|]. split; [reflexivity|].
  intros Hne kw chain out.
  destruct plugins as [|p0 rest]; [contradiction|].
  pose proof (handle_data_unfold self ssd p0 rest w ps swe rwe Hps Hswe Hrwe)
    as Hun. cbv zeta in Hun. fold kw in Hun.
  destruct (plugin_loop_outcome (upper ps) kw (p0 :: rest)
                                (w ++ map Connect (acquired self)))
    as (names & Hout & Happl).
  assert (Hconn : applied (w ++ map Connect (acquired self)) = applied w).
  { rewrite applied_app.
    rewrite applied_map_Connect. apply app_nil_r. }
  rewrite Hconn in Happl.
  destruct (plugin_loop (upper ps) kw (p0 :: rest)
                        (w ++ map Connect (acquired self)))
    as [[action|] w4] eqn:Hloop; simpl in Hout, Happl.
  - inversion Hout as [l1 q l2 Hc Hall Hq Hr Hn | ]; subst.
    left. exists l1, q, l2. subst out. rewrite Hun. cbn [fst snd].
    repeat split; assumption.
  - inversion Hout as [ | Hall Hn]; subst.
    right. subst out. rewrite Hun. cbn [fst snd].
    repeat split; try assumption.
    destruct (close_sql_connections_trace (conn_vmail kw) (conn_amavisd kw)
                                          (conn_iredapd kw) w4)
      as (cs & -> & _).
    rewrite applied_app, Happl.
    rewrite applied_map_Close. apply app_nil_r.
Qed.



End WithActions.

Lemma handle_data_short_circuit_witness :
  let out := Modeler.handle_data Samples.actions Samples.three_pools
                                 Samples.session (Some Samples.chain) [] in
  Modeler.handle_data Samples.actions Samples.three_pools Samples.session
                      (Some []) []
  = (Ok "DUNNO No enabled plugins", [])
  /\ fst out = Ok "REJECT Not authorized"
  /\ applied (snd out) = ["no_opinion"; "broken"; "rejecting"].
Proof.
  destruct (handle_data_short_circuit
              Samples.actions Samples.three_pools Samples.session Samples.chain []
              "rcpt" "bob@example.com" "list@lists.org"
              eq_refl eq_refl eq_refl)
    as (_ & Hempty & Hchain).
  split; [exact Hempty|].
  split; reflexivity.
Defined.



End ModelerProofs.

(* ================================================================== *)
(** * Properties of the mailing-list access policy *)
(* ================================================================== *)

Module AccessPolicyProofs.
Import MaillistAccessPolicy.

(** ** The suffix loop *)

(** With enough fuel the loop of lines 98-100 stops on its own: the
    index runs into the end of the list that shrinks under it. *)
Lemma suffix_loop_spec (fuel : nat) :
  forall (i : nat) (parts acc : list string),
    List.length parts <= fuel + i ->
    suffix_loop fuel i parts acc
    = acc ++ map (fun k => ("." ++ join "." (skipn k parts))%string)
                 (seq 0 ((List.length parts + 1 - i) / 2)).
Proof.
  induction fuel as [|fuel IH]; intros i parts acc Hlen; cbn [suffix_loop].
  - replace ((List.length parts + 1 - i) / 2) with 0.
    + cbn [seq map]. now rewrite app_nil_r.
    + symmetry. apply Nat.div_small. lia.
  - destruct (nth_error parts i) as [x|] eqn:Hnth.
    + assert (Hi : i < List.length parts).
      { apply nth_error_Some. congruence. }
      destruct parts as [|p parts']; [simpl in Hi; lia|].
      rewrite IH by (simpl in *; lia).
      cbn [tl List.length] in *.
      replace ((S (List.length parts') + 1 - i) / 2)
        with (S ((List.length parts' + 1 - S i) / 2)).
      * cbn [seq map]. rewrite <- app_assoc. cbn [app skipn].
        f_equal. f_equal. rewrite <- seq_shift, map_map. reflexivity.
      * replace (S (List.length parts') + 1 - i)
          with (1 * 2 + (List.length parts' + 1 - S i)) by lia.
        rewrite Nat.div_add_l by lia. lia.
    + apply nth_error_None in Hnth.
      replace ((List.length parts + 1 - i) / 2) with 0.
      * cbn [seq map]. now rewrite app_nil_r.
      * symmetry. apply Nat.div_small. lia.
Qed.

Lemma split_nonempty (sep : ascii) (s : string) :
  1 <= List.length (split sep s).
Proof.
  destruct s as [|c r]; cbn [split List.length]; [lia|].
  destruct (Ascii.eqb c sep); [cbn [List.length]; lia|].
  destruct (split sep r); cbn [List.length]; lia.
Qed.

Lemma firstn_seq_min (n start len : nat) :
  firstn n (seq start len) = seq start (Nat.min n len).
Proof.
  revert start len. induction n as [|n IH]; intros start [|len];
    cbn [firstn seq Nat.min]; try reflexivity.
  now rewrite IH.
Qed.

(** X5.  What lines 96-100 compute: the sender domain, then the dotted
    suffixes of the first half of its labels only. *)
Lemma possible_sender_domains_half (sender_domain : string) :
  possible_sender_domains sender_domain
  = sender_domain
      :: firstn ((List.length (split "." sender_domain) + 1) / 2)
                (dotted_suffixes_as_specified sender_domain).
Proof.
  unfold possible_sender_domains, dotted_suffixes_as_specified.
  rewrite suffix_loop_spec by lia.
  cbn [app]. f_equal.
  rewrite Nat.sub_0_r, firstn_map, firstn_seq_min. f_equal. f_equal.
  symmetry. apply Nat.min_l.
  pose proof (split_nonempty "." sender_domain).
  apply Nat.Div0.div_le_upper_bound. lia.
Qed.


(** ** The resolver *)

Lemma append_empty_r (s : string) : (s ++ "")%string = s.
Proof. induction s as [|c s IH]; simpl; [reflexivity | now rewrite IH]. Qed.

Section WithLibs.

Variable SMTP_ACTIONS : string -> string.
Variables MAILLIST_POLICY_PUBLIC MAILLIST_POLICY_DOMAIN
          MAILLIST_POLICY_SUBDOMAIN MAILLIST_POLICY_MEMBERSONLY
          MAILLIST_POLICY_MODERATORS
          MAILLIST_POLICY_MEMBERSANDMODERATORSONLY : string.
Variable ldap_basedn : string.
Variable is_email : string -> bool.
Variable bytes2str : ldif -> ldif.
Variable get_primary_and_alias_domains :
  ldap_conn -> string -> result (list string).
Variable repr_exn : exn -> string.

#[local] Abbreviation restriction :=
  (restriction SMTP_ACTIONS MAILLIST_POLICY_PUBLIC MAILLIST_POLICY_DOMAIN
               MAILLIST_POLICY_SUBDOMAIN MAILLIST_POLICY_MEMBERSONLY
               MAILLIST_POLICY_MODERATORS
               MAILLIST_POLICY_MEMBERSANDMODERATORSONLY ldap_basedn
               is_email bytes2str get_primary_and_alias_domains repr_exn).
#[local] Abbreviation explicit_checks :=
  (explicit_checks SMTP_ACTIONS MAILLIST_POLICY_DOMAIN
               MAILLIST_POLICY_SUBDOMAIN MAILLIST_POLICY_MEMBERSONLY
               MAILLIST_POLICY_MODERATORS
               MAILLIST_POLICY_MEMBERSANDMODERATORSONLY ldap_basedn
               is_email bytes2str get_primary_and_alias_domains repr_exn).
#[local] Abbreviation verify_policy :=
  (verify_policy SMTP_ACTIONS MAILLIST_POLICY_DOMAIN
               MAILLIST_POLICY_SUBDOMAIN MAILLIST_POLICY_MEMBERSONLY
               MAILLIST_POLICY_MODERATORS
               MAILLIST_POLICY_MEMBERSANDMODERATORSONLY ldap_basedn
               is_email bytes2str repr_exn).
#[local] Abbreviation reaches_policy :=
  (reaches_policy MAILLIST_POLICY_PUBLIC MAILLIST_POLICY_MEMBERSONLY
                  MAILLIST_POLICY_MODERATORS get_primary_and_alias_domains).
#[local] Abbreviation moderators :=
  (moderators SMTP_ACTIONS ldap_basedn is_email bytes2str).
#[local] Abbreviation members_only := (members_only SMTP_ACTIONS bytes2str).
#[local] Abbreviation members_and_moderators_only :=
  (members_and_moderators_only
     SMTP_ACTIONS MAILLIST_POLICY_MEMBERSANDMODERATORSONLY bytes2str repr_exn).
#[local] Abbreviation verdict_ok := (default_or_not_authorized SMTP_ACTIONS).

(** ** The allow-list loop *)

Lemma remove_length (x : string) (l : list string) :
  List.length (remove x l) <= List.length l.
Proof.
  induction l as [|y l IH]; cbn [remove List.length]; [lia|].
  destruct (String.eqb x y); cbn [List.length]; lia.
Qed.

(** The fuel [separate] gives the loop of lines 207-221 is enough: the
    loop stops because the index reaches the end of the list, and more
    fuel changes nothing. *)
Lemma separate_loop_fuel (rd : string) (fuel : nat) :
  forall (extra i : nat) (l us ds : list string),
    List.length l <= fuel + i ->
    separate_loop is_email rd (fuel + extra) i l us ds
    = separate_loop is_email rd fuel i l us ds.
Proof.
  induction fuel as [|fuel IH]; intros extra i l us ds Hlen.
  - cbn [Nat.add separate_loop].
    destruct extra as [|extra]; [reflexivity|]. cbn [separate_loop].
    replace (nth_error l i) with (@None string); [reflexivity|].
    symmetry. apply nth_error_None. lia.
  - cbn [Nat.add separate_loop].
    destruct (nth_error l i) as [_as|]; [|reflexivity].
    pose proof (remove_length _as l).
    destruct (is_email _as); [destruct (endswith _ _)|];
      apply IH; lia.
Qed.

(** Steps 1 to 10 passed: the resolver is at the policy-specific part. *)
Lemma restriction_reaches_policy (kw : kwargs) (ldif : dict (list string))
      (policy : string) (valid : list string) :
  reaches_policy kw ldif policy valid ->
  restriction kw
  = verify_policy kw policy valid (get "listAllowedUser" [] ldif)
                  pre_policy_log.
Proof.
  intros [H1 H2 (oc & Hoc & Hml) Hact (p0 & rest & Hp & Hnp & Hpol)
             Hdel Hdom Hmod Hown Hs Hd Hsd Hsuf].
  unfold MaillistAccessPolicy.restriction.
  apply String.eqb_neq in H1. rewrite H1, H2.
  destruct ldif as [|e ldif']; [discriminate|].
  rewrite Hoc, Hml, Hact, Hp. cbn [negb list_eqb].
  rewrite String.eqb_refl. cbn [andb negb].
  apply String.eqb_neq in Hnp. rewrite Hnp.
  rewrite <- Hpol, Hdel.
  unfold MaillistAccessPolicy.explicit_checks.
  rewrite Hdom, Hmod, Hown, Hs, Hd, Hsd, Hsuf.
  reflexivity.
Qed.

(** ** Which verdicts come out *)

Ltac verdict_cases H :=
  repeat match type of H with
         | fst (if ?b then _ else _) = _ => destruct b eqn:?
         | fst (match ?x with _ => _ end) = _ => destruct x eqn:?
         | fst (let '(_, _) := ?x in _) = _ => destruct x eqn:?
         end;
  cbn [fst] in H; try discriminate H;
  try (injection H as <-;
       first [ right; reflexivity
             | left; eexists; reflexivity
             | left; exists EmptyString; symmetry; apply append_empty_r ]).

Lemma members_only_verdict conn recipient sender dn lg a :
  fst (members_only conn recipient sender dn lg) = Ok a -> verdict_ok a.
Proof.
  unfold MaillistAccessPolicy.members_only. intros H. verdict_cases H.
Qed.

Lemma members_and_moderators_only_verdict conn recipient sender dn lg a :
  fst (members_and_moderators_only conn recipient sender dn lg) = Ok a ->
  verdict_ok a.
Proof.
  unfold MaillistAccessPolicy.members_and_moderators_only.
  intros H. verdict_cases H.
Qed.

Lemma moderators_verdict conn sasl sender sender_domain rd dn eas lg a :
  fst (moderators conn sasl sender sender_domain rd dn eas lg) = Ok a ->
  verdict_ok a.
Proof.
  unfold MaillistAccessPolicy.moderators. intros H.
  destruct (negb (truthy sasl)); [verdict_cases H|].
  destruct (separate is_email rd _) as [[al us] ds].
  destruct (expand_users _ _ _ _ _ _) as [[al1|e1] lg1];
    [|discriminate H].
  destruct (expand_domains _ _ _ _ _) as [[al2|e2] lg2];
    [|discriminate H].
  verdict_cases H.
Qed.

Lemma verify_policy_verdict kw policy valid eas lg a :
  fst (verify_policy kw policy valid eas lg) = Ok a -> verdict_ok a.
Proof.
  unfold MaillistAccessPolicy.verify_policy. intros H.
  destruct (str_in policy _); [verdict_cases H|].
  destruct (String.eqb policy MAILLIST_POLICY_MEMBERSONLY);
    [now apply members_only_verdict in H|].
  destruct (String.eqb policy MAILLIST_POLICY_MEMBERSANDMODERATORSONLY);
    [now apply members_and_moderators_only_verdict in H|].
  destruct (String.eqb policy MAILLIST_POLICY_MODERATORS);
    [now apply moderators_verdict in H|].
  verdict_cases H.
Qed.

Lemma explicit_checks_verdict kw ldif policy lg a :
  fst (explicit_checks kw ldif policy lg) = Ok a -> verdict_ok a.
Proof.
  unfold MaillistAccessPolicy.explicit_checks. intros H.
  destruct (get_primary_and_alias_domains _ _) as [valid|e];
    [|discriminate H].
  destruct (str_in _ (get "listModerator" [] ldif)); [verdict_cases H|].
  destruct (str_in _ (get "listOwner" [] ldif)); [verdict_cases H|].
  destruct (str_in _ (get "listAllowedUser" [] ldif)); [verdict_cases H|].
  destruct (_ || _); [verdict_cases H|].
  destruct (existsb _ _); [verdict_cases H|].
  now apply verify_policy_verdict in H.
Qed.

(** C4, as the code has it.  Whenever [restriction] returns, the verdict
    is a DEFAULT (the default action, with or without a reason after
    it), or REJECT-NOT-AUTHORIZED, or the plain [SMTP_ACTIONS['reject']]
    that a mailing list whose [accountStatus] is not [['active']] gets;
    it is never a DEFER or another action.  Nothing is said about the
    inputs on which [restriction] raises. *)
Theorem restriction_verdicts (kw : kwargs) (a : string) :
  fst (restriction kw) = Ok a ->
  (exists reason, a = (SMTP_ACTIONS "default" ++ reason)%string)
  \/ a = SMTP_ACTIONS "reject_not_authorized"
  \/ (a = SMTP_ACTIONS "reject"
      /\ exists ldif, recipient_ldif kw = Some ldif
                      /\ get "accountStatus" [] ldif <> ["active"]).
Proof.
  unfold MaillistAccessPolicy.restriction. intros H.
  destruct (String.eqb (sasl_username kw) (recipient_without_ext kw)).
  { injection H as <-. left. eexists. reflexivity. }
  destruct (recipient_ldif kw) as [[|e ldif']|] eqn:Hldif;
    try (injection H as <-; left; eexists; reflexivity).
  destruct (dict_get "objectClass" (e :: ldif')) as [oc|]; [|discriminate H].
  destruct (negb (str_in "mailList" oc)).
  { injection H as <-. left. eexists. reflexivity. }
  destruct (negb (list_eqb (get "accountStatus" [] (e :: ldif')) ["active"]))
    eqn:Hact.
  { injection H as <-. right. right. split; [reflexivity|].
    exists (e :: ldif'). split; [reflexivity|].
    intros Heq. rewrite Heq in Hact. discriminate Hact. }
  destruct (get "accessPolicy" [MAILLIST_POLICY_PUBLIC] (e :: ldif'))
    as [|p0 rest]; [discriminate H|].
  destruct (String.eqb (lower p0) MAILLIST_POLICY_PUBLIC).
  { injection H as <-. left. eexists. reflexivity. }
  destruct (_ && _).
  { injection H as <-. left. exists EmptyString. symmetry.
    apply append_empty_r. }
  apply explicit_checks_verdict in H. destruct H as [H|H]; auto.
Qed.


(** C9.  For an active mailing list whose entry has an [accessPolicy]
    attribute with no value, and a sender that has not logged in as
    the list itself, reading the policy raises [IndexError]: the
    resolver gives no verdict.  An entry without the attribute is
    taken as PUBLIC instead. *)
Theorem empty_access_policy_raises
        (kw : kwargs) (ldif : dict (list string)) (oc : list string) :
  sasl_username kw <> recipient_without_ext kw ->
  recipient_ldif kw = Some ldif ->
  dict_get "objectClass" ldif = Some oc ->
  str_in "mailList" oc = true ->
  get "accountStatus" [] ldif = ["active"] ->
  (dict_get "accessPolicy" ldif = Some [] ->
   restriction kw = (Raise IndexError, []))
  /\ (dict_get "accessPolicy" ldif = None ->
      lower MAILLIST_POLICY_PUBLIC = MAILLIST_POLICY_PUBLIC ->
      fst (restriction kw)
      = Ok (SMTP_ACTIONS "default" ++ " (Access policy: "
              ++ MAILLIST_POLICY_PUBLIC ++ ", no restriction)")%string).
Proof.
  intros H1 H2 Hoc Hml Hact.
  unfold MaillistAccessPolicy.restriction.
  apply String.eqb_neq in H1. rewrite H1, H2.
  destruct ldif as [|e ldif']; [discriminate|].
  rewrite Hoc, Hml, Hact. cbn [negb list_eqb].
  rewrite String.eqb_refl. cbn [andb negb].
  unfold get at 1 3.
  split; intros Hp.
  - rewrite Hp. reflexivity.
  - intros Hlow. rewrite Hp, Hlow, String.eqb_refl. reflexivity.
Qed.

(** ** The MODERATORS branch *)

(** Without an authenticated identity the branch rejects at once, and
    no search is made. *)
Lemma moderators_requires_login conn sender sender_domain rd dn eas lg :
  moderators conn "" sender sender_domain rd dn eas lg
  = (Ok (SMTP_ACTIONS "reject_not_authorized"), lg).
Proof. reflexivity. Qed.

(** X17.  The alias-domain values are compared as the search hands them
    out (lines 270-278 do not call [bytes2str]): entries whose values
    are all [bytes] contribute nothing. *)
Lemma collect_alias_domains_bytes (_domains attrs : list string)
      (qr : query_result) :
  Forall (fun e => Forall (fun kv => Forall (fun v => exists b, v = PyBytes b)
                                            (snd kv))
                          (snd e)) qr ->
  collect_alias_domains _domains attrs qr = [].
Proof.
  intros Hqr. unfold collect_alias_domains.
  induction Hqr as [|e qr He _ IH]; [reflexivity|].
  cbn [flat_map]. rewrite IH, app_nil_r.
  assert (Hall : Forall (fun v => exists b, v = PyBytes b)
                        (flat_map (fun k => get k [] (snd e)) attrs)).
  { apply Forall_flat_map. apply Forall_forall. intros k _.
    unfold get. destruct (dict_get k (snd e)) as [vs|] eqn:Hk; [|constructor].
    clear -He Hk. induction (snd e) as [|[k' vs'] l IHl]; [discriminate|].
    cbn [dict_get] in Hk. inversion He as [|? ? Hhd Htl]; subst.
    destruct (String.eqb k k'); [injection Hk as <-; exact Hhd | auto]. }
  assert (Hnone : forall (payload l : list pyval),
             Forall (fun v => exists b, v = PyBytes b) l ->
             flat_map (fun domain =>
                         if py_in domain (map PyStr _domains) then payload
                         else []) l = []).
  { intros payload l Hl.
    induction Hl as [|v l (b & ->) _ IHl]; [reflexivity|].
    cbn [flat_map]. rewrite IHl, app_nil_r.
    replace (py_in (PyBytes b) (map PyStr _domains)) with false;
      [reflexivity|].
    clear. induction _domains as [|d ds IHd]; [reflexivity | exact IHd]. }
  now apply Hnone.
Qed.

End WithLibs.

(** ** Concrete runs *)

Lemma restriction_verdicts_witness :
  let kw := Samples.to_list Samples.directory "" "u@example.com" "example.com"
                            (Samples.list_entry ["Domain"] []) in
  fst (Samples.access_policy kw) = Ok "REJECT Not authorized"
  /\ ((exists reason, "REJECT Not authorized" = ("DUNNO" ++ reason)%string)
      \/ "REJECT Not authorized" = "REJECT Not authorized"
      \/ ("REJECT Not authorized" = "REJECT Not authorized"
          /\ exists ldif, recipient_ldif kw = Some ldif
                          /\ get "accountStatus" [] ldif <> ["active"])).
Proof.
  intros kw. split; [reflexivity|].
  exact (restriction_verdicts
           Samples.actions Samples.PUBLIC Samples.DOMAIN Samples.SUBDOMAIN
           Samples.MEMBERSONLY Samples.MODERATORS
           Samples.MEMBERSANDMODERATORSONLY "o=domains,dc=example,dc=com"
           Samples.is_email Samples.bytes2str
           Samples.primary_and_alias_domains Samples.repr_exn
           kw "REJECT Not authorized" eq_refl).
Defined.

(** C4 as stated fails: [restriction] can raise, and then it returns
    no verdict at all.  Under MEMBERS_ONLY the search is not guarded:
    when the directory is down the error leaves the function. *)
Lemma restriction_raises_when_directory_is_down :
  let kw := Samples.to_list Samples.broken_directory "" "u@example.com"
                            "example.com"
                            (Samples.list_entry ["membersOnly"] []) in
  fst (Samples.access_policy kw)
  = Raise (BackendError "SERVER_DOWN({'desc': 'Can not contact LDAP server'})")
  /\ ~ (exists a, fst (Samples.access_policy kw) = Ok a
                  /\ (startswith "DUNNO" a = true
                      \/ a = "REJECT Not authorized")).
Proof.
  intros kw. split; [reflexivity|].
  intros (a & Ha & _). discriminate Ha.
Qed.


Lemma empty_access_policy_raises_witness :
  Samples.access_policy
    (Samples.to_list Samples.directory "" "u@example.com" "example.com"
                     (Samples.list_entry [] []))
  = (Raise IndexError, []).
Proof.
  refine (proj1 (empty_access_policy_raises
                   Samples.actions Samples.PUBLIC Samples.DOMAIN
                   Samples.SUBDOMAIN Samples.MEMBERSONLY Samples.MODERATORS
                   Samples.MEMBERSANDMODERATORSONLY
                   "o=domains,dc=example,dc=com"
                   Samples.is_email Samples.bytes2str
                   Samples.primary_and_alias_domains Samples.repr_exn
                   (Samples.to_list Samples.directory "" "u@example.com"
                                    "example.com" (Samples.list_entry [] []))
                   (Samples.list_entry [] []) ["mailList"; "amavisAccount"]
                   _ eq_refl eq_refl eq_refl eq_refl) eq_refl).
  discriminate.
Defined.

(** C3 on a run.  The allow-list of a MODERATORS list names two
    domains, a.com and b.com, and the directory knows b-alias.com as an
    alias of b.com.  Removing a.com while the loop walks the list makes
    the loop step over b.com: it is never put into [_domains], its
    aliases are never looked up, and a sender at b-alias.com is
    rejected.  The split as specified puts both domains into
    [_domains] and accepts the sender; so does the code when the same
    two entries are listed in the other order. *)
Theorem moderators_skips_allow_list_entries :
  let sent entry :=
    Samples.to_list Samples.directory "carol@b-alias.com" "carol@b-alias.com"
                    "b-alias.com" entry in
  separate Samples.is_email "lists.org" ["a.com"; "b.com"]
  = (["b.com"], [], ["a.com"])
  /\ separate_as_specified Samples.is_email "lists.org" ["a.com"; "b.com"]
     = ([], [], ["a.com"; "b.com"])
  /\ fst (Samples.access_policy
            (sent (Samples.list_entry ["moderatorsonly"] ["a.com"; "b.com"])))
     = Ok "REJECT Not authorized"
  /\ moderators_as_specified
       Samples.actions "o=domains,dc=example,dc=com" Samples.is_email
       Samples.bytes2str Samples.directory
       "carol@b-alias.com" "carol@b-alias.com" "b-alias.com" "lists.org"
       "domainName=lists.org,o=domains,dc=example,dc=com" ["a.com"; "b.com"]
     = Ok "DUNNO"
  /\ fst (Samples.access_policy
            (sent (Samples.list_entry ["moderatorsonly"] ["b.com"; "a.com"])))
     = Ok "DUNNO".
Proof. cbv zeta. repeat split; vm_compute; reflexivity. Qed.

(** C10 on a run.  For the sender domain example.com the loop tests
    example.com and .example.com only: the suffix .com, which the
    specified set contains, is not among them, and an allow-list that
    names .com does not let the sender through a DOMAIN list. *)
Theorem top_level_suffix_is_not_tested :
  possible_sender_domains "example.com" = ["example.com"; ".example.com"]
  /\ dotted_suffixes_as_specified "example.com" = [".example.com"; ".com"]
  /\ possible_sender_domains "a.b.example.com"
     = ["a.b.example.com"; ".a.b.example.com"; ".b.example.com"]
  /\ fst (Samples.access_policy
            (Samples.to_list Samples.directory "" "u@example.com" "example.com"
                             (Samples.list_entry ["domain"] [".com"])))
     = Ok "REJECT Not authorized".
Proof. repeat split; vm_compute; reflexivity. Qed.

End AccessPolicyProofs.

(* ================================================================== *)
(** * Properties of the sender/login mismatch check *)
(* ================================================================== *)

Module LoginMismatchProofs.
Import RejectSenderLoginMismatch.

Section WithLibs.

Variable SMTP_ACTIONS : string -> string.
Variable st : settings.
Variable is_trusted_client : string -> bool.
Variable is_local_domain : conn -> string -> bool -> result bool.
Variable is_allowed_server_in_spf : string -> string -> result bool.
Variable get_account_ldif :
  conn -> string -> string -> list string -> result (option string).
Variable sqlquote : string -> string.
Variable requests_get : string -> dict string -> result response.

#[local] Abbreviation restriction :=
  (restriction SMTP_ACTIONS st is_trusted_client is_local_domain
               is_allowed_server_in_spf get_account_ldif sqlquote requests_get).
#[local] Abbreviation authenticated :=
  (authenticated SMTP_ACTIONS st get_account_ldif sqlquote requests_get).
#[local] Abbreviation unauthenticated :=
  (unauthenticated SMTP_ACTIONS st is_trusted_client is_local_domain
                   is_allowed_server_in_spf).
#[local] Abbreviation after_allow_list :=
  (after_allow_list SMTP_ACTIONS st get_account_ldif sqlquote requests_get).
#[local] Abbreviation alias_and_member_checks :=
  (alias_and_member_checks SMTP_ACTIONS st get_account_ldif sqlquote).
#[local] Abbreviation mlmmj_check := (mlmmj_check SMTP_ACTIONS st requests_get).
#[local] Abbreviation allowed_senders := (allowed_senders st).
#[local] Abbreviation is_strict := (is_strict st).
#[local] Abbreviation allow_list_member := (allow_list_member st).
#[local] Abbreviation check_forged_sender := (check_forged_sender st).
#[local] Abbreviation allowed_forged_senders := (allowed_forged_senders st).
#[local] Abbreviation action_reject := (action_reject SMTP_ACTIONS).

(** Which of the two halves of [restriction] runs. *)
Lemma restriction_authenticated (kw : kwargs) (sender_name sender_domain : string) :
  truthy (sasl_username kw) = true ->
  truthy (sender_without_ext kw) = true ->
  split_sender (sender_without_ext kw) = Ok (sender_name, sender_domain) ->
  restriction kw
  = authenticated kw (sender_without_ext kw) sender_name sender_domain
                  (user_of (sasl_username kw)).
Proof.
  intros Hsasl Hsender Hsplit.
  unfold RejectSenderLoginMismatch.restriction.
  rewrite Hsplit, Hsasl, Hsender. reflexivity.
Qed.

Lemma restriction_unauthenticated (kw : kwargs) (sender_name sender_domain : string) :
  sasl_username kw = EmptyString ->
  split_sender (sender_without_ext kw) = Ok (sender_name, sender_domain) ->
  restriction kw
  = unauthenticated kw (sender_without_ext kw) sender_name sender_domain.
Proof.
  intros Hsasl Hsplit.
  unfold RejectSenderLoginMismatch.restriction.
  rewrite Hsplit, Hsasl. reflexivity.
Qed.

Lemma str_in_nonempty (x : string) (l : list string) :
  str_in x l = true -> nonempty l = true.
Proof. destruct l; [discriminate | reflexivity]. Qed.

(** When the allow-list grants nothing, the verdict is the one of the
    checks that come after it. *)
Lemma allow_list_falls_through
      (kw : kwargs) (sender_name sender_domain : string) :
  truthy (sasl_username kw) = true ->
  truthy (sender_without_ext kw) = true ->
  split_sender (sender_without_ext kw) = Ok (sender_name, sender_domain) ->
  sender_without_ext kw <> sasl_username kw ->
  str_in (sasl_username kw) allowed_senders = false ->
  str_in (sasl_username_domain kw) allowed_senders = false ->
  (str_in ("@" ++ sasl_username_domain kw)%string allowed_senders
   || str_in "@." allowed_senders = true ->
   sasl_username_domain kw <> sender_domain) ->
  nonempty allowed_senders || is_strict || allow_list_member = true ->
  exists lg,
    restriction kw
    = after_allow_list kw (sender_without_ext kw) sender_name sender_domain
                       (user_of (sasl_username kw)) lg.
Proof.
  intros Hsasl Hsender Hsplit Hneq Hid Hdom Hat Hcfg.
  rewrite (restriction_authenticated kw _ _ Hsasl Hsender Hsplit).
  unfold RejectSenderLoginMismatch.authenticated.
  apply String.eqb_neq in Hneq. rewrite Hneq, Hcfg. cbn [negb].
  destruct (nonempty allowed_senders); [|eexists; reflexivity].
  rewrite Hid, Hdom.
  destruct (str_in ("@" ++ sasl_username_domain kw)%string allowed_senders
            || str_in "@." allowed_senders).
  - specialize (Hat eq_refl). apply String.eqb_neq in Hat. rewrite Hat.
    eexists. reflexivity.
  - eexists. reflexivity.
Qed.


(** C7.  An unauthenticated sender.  A trusted client address gives
    DEFAULT before anything else is looked at.  Otherwise, with
    forged-sender checking on, the sender not in the forged-sender
    allow-list (as an address, as a domain, or as the name with [@*]
    after it), the sender
    domain hosted locally (it is the recipient domain, or
    [is_local_domain] without backup MX says so) and the SPF check
    off, the verdict is REJECT (forged sender). *)
Theorem unauthenticated_forged_sender
        (kw : kwargs) (sender_name sender_domain : string) :
  sasl_username kw = EmptyString ->
  split_sender (sender_without_ext kw) = Ok (sender_name, sender_domain) ->
  (is_trusted_client (client_address kw) = true ->
   fst (restriction kw) = Ok (SMTP_ACTIONS "default"))
  /\ (is_trusted_client (client_address kw) = false ->
      check_forged_sender = true ->
      str_in (sender_without_ext kw) allowed_forged_senders = false ->
      str_in sender_domain allowed_forged_senders = false ->
      str_in (sender_name ++ "@*")%string allowed_forged_senders = false ->
      sender_domain = recipient_domain kw
      \/ is_local_domain (conn_vmail kw) sender_domain false = Ok true ->
      CHECK_SPF_IF_LOGIN_MISMATCH st = false ->
      fst (restriction kw) = Ok (SMTP_ACTIONS "reject_forged_sender")).
Proof.
  intros Hsasl Hsplit.
  rewrite (restriction_unauthenticated kw _ _ Hsasl Hsplit).
  unfold RejectSenderLoginMismatch.unauthenticated. split.
  - intros ->. reflexivity.
  - intros -> -> -> -> -> Hlocal ->. cbn [negb orb].
    destruct (String.eqb sender_domain (recipient_domain kw)) eqn:Heq.
    + reflexivity.
    + destruct Hlocal as [Hl|Hl].
      * apply String.eqb_neq in Heq. contradiction.
      * rewrite Hl. reflexivity.
Qed.


End WithLibs.

(** ** Concrete runs *)


(** Nobody, from an address that is not trusted, sends as
    list@example.org to the domain example.org, with the SPF check off. *)
Lemma unauthenticated_forged_sender_witness :
  fst (Samples.login_mismatch (Samples.settings_with [] false false false)
                              Samples.api_down
                              (Samples.sent_as "" "" "list@example.org"))
  = Ok "REJECT SMTP AUTH is required for users under this sender domain".
Proof.
  exact (proj2 (unauthenticated_forged_sender
                  Samples.actions (Samples.settings_with [] false false false)
                  Samples.is_trusted_client Samples.is_local_domain
                  Samples.is_allowed_server_in_spf Samples.get_account_ldif
                  Samples.sqlquote Samples.api_down
                  (Samples.sent_as "" "" "list@example.org")
                  "list" "example.org" eq_refl eq_refl)
               eq_refl eq_refl eq_refl eq_refl eq_refl
               (or_introl eq_refl) eq_refl).
Defined.


End LoginMismatchProofs.

(* ================================================================== *)
(** * Further properties of the dispatcher *)
(* ================================================================== *)

Module ModelerExtras.
Import Modeler.

Section WithActions.

Variable SMTP_ACTIONS : string -> string.

#[local] Abbreviation verdict := (verdict SMTP_ACTIONS).
#[local] Abbreviation apply_plugin := (apply_plugin SMTP_ACTIONS).
#[local] Abbreviation plugin_loop := (plugin_loop SMTP_ACTIONS).
#[local] Abbreviation handle_data := (handle_data SMTP_ACTIONS).

Lemma connected_app (w1 w2 : trace) :
  connected (w1 ++ w2) = connected w1 ++ connected w2.
Proof. unfold connected. apply flat_map_app. Qed.

Lemma connected_map_Connect (cs : list string) :
  connected (map Connect cs) = cs.
Proof.
  induction cs as [|c cs IH]; [reflexivity|].
  change (connected (map Connect (c :: cs)))
    with (c :: connected (map Connect cs)).
  now rewrite IH.
Qed.

Lemma connected_map_Close (cs : list string) : connected (map Close cs) = [].
Proof. induction cs as [|c cs IH]; [reflexivity | exact IH]. Qed.

Lemma closed_map_Connect (cs : list string) : closed (map Connect cs) = [].
Proof. induction cs as [|c cs IH]; [reflexivity | exact IH]. Qed.

(** The plugin loop neither checks out nor closes a connection. *)
Lemma plugin_loop_keeps_connections (ps : string) (kw : plugin_kwargs)
      (plugins : list plugin) :
  forall w,
    connected (snd (plugin_loop ps kw plugins w)) = connected w
    /\ closed (snd (plugin_loop ps kw plugins w)) = closed w.
Proof.
  induction plugins as [|p rest IH]; intros w; [now split|].
  cbn [Modeler.plugin_loop].
  destruct (negb (str_in ps (target_protocol_state p))).
  - destruct (IH (w ++ [Log DEBUG "Skip plugin: {} (protocol_state != {})"]))
      as [Hc Hd].
    rewrite Hc, Hd, connected_app, ModelerProofs.closed_app.
    cbn. now rewrite !app_nil_r.
  - assert (Hap : connected (snd (apply_plugin p kw w)) = connected w
                  /\ closed (snd (apply_plugin p kw w)) = closed w).
    { unfold Modeler.apply_plugin. destruct (restriction p kw); cbn [snd];
        rewrite connected_app, ModelerProofs.closed_app; cbn;
        now rewrite !app_nil_r. }
    destruct (apply_plugin p kw w) as [action w1]. cbn [snd] in Hap.
    destruct (negb (startswith "DUNNO" action)); cbn [snd].
    + exact Hap.
    + destruct (IH w1) as [Hc Hd]. destruct Hap as [Hc1 Hd1].
      now rewrite Hc, Hd.
Qed.

(** X1.  Keys of the session that [handle_data] indexes.  Without
    ['protocol_state'] it raises [KeyError] before any connection is
    checked out.  With it, but without ['sender_without_ext'] or
    ['recipient_without_ext'], it raises [KeyError] after the
    connections were checked out: they stay open and no plugin is
    applied. *)
Theorem handle_data_missing_key
        (self : conns) (ssd : dict string) (plugins : list plugin)
        (w : trace) :
  plugins <> [] ->
  dict_get "protocol_state" ssd = None
  \/ dict_get "sender_without_ext" ssd = None
  \/ dict_get "recipient_without_ext" ssd = None ->
  let out := handle_data self ssd (Some plugins) w in
  (dict_get "protocol_state" ssd = None ->
   out = (Raise (KeyError "protocol_state"), w))
  /\ (dict_get "protocol_state" ssd <> None ->
      (exists k, fst out = Raise (KeyError k))
      /\ snd out = w ++ map Connect (acquired self)).
Proof.
  intros Hne Hmiss out. subst out.
  destruct plugins as [|p0 rest]; [contradiction|].
  unfold Modeler.handle_data. split.
  - intros ->. reflexivity.
  - intros Hps. destruct (dict_get "protocol_state" ssd) as [ps|];
      [|contradiction].
    destruct Hmiss as [Hm|Hmiss]; [discriminate|].
    assert (Hw : forall A (x : A),
               (let '(c_vmail, w1) := connect (self_conn_vmail self) w in
                let '(c_amavisd, w2) := connect_opt (self_conn_amavisd self) w1 in
                let '(c_iredapd, w3) := connect_opt (self_conn_iredapd self) w2 in
                (x, w3))
               = (x, w ++ map Connect (acquired self))).
    { intros A x. destruct self as [pv [pa|] [pi|]];
        unfold acquired, connect_opt, connect;
        cbn [self_conn_vmail self_conn_amavisd self_conn_iredapd map app];
        rewrite <- ?app_assoc; reflexivity. }
    destruct (dict_get "sender_without_ext" ssd) as [swe|] eqn:Hs.
    + destruct Hmiss as [Hm|Hm]; [discriminate|]. rewrite Hm.
      specialize (Hw _ (@Raise string (KeyError "recipient_without_ext"))).
      destruct self as [pv [pa|] [pi|]];
        unfold connect_opt, connect in *;
        cbn [self_conn_vmail self_conn_amavisd self_conn_iredapd] in *;
        rewrite Hw; (split; [eexists; reflexivity | reflexivity]).
    + specialize (Hw _ (@Raise string (KeyError "sender_without_ext"))).
      destruct self as [pv [pa|] [pi|]];
        unfold connect_opt, connect in *;
        cbn [self_conn_vmail self_conn_amavisd self_conn_iredapd] in *;
        rewrite Hw; (split; [eexists; reflexivity | reflexivity]).
Qed.

(** X2.  Whatever the plugins answer, a run with a complete session
    checks out every configured pool exactly once, in the order vmail,
    amavisd, iredapd, and never a connection besides. *)
Theorem handle_data_checks_out_once
        (self : conns) (ssd : dict string) (plugins : list plugin)
        (w : trace) (ps swe rwe : string) :
  plugins <> [] ->
  dict_get "protocol_state" ssd = Some ps ->
  dict_get "sender_without_ext" ssd = Some swe ->
  dict_get "recipient_without_ext" ssd = Some rwe ->
  connected (snd (handle_data self ssd (Some plugins) w))
  = connected w ++ acquired self.
Proof.
  intros Hne Hps Hswe Hrwe.
  destruct plugins as [|p0 rest]; [contradiction|].
  rewrite (ModelerProofs.handle_data_unfold SMTP_ACTIONS self ssd p0 rest w
             ps swe rwe Hps Hswe Hrwe).
  cbv zeta.
  pose proof (plugin_loop_keeps_connections
                (upper ps) (kwargs_of self ssd swe rwe) (p0 :: rest)
                (w ++ map Connect (acquired self))) as [Hc _].
  destruct (plugin_loop (upper ps) (kwargs_of self ssd swe rwe) (p0 :: rest)
                        (w ++ map Connect (acquired self)))
    as [[action|] w4]; cbn [snd] in *.
  - rewrite Hc, connected_app, connected_map_Connect. reflexivity.
  - destruct (ModelerProofs.close_sql_connections_trace
                (conn_vmail (kwargs_of self ssd swe rwe))
                (conn_amavisd (kwargs_of self ssd swe rwe))
                (conn_iredapd (kwargs_of self ssd swe rwe)) w4)
      as (cs & -> & _).
    rewrite connected_app, connected_map_Close, app_nil_r, Hc,
            connected_app, connected_map_Connect.
    reflexivity.
Qed.

(** X3.  When some applicable plugin answers with a verdict that is
    not DUNNO, [handle_data] returns from inside the loop and closes
    nothing: the connections it checked out are all left open. *)
Theorem handle_data_early_return_closes_nothing
        (self : conns) (ssd : dict string) (plugins : list plugin)
        (w : trace) (ps swe rwe : string) :
  dict_get "protocol_state" ssd = Some ps ->
  dict_get "sender_without_ext" ssd = Some swe ->
  dict_get "recipient_without_ext" ssd = Some rwe ->
  Exists (fun q => is_default (verdict (kwargs_of self ssd swe rwe) q) = false)
         (filter (applicable (upper ps)) plugins) ->
  closed (snd (handle_data self ssd (Some plugins) w)) = closed w.
Proof.
  intros Hps Hswe Hrwe Hex.
  destruct plugins as [|p0 rest]; [inversion Hex|].
  rewrite (ModelerProofs.handle_data_unfold SMTP_ACTIONS self ssd p0 rest w
             ps swe rwe Hps Hswe Hrwe).
  cbv zeta.
  set (kw := kwargs_of self ssd swe rwe) in *.
  pose proof (plugin_loop_keeps_connections
                (upper ps) kw (p0 :: rest)
                (w ++ map Connect (acquired self))) as [_ Hd].
  destruct (ModelerProofs.plugin_loop_outcome
              SMTP_ACTIONS (upper ps) kw (p0 :: rest)
              (w ++ map Connect (acquired self)))
    as (names & Hout & _).
  destruct (plugin_loop (upper ps) kw (p0 :: rest)
                        (w ++ map Connect (acquired self)))
    as [[action|] w4]; cbn [fst snd] in *.
  - rewrite Hd, ModelerProofs.closed_app.
    rewrite closed_map_Connect. apply app_nil_r.
  - exfalso. inversion Hout as [|Hall Hn]; subst.
    apply Exists_exists in Hex as (q & Hq & Hv).
    rewrite Forall_forall in Hall. specialize (Hall q Hq). congruence.
Qed.

(** X4.  What [handle_data] hands back for a complete session is
    either the global default action or a plugin verdict that does not
    start with DUNNO: the reason a plugin attaches to its DUNNO is
    never passed on. *)
Theorem handle_data_returns_default_or_verdict
        (self : conns) (ssd : dict string) (plugins : list plugin)
        (w : trace) (ps swe rwe : string) :
  plugins <> [] ->
  dict_get "protocol_state" ssd = Some ps ->
  dict_get "sender_without_ext" ssd = Some swe ->
  dict_get "recipient_without_ext" ssd = Some rwe ->
  exists a,
    fst (handle_data self ssd (Some plugins) w) = Ok a
    /\ (a = SMTP_ACTIONS "default"
        \/ (is_default a = false
            /\ exists p, In p plugins
                         /\ a = verdict (kwargs_of self ssd swe rwe) p)).
Proof.
  intros Hne Hps Hswe Hrwe.
  destruct plugins as [|p0 rest]; [contradiction|].
  rewrite (ModelerProofs.handle_data_unfold SMTP_ACTIONS self ssd p0 rest w
             ps swe rwe Hps Hswe Hrwe).
  cbv zeta.
  set (kw := kwargs_of self ssd swe rwe) in *.
  destruct (ModelerProofs.plugin_loop_outcome
              SMTP_ACTIONS (upper ps) kw (p0 :: rest)
              (w ++ map Connect (acquired self)))
    as (names & Hout & _).
  destruct (plugin_loop (upper ps) kw (p0 :: rest)
                        (w ++ map Connect (acquired self)))
    as [[action|] w4]; cbn [fst snd] in *.
  - exists action. split; [reflexivity|]. right.
    inversion Hout as [l1 q l2 Hc Hall Hq Hr Hn|]; subst.
    split; [exact Hq|]. exists q. split; [|reflexivity].
    assert (Hin : In q (filter (applicable (upper ps)) (p0 :: rest))).
    { rewrite Hc. apply in_or_app. right. now left. }
    apply filter_In in Hin. tauto.
  - exists (SMTP_ACTIONS "default"). split; [reflexivity | now left].
Qed.

End WithActions.

Lemma handle_data_missing_key_witness :
  let ssd := [("protocol_state", "RCPT"); ("sender_without_ext", "a@b.c")] in
  let out := Modeler.handle_data Samples.actions Samples.three_pools ssd
                                 (Some Samples.chain) [] in
  fst out = Raise (KeyError "recipient_without_ext")
  /\ snd out = [Connect "vmail"; Connect "amavisd"; Connect "iredapd"].
Proof.
  intros ssd out.
  destruct (handle_data_missing_key
              Samples.actions Samples.three_pools ssd Samples.chain [])
    as [_ H].
  - discriminate.
  - right. right. reflexivity.
  - destruct H as [_ Hw]; [discriminate|].
    split; [reflexivity | exact Hw].
Defined.

Lemma handle_data_checks_out_once_witness :
  connected (snd (Modeler.handle_data Samples.actions Samples.three_pools
                                      Samples.session (Some Samples.chain) []))
  = ["vmail"; "amavisd"; "iredapd"].
Proof.
  refine (handle_data_checks_out_once
            Samples.actions Samples.three_pools Samples.session Samples.chain
            [] "rcpt" "bob@example.com" "list@lists.org" _ eq_refl eq_refl
            eq_refl).
  discriminate.
Defined.

Lemma handle_data_early_return_closes_nothing_witness :
  closed (snd (Modeler.handle_data Samples.actions Samples.three_pools
                                   Samples.session (Some Samples.chain) []))
  = [].
Proof.
  refine (handle_data_early_return_closes_nothing
            Samples.actions Samples.three_pools Samples.session Samples.chain
            [] "rcpt" "bob@example.com" "list@lists.org" eq_refl eq_refl
            eq_refl _).
  apply Exists_cons_tl. apply Exists_cons_tl. apply Exists_cons_hd.
  reflexivity.
Defined.

Lemma handle_data_returns_default_or_verdict_witness :
  exists a,
    fst (Modeler.handle_data Samples.actions Samples.three_pools
                             Samples.session (Some Samples.quiet_chain) [])
    = Ok a
    /\ (a = "DUNNO"
        \/ (is_default a = false
            /\ exists p, In p Samples.quiet_chain
                         /\ a = Modeler.verdict
                                  Samples.actions
                                  (kwargs_of Samples.three_pools Samples.session
                                             "bob@example.com" "list@lists.org")
                                  p)).
Proof.
  refine (handle_data_returns_default_or_verdict
            Samples.actions Samples.three_pools Samples.session
            Samples.quiet_chain [] "rcpt" "bob@example.com" "list@lists.org"
            _ eq_refl eq_refl eq_refl).
  discriminate.
Defined.

End ModelerExtras.

(* ================================================================== *)
(** * Further properties of the mailing-list access policy *)
(* ================================================================== *)

Module AccessPolicyExtras.
Import MaillistAccessPolicy.

(** ** String tests *)

Lemma str_in_In (x : string) (l : list string) :
  str_in x l = true <-> In x l.
Proof.
  unfold str_in. rewrite existsb_exists. split.
  - intros (y & Hy & He). apply String.eqb_eq in He. now subst.
  - intros H. exists x. split; [exact H | apply String.eqb_refl].
Qed.

Lemma str_in_same_elements (x : string) (l1 l2 : list string) :
  (forall y, In y l1 <-> In y l2) -> str_in x l1 = str_in x l2.
Proof.
  intros H. destruct (str_in x l1) eqn:E1, (str_in x l2) eqn:E2; try reflexivity.
  - apply str_in_In, H, str_in_In in E1. congruence.
  - apply str_in_In, H, str_in_In in E2. congruence.
Qed.

Lemma length_append (a b : string) :
  String.length (a ++ b) = String.length a + String.length b.
Proof. induction a as [|c a IH]; simpl; [reflexivity | now rewrite IH]. Qed.

Lemma substring_all (s : string) : substring 0 (String.length s) s = s.
Proof. induction s as [|c s IH]; simpl; [reflexivity | now rewrite IH]. Qed.

Lemma substring_append_r (p suf : string) :
  substring (String.length p) (String.length suf) (p ++ suf) = suf.
Proof. induction p as [|c p IH]; simpl; [apply substring_all | exact IH]. Qed.

Lemma substring_split (s : string) :
  forall n, n <= String.length s ->
            s = (substring 0 n s ++ substring n (String.length s - n) s)%string.
Proof.
  induction s as [|c s IH]; intros [|n] Hn; simpl in *; try lia.
  - reflexivity.
  - now rewrite substring_all.
  - rewrite <- IH by lia. reflexivity.
Qed.

(** [endswith] is the suffix test. *)
Lemma endswith_spec (suf s : string) :
  endswith suf s = true <-> exists p, s = (p ++ suf)%string.
Proof.
  unfold endswith. split.
  - destruct (String.length suf <=? String.length s)%nat eqn:Hle; [|discriminate].
    apply Nat.leb_le in Hle. intros He. apply String.eqb_eq in He.
    exists (substring 0 (String.length s - String.length suf) s).
    pose proof (substring_split s (String.length s - String.length suf)
                                ltac:(lia)) as Hs.
    replace (String.length s - (String.length s - String.length suf))
      with (String.length suf) in Hs by lia.
    rewrite He in Hs. exact Hs.
  - intros (p & ->). rewrite length_append.
    replace (String.length suf <=? String.length p + String.length suf)%nat
      with true by (symmetry; apply Nat.leb_le; lia).
    replace (String.length p + String.length suf - String.length suf)
      with (String.length p) by lia.
    rewrite substring_append_r. apply String.eqb_refl.
Qed.

(** ** The allow-list loop *)

Lemma remove_incl (x : string) (l : list string) : incl (remove x l) l.
Proof.
  induction l as [|y l IH]; cbn [remove]; [apply incl_refl|].
  destruct (String.eqb x y).
  - apply incl_tl, incl_refl.
  - intros z [<-|Hz]; [now left | right; now apply IH].
Qed.

Lemma remove_In_length (x : string) (l : list string) :
  In x l -> S (List.length (remove x l)) = List.length l.
Proof.
  induction l as [|y l IH]; intros Hin; [destruct Hin|].
  cbn [remove]. destruct (String.eqb x y) eqn:E; [reflexivity|].
  destruct Hin as [->|Hin]; [rewrite String.eqb_refl in E; discriminate|].
  cbn [List.length]. now rewrite IH.
Qed.

Lemma remove_app_fresh (x : string) (pre rest : list string) :
  ~ In x pre -> remove x (pre ++ x :: rest) = pre ++ rest.
Proof.
  induction pre as [|y pre IH]; intros Hn; cbn [app remove].
  - now rewrite String.eqb_refl.
  - destruct (String.eqb x y) eqn:E.
    + apply String.eqb_eq in E. subst. exfalso. apply Hn. now left.
    + rewrite IH; [reflexivity|]. intros H. apply Hn. now right.
Qed.

Section WithEmail.

Variable is_email : string -> bool.

#[local] Abbreviation separate_loop := (separate_loop is_email).
#[local] Abbreviation separate := (separate is_email).

Lemma separate_loop_invariant (rd : string) (l0 : list string) (fuel : nat) :
  forall (i : nat) (l us ds : list string),
    incl l l0 ->
    Forall (fun u => In u l0 /\ is_email u = true
                     /\ endswith ("@" ++ rd)%string u = true) us ->
    Forall (fun d => exists s, In s l0 /\ is_email s = false
                               /\ d = stripped s) ds ->
    let '(l', us', ds') := separate_loop rd fuel i l us ds in
    List.length l' + List.length us' + List.length ds'
    = List.length l + List.length us + List.length ds
    /\ incl l' l0
    /\ Forall (fun u => In u l0 /\ is_email u = true
                        /\ endswith ("@" ++ rd)%string u = true) us'
    /\ Forall (fun d => exists s, In s l0 /\ is_email s = false
                                  /\ d = stripped s) ds'.
Proof.
  induction fuel as [|fuel IH]; intros i l us ds Hl Hus Hds;
    cbn [MaillistAccessPolicy.separate_loop]; [now repeat split|].
  destruct (nth_error l i) as [_as|] eqn:Hnth; [|now repeat split].
  assert (Hin : In _as l) by (eapply nth_error_In; eauto).
  pose proof (remove_In_length _as l Hin) as Hlen.
  assert (Hrem : incl (remove _as l) l0).
  { intros z Hz. apply Hl. now apply (remove_incl _as l). }
  destruct (is_email _as) eqn:Hem; [destruct (endswith _ _as) eqn:Hend|].
  - specialize (IH (S i) (remove _as l) (us ++ [_as]) ds Hrem).
    destruct (separate_loop rd fuel (S i) (remove _as l) (us ++ [_as]) ds)
      as [[l' us'] ds'].
    destruct IH as (Hn & H1 & H2 & H3); auto.
    { apply Forall_app. split; [exact Hus|]. constructor; [|constructor].
      repeat split; auto. }
    rewrite length_app in Hn. cbn [List.length] in Hn.
    repeat split; auto. lia.
  - now apply IH.
  - specialize (IH (S i) (remove _as l) us
                   (ds ++ [if startswith "." _as then lstrip "." _as else _as])
                   Hrem Hus).
    destruct (separate_loop rd fuel (S i) (remove _as l) us _)
      as [[l' us'] ds'].
    destruct IH as (Hn & H1 & H2 & H3).
    { apply Forall_app. split; [exact Hds|]. constructor; [|constructor].
      exists _as. repeat split; auto. }
    rewrite length_app in Hn. cbn [List.length] in Hn.
    repeat split; auto. lia.
Qed.

(** X6.  The loop that separates the allow-list (lines 207-221)
    neither loses nor invents an entry: the entries left in
    [allowed_senders], those in [_users] and those in [_domains] are
    together as many as the list had.  What is left comes from the
    list; every [_users] entry is an address of the list that ends in
    '@' + recipient domain; every [_domains] entry is an entry of the
    list that is not an address, without its leading dots. *)
Theorem separate_conserves (rd : string) (allowed_senders : list string) :
  let '(left_over, _users, _domains) := separate rd allowed_senders in
  List.length left_over + List.length _users + List.length _domains
  = List.length allowed_senders
  /\ incl left_over allowed_senders
  /\ Forall (fun u => In u allowed_senders /\ is_email u = true
                      /\ endswith ("@" ++ rd)%string u = true) _users
  /\ Forall (fun d => exists s, In s allowed_senders /\ is_email s = false
                                /\ d = stripped s) _domains.
Proof.
  unfold MaillistAccessPolicy.separate.
  pose proof (separate_loop_invariant
                rd allowed_senders (List.length allowed_senders) 0
                allowed_senders [] [] (incl_refl _) (Forall_nil _)
                (Forall_nil _)) as H.
  destruct (separate_loop rd (List.length allowed_senders) 0 allowed_senders
                          [] []) as [[l' us'] ds'].
  cbn [List.length] in H. rewrite !Nat.add_0_r in H. exact H.
Qed.

Lemma separate_loop_skips (rd : string) (fuel : nat) :
  forall (pre rest us ds : list string),
    NoDup (pre ++ rest) ->
    Forall (fun s => is_email s = false) rest ->
    List.length rest <= fuel ->
    separate_loop rd fuel (List.length pre) (pre ++ rest) us ds
    = (pre ++ odds rest, us, ds ++ map stripped (evens rest)).
Proof.
  induction fuel as [|fuel IH]; intros pre rest us ds Hnd Hne Hlen.
  - destruct rest; [|cbn in Hlen; lia].
    cbn. now rewrite !app_nil_r.
  - cbn [MaillistAccessPolicy.separate_loop].
    destruct rest as [|x rest'].
    + replace (nth_error (pre ++ []) (List.length pre)) with (@None string).
      * cbn. now rewrite !app_nil_r.
      * symmetry. apply nth_error_None. rewrite app_nil_r. lia.
    + rewrite nth_error_app2, Nat.sub_diag by lia. cbn [nth_error].
      inversion Hne as [|? ? Hx Hne']; subst. rewrite Hx.
      assert (Hfresh : ~ In x pre).
      { apply NoDup_remove_2 in Hnd. intros H. apply Hnd.
        apply in_or_app. now left. }
      rewrite (remove_app_fresh x pre rest' Hfresh).
      apply NoDup_remove_1 in Hnd.
      destruct rest' as [|y rest''].
      * destruct fuel; cbn [MaillistAccessPolicy.separate_loop].
        -- cbn. now rewrite !app_nil_r.
        -- replace (nth_error (pre ++ []) (S (List.length pre)))
             with (@None string).
           ++ cbn. now rewrite !app_nil_r.
           ++ symmetry. apply nth_error_None. rewrite app_nil_r. lia.
      * inversion Hne' as [|? ? Hy Hne'']; subst.
        replace (pre ++ y :: rest'') with ((pre ++ [y]) ++ rest'')
          by (rewrite <- app_assoc; reflexivity).
        replace (S (List.length pre)) with (List.length (pre ++ [y]))
          by (rewrite length_app; cbn; lia).
        rewrite IH.
        -- cbn [odds evens map]. rewrite <- !app_assoc. reflexivity.
        -- rewrite <- app_assoc. exact Hnd.
        -- exact Hne''.
        -- cbn [List.length] in Hlen. lia.
Qed.

(** X7.  On an allow-list of distinct entries none of which is an
    address, the loop of lines 207-221 takes every other entry only:
    the entries at positions 0, 2, 4, ... go to [_domains], those at
    positions 1, 3, 5, ... are stepped over and stay in
    [allowed_senders]. *)
Theorem separate_takes_every_other_domain
        (rd : string) (allowed_senders : list string) :
  NoDup allowed_senders ->
  Forall (fun s => is_email s = false) allowed_senders ->
  separate rd allowed_senders
  = (odds allowed_senders, [], map stripped (evens allowed_senders)).
Proof.
  intros Hnd Hne. unfold MaillistAccessPolicy.separate.
  exact (separate_loop_skips rd (List.length allowed_senders) []
                             allowed_senders [] [] Hnd Hne (le_n _)).
Qed.

End WithEmail.

Lemma separate_takes_every_other_domain_witness :
  separate Samples.is_email "lists.org" ["a.com"; ".b.com"; "c.com"; "d.com"; "e.com"]
  = ([".b.com"; "d.com"], [], ["a.com"; "c.com"; "e.com"]).
Proof.
  refine (separate_takes_every_other_domain
            Samples.is_email "lists.org"
            ["a.com"; ".b.com"; "c.com"; "d.com"; "e.com"] _ _).
  - repeat constructor; cbn; intuition discriminate.
  - repeat constructor.
Defined.

(** ** The resolver *)

Section WithLibs.

Variable SMTP_ACTIONS : string -> string.
Variables MAILLIST_POLICY_PUBLIC MAILLIST_POLICY_DOMAIN
          MAILLIST_POLICY_SUBDOMAIN MAILLIST_POLICY_MEMBERSONLY
          MAILLIST_POLICY_MODERATORS
          MAILLIST_POLICY_MEMBERSANDMODERATORSONLY : string.
Variable ldap_basedn : string.
Variable is_email : string -> bool.
Variable bytes2str : ldif -> ldif.
Variable get_primary_and_alias_domains :
  ldap_conn -> string -> result (list string).
Variable repr_exn : exn -> string.

#[local] Abbreviation restriction :=
  (restriction SMTP_ACTIONS MAILLIST_POLICY_PUBLIC MAILLIST_POLICY_DOMAIN
               MAILLIST_POLICY_SUBDOMAIN MAILLIST_POLICY_MEMBERSONLY
               MAILLIST_POLICY_MODERATORS
               MAILLIST_POLICY_MEMBERSANDMODERATORSONLY ldap_basedn
               is_email bytes2str get_primary_and_alias_domains repr_exn).
#[local] Abbreviation explicit_checks :=
  (explicit_checks SMTP_ACTIONS MAILLIST_POLICY_DOMAIN
               MAILLIST_POLICY_SUBDOMAIN MAILLIST_POLICY_MEMBERSONLY
               MAILLIST_POLICY_MODERATORS
               MAILLIST_POLICY_MEMBERSANDMODERATORSONLY ldap_basedn
               is_email bytes2str get_primary_and_alias_domains repr_exn).
#[local] Abbreviation verify_policy :=
  (verify_policy SMTP_ACTIONS MAILLIST_POLICY_DOMAIN
               MAILLIST_POLICY_SUBDOMAIN MAILLIST_POLICY_MEMBERSONLY
               MAILLIST_POLICY_MODERATORS
               MAILLIST_POLICY_MEMBERSANDMODERATORSONLY ldap_basedn
               is_email bytes2str repr_exn).
#[local] Abbreviation reaches_policy :=
  (reaches_policy MAILLIST_POLICY_PUBLIC MAILLIST_POLICY_MEMBERSONLY
                  MAILLIST_POLICY_MODERATORS get_primary_and_alias_domains).
#[local] Abbreviation reached :=
  (AccessPolicyProofs.restriction_reaches_policy
     SMTP_ACTIONS MAILLIST_POLICY_PUBLIC MAILLIST_POLICY_DOMAIN
     MAILLIST_POLICY_SUBDOMAIN MAILLIST_POLICY_MEMBERSONLY
     MAILLIST_POLICY_MODERATORS MAILLIST_POLICY_MEMBERSANDMODERATORSONLY
     ldap_basedn is_email bytes2str get_primary_and_alias_domains repr_exn).

(** X8.  DOMAIN and SUBDOMAIN, once the resolver is at the
    policy-specific part.  DOMAIN lets the sender through exactly when
    the sender domain is one of the recipient's primary and alias
    domains.  SUBDOMAIN lets it through exactly when the sender domain
    is one of them or ends in a dot followed by one of them: a domain
    that merely ends in the same letters does not pass.  Everything
    else is REJECT-NOT-AUTHORIZED, and no search is made. *)
Theorem domain_and_subdomain_policies
        (kw : kwargs) (ldif : dict (list string)) (policy : string)
        (valid : list string) :
  reaches_policy kw ldif policy valid ->
  MAILLIST_POLICY_DOMAIN <> MAILLIST_POLICY_SUBDOMAIN ->
  (policy = MAILLIST_POLICY_DOMAIN ->
   (In (sender_domain kw) valid ->
    fst (restriction kw) = Ok (SMTP_ACTIONS "default"))
   /\ (~ In (sender_domain kw) valid ->
       fst (restriction kw) = Ok (SMTP_ACTIONS "reject_not_authorized")))
  /\ (policy = MAILLIST_POLICY_SUBDOMAIN ->
      let under d :=
        sender_domain kw = d
        \/ exists p, sender_domain kw = (p ++ "." ++ d)%string in
      ((exists d, In d valid /\ under d) ->
       fst (restriction kw) = Ok (SMTP_ACTIONS "default"))
      /\ (~ (exists d, In d valid /\ under d) ->
          fst (restriction kw) = Ok (SMTP_ACTIONS "reject_not_authorized"))).
Proof.
  intros Hreach Hneq. rewrite (reached _ _ _ _ Hreach).
  unfold MaillistAccessPolicy.verify_policy. cbn [str_in existsb].
  split.
  - intros ->. rewrite String.eqb_refl. cbn [orb]. split; intros H.
    + apply str_in_In in H. rewrite H. reflexivity.
    + destruct (str_in (sender_domain kw) valid) eqn:E; [|reflexivity].
      apply str_in_In in E. contradiction.
  - intros ->. cbv zeta.
    apply not_eq_sym in Hneq. apply String.eqb_neq in Hneq.
    rewrite Hneq, String.eqb_refl. cbn [orb].
    assert (Hex : existsb (fun d => String.eqb (sender_domain kw) d
                                    || endswith ("." ++ d)%string (sender_domain kw))
                          valid = true
                  <-> exists d, In d valid
                                /\ (sender_domain kw = d
                                    \/ exists p, sender_domain kw
                                                 = (p ++ "." ++ d)%string)).
    { rewrite existsb_exists.
      split; intros (d & Hd & H); exists d; (split; [exact Hd|]).
      - apply orb_true_iff in H as [H|H].
        + left. now apply String.eqb_eq.
        + right. now apply endswith_spec.
      - apply orb_true_iff. destruct H as [H|H].
        + left. now apply String.eqb_eq.
        + right. now apply endswith_spec. }
    split; intros H.
    + apply Hex in H. rewrite H. reflexivity.
    + destruct (existsb _ valid) eqn:E; [|reflexivity].
      exfalso. apply H, Hex. reflexivity.
Qed.


(** X10.  A policy name that is none of the six known ones never
    rejects: once the resolver is at the policy-specific part, the
    verdict is DEFAULT with the unknown name in the reason, and no
    search is made. *)
Theorem unknown_policy_fails_open
        (kw : kwargs) (ldif : dict (list string)) (policy : string)
        (valid : list string) :
  reaches_policy kw ldif policy valid ->
  str_in policy [MAILLIST_POLICY_DOMAIN; MAILLIST_POLICY_SUBDOMAIN;
                 MAILLIST_POLICY_MEMBERSONLY;
                 MAILLIST_POLICY_MEMBERSANDMODERATORSONLY;
                 MAILLIST_POLICY_MODERATORS] = false ->
  restriction kw
  = (Ok (SMTP_ACTIONS "default" ++ " (Unknown access policy: " ++ policy
           ++ ", no restriction)")%string,
     pre_policy_log).
Proof.
  intros Hreach Hunk. rewrite (reached _ _ _ _ Hreach).
  unfold MaillistAccessPolicy.verify_policy.
  cbn [str_in existsb] in *.
  repeat (apply orb_false_iff in Hunk as [? Hunk]).
  repeat match goal with H : String.eqb _ _ = false |- _ =>
                           rewrite H; clear H end.
  reflexivity.
Qed.

(** X11.  A mailing list whose [accountStatus] is not [['active']] is
    closed to everybody: whoever sends (a moderator, the owner, an
    explicitly allowed sender), whatever the policy, and even when the
    [accessPolicy] attribute has no value, the verdict is
    [SMTP_ACTIONS['reject']] and neither the directory nor the policy
    is looked at. *)
Theorem disabled_list_rejects_everybody
        (kw : kwargs) (ldif : dict (list string)) (oc : list string) :
  sasl_username kw <> recipient_without_ext kw ->
  recipient_ldif kw = Some ldif ->
  dict_get "objectClass" ldif = Some oc ->
  str_in "mailList" oc = true ->
  get "accountStatus" [] ldif <> ["active"] ->
  restriction kw
  = (Ok (SMTP_ACTIONS "reject"),
     [(DEBUG, "Recipient (mailing list) is disabled, message rejected.")]).
Proof.
  intros H1 H2 Hoc Hml Hact.
  unfold MaillistAccessPolicy.restriction.
  apply String.eqb_neq in H1. rewrite H1, H2.
  destruct ldif as [|e ldif']; [discriminate|].
  rewrite Hoc, Hml. cbn [negb].
  destruct (list_eqb (get "accountStatus" [] (e :: ldif')) ["active"]) eqn:E;
    [|reflexivity].
  exfalso. apply Hact.
  destruct (get "accountStatus" [] (e :: ldif')) as [|a [|b l]];
    cbn [list_eqb] in E; try discriminate.
  - rewrite andb_true_r in E. apply String.eqb_eq in E. now subst.
  - destruct (String.eqb a "active"); discriminate.
Qed.

(** X12.  Moderators, owners and explicitly allowed senders pass
    before any policy is applied.  For an active mailing list with a
    policy other than PUBLIC (and not handed over to mlmmj), a sender
    who is a [listModerator] or a [listOwner], or who is listed in
    [listAllowedUser] by address, by domain, by [*@domain], or by one
    of the dotted suffixes that are tested, gets DEFAULT whatever the
    policy name is and whatever the directory would answer. *)
Theorem listed_senders_pass_before_policy
        (kw : kwargs) (ldif : dict (list string)) (oc : list string)
        (p0 : string) (rest valid : list string) :
  sasl_username kw <> recipient_without_ext kw ->
  recipient_ldif kw = Some ldif ->
  dict_get "objectClass" ldif = Some oc ->
  str_in "mailList" oc = true ->
  get "accountStatus" [] ldif = ["active"] ->
  get "accessPolicy" [MAILLIST_POLICY_PUBLIC] ldif = p0 :: rest ->
  lower p0 <> MAILLIST_POLICY_PUBLIC ->
  str_in "mlmmj" (get "enabledService" [] ldif) = false ->
  get_primary_and_alias_domains (conn_vmail kw) (recipient_domain kw)
  = Ok valid ->
  let listed := get "listAllowedUser" [] ldif in
  str_in (sender_without_ext kw) (get "listModerator" [] ldif)
  || str_in (sender_without_ext kw) (get "listOwner" [] ldif)
  || str_in (sender_without_ext kw) listed
  || str_in (sender_domain kw) listed
  || str_in ("*@" ++ sender_domain kw)%string listed
  || existsb (fun d => str_in d listed)
             (possible_sender_domains (sender_domain kw)) = true ->
  exists reason,
    fst (restriction kw) = Ok (SMTP_ACTIONS "default" ++ reason)%string.
Proof.
  intros H1 H2 Hoc Hml Hact Hp Hnp Hsvc Hdom listed Hlisted.
  unfold MaillistAccessPolicy.restriction.
  apply String.eqb_neq in H1. rewrite H1, H2.
  destruct ldif as [|e ldif']; [discriminate|].
  rewrite Hoc, Hml, Hact, Hp. cbn [negb list_eqb].
  rewrite String.eqb_refl. cbn [andb negb].
  apply String.eqb_neq in Hnp. rewrite Hnp, Hsvc. cbn [andb].
  unfold MaillistAccessPolicy.explicit_checks. rewrite Hdom.
  fold listed.
  destruct (str_in _ (get "listModerator" [] _)) eqn:Em.
  { exists EmptyString. cbn [fst]. now rewrite AccessPolicyProofs.append_empty_r. }
  destruct (str_in _ (get "listOwner" [] _)) eqn:Eo.
  { exists EmptyString. cbn [fst]. now rewrite AccessPolicyProofs.append_empty_r. }
  destruct (str_in (sender_without_ext kw) listed) eqn:Es.
  { eexists. reflexivity. }
  destruct (str_in (sender_domain kw) listed) eqn:E1.
  { eexists. reflexivity. }
  destruct (str_in ("*@" ++ sender_domain kw)%string listed) eqn:E2.
  { eexists. reflexivity. }
  cbn [orb] in Hlisted |- *. rewrite Hlisted.
  eexists. reflexivity.
Qed.

(** ** What the verdict depends on *)

Lemma dict_get_cons_ne {V : Type} (k k' : string) (v : V) (d : dict V) :
  k <> k' -> dict_get k ((k', v) :: d) = dict_get k d.
Proof.
  intros H. cbn [dict_get]. apply String.eqb_neq in H. now rewrite H.
Qed.

Lemma get_cons_ne {V : Type} (k k' : string) (v dflt : V) (d : dict V) :
  k <> k' -> get k dflt ((k', v) :: d) = get k dflt d.
Proof. intros H. unfold get. now rewrite dict_get_cons_ne. Qed.

Lemma get_cons_eq {V : Type} (k : string) (v dflt : V) (d : dict V) :
  get k dflt ((k, v) :: d) = v.
Proof. unfold get. cbn [dict_get]. now rewrite String.eqb_refl. Qed.

Lemma existsb_same (A : Type) (f g : A -> bool) (l : list A) :
  (forall x, f x = g x) -> existsb f l = existsb g l.
Proof.
  intros H. induction l as [|x l IH]; [reflexivity|].
  cbn [existsb]. now rewrite H, IH.
Qed.

(** X13.  For every policy but MODERATORS, [listAllowedUser] counts as
    a set: two entries that differ only in the order or the
    repetitions of its values get the same verdict. *)
Theorem allow_list_is_a_set
        (sasl rcpt : string) (conn : ldap_conn) (sender sd rd : string)
        (ldif : dict (list string)) (l1 l2 : list string) :
  (forall x, In x l1 <-> In x l2) ->
  (forall p0 rest,
      get "accessPolicy" [MAILLIST_POLICY_PUBLIC] ldif = p0 :: rest ->
      lower p0 <> "allowedonly" /\ lower p0 <> MAILLIST_POLICY_MODERATORS) ->
  let kw l :=
    {| sasl_username := sasl;
       recipient_without_ext := rcpt;
       recipient_ldif := Some (("listAllowedUser", l) :: ldif);
       conn_vmail := conn;
       sender_without_ext := sender;
       sender_domain := sd;
       recipient_domain := rd |} in
  fst (restriction (kw l1)) = fst (restriction (kw l2)).
Proof.
  intros Hsame Hpol kw.
  unfold MaillistAccessPolicy.restriction. subst kw.
  cbn [sasl_username recipient_without_ext recipient_ldif].
  destruct (String.eqb sasl rcpt); [reflexivity|].
  repeat (rewrite (dict_get_cons_ne "objectClass") by discriminate).
  destruct (dict_get "objectClass" ldif) as [oc|]; [|reflexivity].
  destruct (negb (str_in "mailList" oc)); [reflexivity|].
  repeat (rewrite (get_cons_ne "accountStatus") by discriminate).
  repeat (rewrite (get_cons_ne "accessPolicy") by discriminate).
  repeat (rewrite (get_cons_ne "enabledService") by discriminate).
  destruct (negb (list_eqb (get "accountStatus" [] ldif) ["active"]));
    [reflexivity|].
  destruct (get "accessPolicy" [MAILLIST_POLICY_PUBLIC] ldif)
    as [|p0 rest] eqn:Hp; [reflexivity|].
  destruct (Hpol p0 rest eq_refl) as [Hlegacy Hmod].
  destruct (String.eqb (lower p0) MAILLIST_POLICY_PUBLIC); [reflexivity|].
  apply String.eqb_neq in Hlegacy, Hmod. rewrite Hlegacy.
  destruct (_ && _); [reflexivity|].
  unfold MaillistAccessPolicy.explicit_checks.
  cbn [conn_vmail sender_without_ext sender_domain recipient_domain].
  destruct (get_primary_and_alias_domains conn rd) as [valid|e];
    [|reflexivity].
  repeat (rewrite (get_cons_ne "listModerator") by discriminate).
  repeat (rewrite (get_cons_ne "listOwner") by discriminate).
  rewrite !get_cons_eq.
  destruct (str_in sender (get "listModerator" [] ldif)); [reflexivity|].
  destruct (str_in sender (get "listOwner" [] ldif)); [reflexivity|].
  rewrite (str_in_same_elements sender l1 l2 Hsame),
          (str_in_same_elements sd l1 l2 Hsame),
          (str_in_same_elements ("*@" ++ sd)%string l1 l2 Hsame),
          (existsb_same _ (fun d => str_in d l1) (fun d => str_in d l2)
                        (possible_sender_domains sd)
                        (fun d => str_in_same_elements d l1 l2 Hsame)).
  destruct (str_in sender l2); [reflexivity|].
  destruct (_ || _); [reflexivity|].
  destruct (existsb _ _); [reflexivity|].
  unfold MaillistAccessPolicy.verify_policy.
  cbn [conn_vmail sender_without_ext sender_domain recipient_domain
       recipient_without_ext sasl_username].
  rewrite Hmod. reflexivity.
Qed.

(** X14.  Of the [accessPolicy] attribute only the first value is
    read, and its case does not matter: two entries that differ only
    in that attribute, with first values that are equal up to case, are
    treated alike. *)
Theorem policy_name_ignores_case
        (sasl rcpt : string) (conn : ldap_conn) (sender sd rd : string)
        (ldif : dict (list string)) (p q : string) (ps qs : list string) :
  lower p = lower q ->
  let kw policy :=
    {| sasl_username := sasl;
       recipient_without_ext := rcpt;
       recipient_ldif := Some (("accessPolicy", policy) :: ldif);
       conn_vmail := conn;
       sender_without_ext := sender;
       sender_domain := sd;
       recipient_domain := rd |} in
  restriction (kw (p :: ps)) = restriction (kw (q :: qs)).
Proof.
  intros Hpq kw.
  unfold MaillistAccessPolicy.restriction. subst kw.
  cbn [sasl_username recipient_without_ext recipient_ldif].
  destruct (String.eqb sasl rcpt); [reflexivity|].
  repeat (rewrite (dict_get_cons_ne "objectClass") by discriminate).
  destruct (dict_get "objectClass" ldif) as [oc|]; [|reflexivity].
  destruct (negb (str_in "mailList" oc)); [reflexivity|].
  repeat (rewrite (get_cons_ne "accountStatus") by discriminate).
  repeat (rewrite (get_cons_ne "accessPolicy") by discriminate).
  repeat (rewrite (get_cons_ne "enabledService") by discriminate).
  destruct (negb (list_eqb (get "accountStatus" [] ldif) ["active"]));
    [reflexivity|].
  rewrite !get_cons_eq, Hpq.
  destruct (String.eqb (lower q) MAILLIST_POLICY_PUBLIC); [reflexivity|].
  destruct (_ && _); [reflexivity|].
  unfold MaillistAccessPolicy.explicit_checks.
  cbn [conn_vmail sender_without_ext sender_domain recipient_domain].
  destruct (get_primary_and_alias_domains conn rd) as [valid|e];
    [|reflexivity].
  repeat (rewrite (get_cons_ne "listModerator") by discriminate).
  repeat (rewrite (get_cons_ne "listOwner") by discriminate).
  repeat (rewrite (get_cons_ne "listAllowedUser") by discriminate).
  reflexivity.
Qed.

(** X15.  The policy name 'allowedonly' of old releases is the
    MODERATORS policy: provided the MODERATORS name is written in
    lower case and neither name is the PUBLIC one, an entry with
    [accessPolicy] 'allowedonly' is treated exactly like the same
    entry with the MODERATORS name. *)
Theorem allowedonly_is_moderators
        (sasl rcpt : string) (conn : ldap_conn) (sender sd rd : string)
        (ldif : dict (list string)) :
  lower MAILLIST_POLICY_MODERATORS = MAILLIST_POLICY_MODERATORS ->
  MAILLIST_POLICY_MODERATORS <> MAILLIST_POLICY_PUBLIC ->
  MAILLIST_POLICY_PUBLIC <> "allowedonly" ->
  let kw policy :=
    {| sasl_username := sasl;
       recipient_without_ext := rcpt;
       recipient_ldif := Some (("accessPolicy", [policy]) :: ldif);
       conn_vmail := conn;
       sender_without_ext := sender;
       sender_domain := sd;
       recipient_domain := rd |} in
  restriction (kw "allowedonly") = restriction (kw MAILLIST_POLICY_MODERATORS).
Proof.
  intros Hlow Hmp Hpa kw.
  unfold MaillistAccessPolicy.restriction. subst kw.
  cbn [sasl_username recipient_without_ext recipient_ldif].
  destruct (String.eqb sasl rcpt); [reflexivity|].
  repeat (rewrite (dict_get_cons_ne "objectClass") by discriminate).
  destruct (dict_get "objectClass" ldif) as [oc|]; [|reflexivity].
  destruct (negb (str_in "mailList" oc)); [reflexivity|].
  repeat (rewrite (get_cons_ne "accountStatus") by discriminate).
  repeat (rewrite (get_cons_ne "accessPolicy") by discriminate).
  repeat (rewrite (get_cons_ne "enabledService") by discriminate).
  destruct (negb (list_eqb (get "accountStatus" [] ldif) ["active"]));
    [reflexivity|].
  rewrite !get_cons_eq, Hlow.
  change (lower "allowedonly") with "allowedonly".
  apply not_eq_sym in Hpa.
  apply String.eqb_neq in Hmp, Hpa. rewrite Hmp, Hpa.
  rewrite String.eqb_refl.
  replace (if String.eqb MAILLIST_POLICY_MODERATORS "allowedonly"
           then MAILLIST_POLICY_MODERATORS else MAILLIST_POLICY_MODERATORS)
    with MAILLIST_POLICY_MODERATORS
    by (destruct (String.eqb MAILLIST_POLICY_MODERATORS "allowedonly");
        reflexivity).
  destruct (_ && _); [reflexivity|].
  unfold MaillistAccessPolicy.explicit_checks.
  cbn [conn_vmail sender_without_ext sender_domain recipient_domain].
  destruct (get_primary_and_alias_domains conn rd) as [valid|e];
    [|reflexivity].
  repeat (rewrite (get_cons_ne "listModerator") by discriminate).
  repeat (rewrite (get_cons_ne "listOwner") by discriminate).
  repeat (rewrite (get_cons_ne "listAllowedUser") by discriminate).
  reflexivity.
Qed.

(** ** The MODERATORS branch *)

Lemma expand_users_from (conn : ldap_conn) (dn : string)
      (_users : list string) (init : list pyval) (lg : list log_record) :
  fst (expand_users bytes2str conn dn _users init lg)
  = match fst (expand_users bytes2str conn dn _users [] []) with
    | Ok found => Ok (init ++ found)
    | Raise e => Raise e
    end.
Proof.
  unfold expand_users. destruct _users as [|u us].
  - cbn [fst]. now rewrite app_nil_r.
  - destruct (search_s conn _ 1 _ _); reflexivity.
Qed.

Lemma expand_domains_from (conn : ldap_conn)
      (_domains : list string) (init : list pyval) (lg : list log_record) :
  fst (expand_domains ldap_basedn conn _domains init lg)
  = match fst (expand_domains ldap_basedn conn _domains [] []) with
    | Ok found => Ok (init ++ found)
    | Raise e => Raise e
    end.
Proof.
  unfold expand_domains. destruct _domains as [|d ds].
  - cbn [fst]. now rewrite app_nil_r.
  - destruct (search_s conn _ 1 _ _); reflexivity.
Qed.

Lemma py_in_app (x : pyval) (a b : list pyval) :
  py_in x (a ++ b) = py_in x a || py_in x b.
Proof. unfold py_in. apply existsb_app. Qed.

Lemma py_in_map_PyStr (x : string) (l : list string) :
  py_in (PyStr x) (map PyStr l) = str_in x l.
Proof.
  induction l as [|y l IH]; [reflexivity|].
  cbn [map py_in existsb str_in pyval_eqb]. unfold py_in, str_in in IH.
  now rewrite IH.
Qed.

Lemma str_in_incl (x : string) (l' l : list string) :
  incl l' l -> str_in x l = false -> str_in x l' = false.
Proof.
  intros Hincl Hl. destruct (str_in x l') eqn:E; [|reflexivity].
  apply str_in_In, Hincl, str_in_In in E. congruence.
Qed.

(** X16.  MODERATORS, for an authenticated sender, once the resolver
    is at the policy-specific part: the entries left in the allow-list
    never let the sender through here, only what the two lookups bring
    back does.  With [_users] and [_domains] as the loop leaves them,
    the verdict is DEFAULT when the sender address or the sender
    domain is among the values found for [_users] or for [_domains],
    and REJECT-NOT-AUTHORIZED otherwise. *)
Theorem moderators_decided_by_lookups
        (kw : kwargs) (ldif : dict (list string)) (valid : list string)
        (left_over _users _domains : list string)
        (found_users found_domains : list pyval) :
  reaches_policy kw ldif MAILLIST_POLICY_MODERATORS valid ->
  str_in MAILLIST_POLICY_MODERATORS
         [MAILLIST_POLICY_DOMAIN; MAILLIST_POLICY_SUBDOMAIN;
          MAILLIST_POLICY_MEMBERSONLY;
          MAILLIST_POLICY_MEMBERSANDMODERATORSONLY] = false ->
  truthy (sasl_username kw) = true ->
  separate is_email (recipient_domain kw)
           (filter (fun s => negb (startswith "*@" s))
                   (get "listAllowedUser" [] ldif))
  = (left_over, _users, _domains) ->
  fst (expand_users bytes2str (conn_vmail kw)
                    ("domainName=" ++ recipient_domain kw ++ "," ++ ldap_basedn)
                    _users [] [])
  = Ok found_users ->
  fst (expand_domains ldap_basedn (conn_vmail kw) _domains [] [])
  = Ok found_domains ->
  let found := found_users ++ found_domains in
  fst (restriction kw)
  = if py_in (PyStr (sender_without_ext kw)) found
       || py_in (PyStr (sender_domain kw)) found
    then Ok (SMTP_ACTIONS "default")
    else Ok (SMTP_ACTIONS "reject_not_authorized").
Proof.
  intros Hreach Hnames Hsasl Hsep Hus Hds found.
  pose proof (sender_not_listed _ _ _ _ _ _ _ _ Hreach) as Hs.
  pose proof (domain_not_listed _ _ _ _ _ _ _ _ Hreach) as Hd.
  rewrite (reached _ _ _ _ Hreach).
  unfold MaillistAccessPolicy.verify_policy.
  cbn [str_in existsb] in Hnames |- *.
  apply orb_false_iff in Hnames as [E1 Hnames].
  apply orb_false_iff in Hnames as [E2 Hnames].
  apply orb_false_iff in Hnames as [E3 Hnames].
  apply orb_false_iff in Hnames as [E4 _].
  rewrite E1, E2, E3, E4, String.eqb_refl. cbn [orb].
  unfold MaillistAccessPolicy.moderators.
  rewrite Hsasl, Hsep. cbn [negb].
  assert (Hleft : incl left_over (get "listAllowedUser" [] ldif)).
  { pose proof (separate_loop_invariant
                  is_email (recipient_domain kw)
                  (filter (fun s => negb (startswith "*@" s))
                          (get "listAllowedUser" [] ldif))
                  (List.length (filter (fun s => negb (startswith "*@" s))
                                       (get "listAllowedUser" [] ldif)))
                  0 _ [] [] (incl_refl _) (Forall_nil _) (Forall_nil _)) as H.
    unfold MaillistAccessPolicy.separate in Hsep. rewrite Hsep in H.
    destruct H as (_ & H & _). intros z Hz.
    apply H, filter_In in Hz. tauto. }
  pose proof (expand_users_from
                (conn_vmail kw)
                ("domainName=" ++ recipient_domain kw ++ "," ++ ldap_basedn)
                _users (map PyStr left_over)) as Hu.
  rewrite Hus in Hu.
  match goal with
  | |- context [expand_users bytes2str ?c ?dn ?us ?init ?lg] =>
      specialize (Hu lg);
      destruct (expand_users bytes2str c dn us init lg) as [r1 lg1]
  end.
  cbn [fst] in Hu. subst r1.
  pose proof (expand_domains_from
                (conn_vmail kw) _domains
                (map PyStr left_over ++ found_users) lg1) as Hdm.
  rewrite Hds in Hdm.
  destruct (expand_domains ldap_basedn (conn_vmail kw) _domains
                           (map PyStr left_over ++ found_users) lg1)
    as [r2 lg2].
  cbn [fst] in Hdm. subst r2.
  rewrite <- app_assoc. fold found.
  rewrite !py_in_app, !py_in_map_PyStr.
  rewrite (str_in_incl _ _ _ Hleft Hs), (str_in_incl _ _ _ Hleft Hd).
  cbn [orb].
  destruct (py_in _ found || py_in _ found); reflexivity.
Qed.

End WithLibs.

(** ** Concrete runs *)

Ltac sample_reaches p0 :=
  constructor; try reflexivity;
  [ discriminate
  | eexists; split; reflexivity
  | exists p0, (@nil string); split; [reflexivity|];
    split; [discriminate | reflexivity] ].

(** sales.lists.org is under lists.org. *)
Lemma domain_and_subdomain_policies_witness :
  fst (Samples.access_policy
         (Samples.to_list Samples.directory "" "u@sales.lists.org"
                          "sales.lists.org"
                          (Samples.list_entry ["subdomain"] [])))
  = Ok "DUNNO".
Proof.
  refine (proj1 (proj2 (domain_and_subdomain_policies
            Samples.actions Samples.PUBLIC Samples.DOMAIN Samples.SUBDOMAIN
            Samples.MEMBERSONLY Samples.MODERATORS
            Samples.MEMBERSANDMODERATORSONLY "o=domains,dc=example,dc=com"
            Samples.is_email Samples.bytes2str
            Samples.primary_and_alias_domains Samples.repr_exn
            _ (Samples.list_entry ["subdomain"] []) Samples.SUBDOMAIN
            ["lists.org"] _ _) eq_refl) _).
  - sample_reaches "subdomain".
  - discriminate.
  - exists "lists.org". split; [now left|]. right. exists "sales". reflexivity.
Defined.


Lemma unknown_policy_fails_open_witness :
  fst (Samples.access_policy
         (Samples.to_list Samples.broken_directory "" "u@example.com"
                          "example.com"
                          (Samples.list_entry ["members-only"] [])))
  = Ok "DUNNO (Unknown access policy: members-only, no restriction)".
Proof.
  refine (f_equal fst (unknown_policy_fails_open
            Samples.actions Samples.PUBLIC Samples.DOMAIN Samples.SUBDOMAIN
            Samples.MEMBERSONLY Samples.MODERATORS
            Samples.MEMBERSANDMODERATORSONLY "o=domains,dc=example,dc=com"
            Samples.is_email Samples.bytes2str
            Samples.primary_and_alias_domains Samples.repr_exn
            (Samples.to_list Samples.broken_directory "" "u@example.com"
                             "example.com"
                             (Samples.list_entry ["members-only"] []))
            (Samples.list_entry ["members-only"] []) "members-only"
            ["lists.org"] _ eq_refl)).
  sample_reaches "members-only".
Defined.

(** A disabled list whose only moderator writes to it, and whose
    [accessPolicy] has no value. *)
Lemma disabled_list_rejects_everybody_witness :
  fst (Samples.access_policy
         (Samples.to_list Samples.directory "" "mod@example.com" "example.com"
                          [("objectClass", ["mailList"]);
                           ("accountStatus", ["disabled"]);
                           ("accessPolicy", []);
                           ("listModerator", ["mod@example.com"])]))
  = Ok "REJECT Not authorized".
Proof.
  refine (f_equal fst (disabled_list_rejects_everybody
            Samples.actions Samples.PUBLIC Samples.DOMAIN Samples.SUBDOMAIN
            Samples.MEMBERSONLY Samples.MODERATORS
            Samples.MEMBERSANDMODERATORSONLY "o=domains,dc=example,dc=com"
            Samples.is_email Samples.bytes2str
            Samples.primary_and_alias_domains Samples.repr_exn
            (Samples.to_list Samples.directory "" "mod@example.com"
                             "example.com"
                             [("objectClass", ["mailList"]);
                              ("accountStatus", ["disabled"]);
                              ("accessPolicy", []);
                              ("listModerator", ["mod@example.com"])])
            _ ["mailList"] _ eq_refl eq_refl eq_refl _)).
  - discriminate.
  - discriminate.
Defined.

(** A sender listed by [*@domain] passes a MEMBERS_ONLY list although
    the directory is down. *)
Lemma listed_senders_pass_before_policy_witness :
  exists reason,
    fst (Samples.access_policy
           (Samples.to_list Samples.broken_directory "" "u@example.com"
                            "example.com"
                            (Samples.list_entry ["membersOnly"]
                                                ["*@example.com"])))
    = Ok ("DUNNO" ++ reason)%string.
Proof.
  refine (listed_senders_pass_before_policy
            Samples.actions Samples.PUBLIC Samples.DOMAIN Samples.SUBDOMAIN
            Samples.MEMBERSONLY Samples.MODERATORS
            Samples.MEMBERSANDMODERATORSONLY "o=domains,dc=example,dc=com"
            Samples.is_email Samples.bytes2str
            Samples.primary_and_alias_domains Samples.repr_exn
            (Samples.to_list Samples.broken_directory "" "u@example.com"
                             "example.com"
                             (Samples.list_entry ["membersOnly"]
                                                 ["*@example.com"]))
            _ ["mailList"; "amavisAccount"] "membersOnly" [] ["lists.org"]
            _ eq_refl eq_refl eq_refl eq_refl eq_refl _ eq_refl eq_refl
            eq_refl).
  - discriminate.
  - discriminate.
Defined.

Lemma allow_list_is_a_set_witness :
  let sent allowed :=
    {| sasl_username := "";
       recipient_without_ext := "list@lists.org";
       recipient_ldif :=
         Some (("listAllowedUser", allowed) :: Samples.list_entry ["domain"] []);
       conn_vmail := Samples.directory;
       sender_without_ext := "u@b.com";
       sender_domain := "b.com";
       recipient_domain := "lists.org" |} in
  fst (Samples.access_policy (sent ["a.com"; "b.com"]))
  = fst (Samples.access_policy (sent ["b.com"; "a.com"; "a.com"])).
Proof.
  refine (allow_list_is_a_set
            Samples.actions Samples.PUBLIC Samples.DOMAIN Samples.SUBDOMAIN
            Samples.MEMBERSONLY Samples.MODERATORS
            Samples.MEMBERSANDMODERATORSONLY "o=domains,dc=example,dc=com"
            Samples.is_email Samples.bytes2str
            Samples.primary_and_alias_domains Samples.repr_exn
            "" "list@lists.org" Samples.directory "u@b.com" "b.com" "lists.org"
            (Samples.list_entry ["domain"] [])
            ["a.com"; "b.com"] ["b.com"; "a.com"; "a.com"] _ _).
  - intros x. cbn. tauto.
  - intros p0 rest H. injection H as <- <-. split; discriminate.
Defined.

Lemma policy_name_ignores_case_witness :
  let sent policy :=
    {| sasl_username := "";
       recipient_without_ext := "list@lists.org";
       recipient_ldif :=
         Some (("accessPolicy", policy) :: Samples.list_entry [] []);
       conn_vmail := Samples.directory;
       sender_without_ext := "member@lists.org";
       sender_domain := "lists.org";
       recipient_domain := "lists.org" |} in
  Samples.access_policy (sent ["MembersOnly"; "public"])
  = Samples.access_policy (sent ["membersonly"]).
Proof.
  exact (policy_name_ignores_case
           Samples.actions Samples.PUBLIC Samples.DOMAIN Samples.SUBDOMAIN
           Samples.MEMBERSONLY Samples.MODERATORS
           Samples.MEMBERSANDMODERATORSONLY "o=domains,dc=example,dc=com"
           Samples.is_email Samples.bytes2str
           Samples.primary_and_alias_domains Samples.repr_exn
           "" "list@lists.org" Samples.directory "member@lists.org"
           "lists.org" "lists.org" (Samples.list_entry [] [])
           "MembersOnly" "membersonly" ["public"] [] eq_refl).
Defined.

Lemma allowedonly_is_moderators_witness :
  let sent policy :=
    {| sasl_username := "carol@b-alias.com";
       recipient_without_ext := "list@lists.org";
       recipient_ldif :=
         Some (("accessPolicy", [policy]) :: Samples.list_entry [] ["b.com"]);
       conn_vmail := Samples.directory;
       sender_without_ext := "carol@b-alias.com";
       sender_domain := "b-alias.com";
       recipient_domain := "lists.org" |} in
  Samples.access_policy (sent "allowedonly")
  = Samples.access_policy (sent "moderatorsonly").
Proof.
  refine (allowedonly_is_moderators
            Samples.actions Samples.PUBLIC Samples.DOMAIN Samples.SUBDOMAIN
            Samples.MEMBERSONLY Samples.MODERATORS
            Samples.MEMBERSANDMODERATORSONLY "o=domains,dc=example,dc=com"
            Samples.is_email Samples.bytes2str
            Samples.primary_and_alias_domains Samples.repr_exn
            "carol@b-alias.com" "list@lists.org" Samples.directory
            "carol@b-alias.com" "b-alias.com" "lists.org"
            (Samples.list_entry [] ["b.com"]) eq_refl _ _).
  - discriminate.
  - discriminate.
Defined.

(** The allow-list names b.com only; the sender writes from its alias
    domain. *)
Lemma moderators_decided_by_lookups_witness :
  fst (Samples.access_policy
         (Samples.to_list Samples.directory "carol@b-alias.com"
                          "carol@b-alias.com" "b-alias.com"
                          (Samples.list_entry ["moderatorsonly"] ["b.com"])))
  = Ok "DUNNO".
Proof.
  refine (moderators_decided_by_lookups
            Samples.actions Samples.PUBLIC Samples.DOMAIN Samples.SUBDOMAIN
            Samples.MEMBERSONLY Samples.MODERATORS
            Samples.MEMBERSANDMODERATORSONLY "o=domains,dc=example,dc=com"
            Samples.is_email Samples.bytes2str
            Samples.primary_and_alias_domains Samples.repr_exn
            (Samples.to_list Samples.directory "carol@b-alias.com"
                             "carol@b-alias.com" "b-alias.com"
                             (Samples.list_entry ["moderatorsonly"] ["b.com"]))
            (Samples.list_entry ["moderatorsonly"] ["b.com"]) ["lists.org"]
            [] [] ["b.com"] []
            [PyStr "b.com"; PyStr "b-alias.com"]
            _ eq_refl eq_refl eq_refl eq_refl eq_refl).
  sample_reaches "moderatorsonly".
Defined.

(** The alias-domain entry of b.com as a search hands it out, in
    [bytes]. *)
Lemma collect_alias_domains_bytes_witness :
  collect_alias_domains
    ["b.com"] ["domainName"; "domainAliasName"]
    [("domainName=b.com,o=domains,dc=example,dc=com",
      [("domainName", [PyBytes "b.com"]);
       ("domainAliasName", [PyBytes "b-alias.com"])])]
  = [].
Proof.
  apply AccessPolicyProofs.collect_alias_domains_bytes.
  repeat constructor; eexists; reflexivity.
Defined.

End AccessPolicyExtras.

(* ================================================================== *)
(** * Further properties of the sender/login mismatch check *)
(* ================================================================== *)

Module LoginMismatchExtras.
Import RejectSenderLoginMismatch.

(** ** Splitting an address *)

(** [s.split(sep, 1)] gives [s] alone when [sep] does not occur in
    [s], and otherwise what stands before and after its first
    occurrence. *)
Lemma split1_forms (sep : ascii) (s : string) :
  (split1 sep s = [s] /\ forall a b, s <> (a ++ String sep b)%string)
  \/ (exists n d, split1 sep s = [n; d] /\ s = (n ++ String sep d)%string
                  /\ split1 sep n = [n]).
Proof.
  induction s as [|c r IH].
  - left. split; [reflexivity|]. intros [|x a] b; discriminate.
  - cbn [split1]. destruct (Ascii.eqb c sep) eqn:E.
    + apply Ascii.eqb_eq in E. subst c. right.
      exists EmptyString, r. repeat split; reflexivity.
    + destruct IH as [[Hr Hno]|(n & d & Hr & Hs & Hn)]; rewrite Hr.
      * left. split; [reflexivity|]. intros [|x a] b H.
        -- injection H as -> _. rewrite Ascii.eqb_refl in E. discriminate.
        -- injection H as _ H. now apply (Hno a b).
      * right. exists (String c n), d. repeat split.
        -- now rewrite Hs.
        -- cbn [split1]. now rewrite E, Hn.
Qed.

Section WithLibs.

Variable SMTP_ACTIONS : string -> string.
Variable st : settings.
Variable is_trusted_client : string -> bool.
Variable is_local_domain : conn -> string -> bool -> result bool.
Variable is_allowed_server_in_spf : string -> string -> result bool.
Variable get_account_ldif :
  conn -> string -> string -> list string -> result (option string).
Variable sqlquote : string -> string.
Variable requests_get : string -> dict string -> result response.

#[local] Abbreviation restriction :=
  (restriction SMTP_ACTIONS st is_trusted_client is_local_domain
               is_allowed_server_in_spf get_account_ldif sqlquote requests_get).
#[local] Abbreviation authenticated :=
  (authenticated SMTP_ACTIONS st get_account_ldif sqlquote requests_get).
#[local] Abbreviation unauthenticated :=
  (unauthenticated SMTP_ACTIONS st is_trusted_client is_local_domain
                   is_allowed_server_in_spf).
#[local] Abbreviation after_allow_list :=
  (after_allow_list SMTP_ACTIONS st get_account_ldif sqlquote requests_get).
#[local] Abbreviation alias_and_member_checks :=
  (alias_and_member_checks SMTP_ACTIONS st get_account_ldif sqlquote).
#[local] Abbreviation mlmmj_check := (mlmmj_check SMTP_ACTIONS st requests_get).
#[local] Abbreviation action_reject := (action_reject SMTP_ACTIONS).

(** X18.  A sender address that is not empty and has no at-sign makes
    [restriction] raise [ValueError] at once (the unpacking of line
    133), whatever the configuration, whether the sender is
    authenticated or not, and even from a trusted client. *)
Theorem sender_without_at_sign_raises (kw : kwargs) :
  truthy (sender_without_ext kw) = true ->
  (forall name domain,
      sender_without_ext kw <> (name ++ "@" ++ domain)%string) ->
  restriction kw = (Raise ValueError, []).
Proof.
  intros Hs Hno. unfold RejectSenderLoginMismatch.restriction, split_sender.
  rewrite Hs.
  destruct (split1_forms "@" (sender_without_ext kw))
    as [[-> _]|(n & d & _ & H & _)].
  - reflexivity.
  - exfalso. apply (Hno n d). exact H.
Qed.

(** X19.  The name and the domain that the plugin works with are the
    two sides of the first at-sign of the sender address: put together
    again they give the address, and the name holds no at-sign. *)
Theorem split_sender_recombines (sender sender_name sender_domain : string) :
  truthy sender = true ->
  split_sender sender = Ok (sender_name, sender_domain) ->
  sender = (sender_name ++ "@" ++ sender_domain)%string
  /\ forall a b, sender_name <> (a ++ "@" ++ b)%string.
Proof.
  unfold split_sender. intros -> H.
  destruct (split1_forms "@" sender) as [[Hr _]|(n & d & Hr & Hs & Hn)];
    rewrite Hr in H; [discriminate|].
  injection H as <- <-. split; [exact Hs|].
  destruct (split1_forms "@" n) as [[_ Hno]|(n' & d' & Hr' & _)].
  - exact Hno.
  - rewrite Hn in Hr'. discriminate.
Qed.

(** X20.  An authenticated sender who sends as himself, or with no
    sender address at all, gets DEFAULT whatever is configured and
    whatever the backends would answer. *)
Theorem same_identity_passes (kw : kwargs) :
  truthy (sasl_username kw) = true ->
  sender_without_ext kw = EmptyString
  \/ (sender_without_ext kw = sasl_username kw
      /\ exists name domain,
          sasl_username kw = (name ++ "@" ++ domain)%string) ->
  fst (restriction kw) = Ok (SMTP_ACTIONS "default").
Proof.
  intros Hsasl [He|[He (name & domain & Hnd)]];
    unfold RejectSenderLoginMismatch.restriction, split_sender.
  - rewrite He, Hsasl. reflexivity.
  - rewrite He, Hsasl.
    destruct (split1_forms "@" (sasl_username kw))
      as [[_ Hno]|(n & d & -> & _)].
    + exfalso. apply (Hno name domain). exact Hnd.
    + cbn [andb negb].
      unfold RejectSenderLoginMismatch.authenticated.
      rewrite String.eqb_refl. reflexivity.
Qed.

(** X21.  The whole decision for an unauthenticated sender, when the
    two lookups answer.  The verdict is DEFAULT if the client is
    trusted, or forged-sender checking is off, or the sender is in the
    forged-sender allow-list (as an address, as a domain, or as the
    name with [@*] after it), or the sender domain is not local (it is
    neither the recipient domain nor a local domain of the backend),
    or the SPF check is on and lists the client; in every other case
    it is REJECT (forged sender). *)
Theorem unauthenticated_decision
        (kw : kwargs) (sender_name sender_domain : string)
        (hosted listed_in_spf : bool) :
  sasl_username kw = EmptyString ->
  split_sender (sender_without_ext kw) = Ok (sender_name, sender_domain) ->
  is_local_domain (conn_vmail kw) sender_domain false = Ok hosted ->
  is_allowed_server_in_spf sender_domain (client_address kw)
  = Ok listed_in_spf ->
  let allowed :=
    str_in (sender_without_ext kw) (allowed_forged_senders st)
    || str_in sender_domain (allowed_forged_senders st)
    || str_in (sender_name ++ "@*")%string (allowed_forged_senders st) in
  let local := String.eqb sender_domain (recipient_domain kw) || hosted in
  fst (restriction kw)
  = if is_trusted_client (client_address kw)
       || negb (check_forged_sender st)
       || allowed
       || negb local
       || (CHECK_SPF_IF_LOGIN_MISMATCH st && listed_in_spf)
    then Ok (SMTP_ACTIONS "default")
    else Ok (SMTP_ACTIONS "reject_forged_sender").
Proof.
  intros Hsasl Hsplit Hlocal Hspf allowed local.
  rewrite (LoginMismatchProofs.restriction_unauthenticated
             SMTP_ACTIONS st is_trusted_client is_local_domain
             is_allowed_server_in_spf get_account_ldif sqlquote requests_get
             kw _ _ Hsasl Hsplit).
  unfold RejectSenderLoginMismatch.unauthenticated. subst allowed local.
  destruct (is_trusted_client (client_address kw)); [reflexivity|].
  destruct (check_forged_sender st); [|reflexivity].
  destruct (_ || _ || _); [reflexivity|]. cbn [negb orb].
  rewrite Hlocal, Hspf.
  destruct (String.eqb sender_domain (recipient_domain kw)), hosted,
           (CHECK_SPF_IF_LOGIN_MISMATCH st), listed_in_spf; reflexivity.
Qed.

(** ** Which verdicts come out *)

Ltac split_run H :=
  repeat match type of H with
         | fst (if ?b then _ else _) = _ => destruct b eqn:?
         | fst (match ?x with _ => _ end) = _ => destruct x eqn:?
         | fst (let '(_, _) := ?x in _) = _ => destruct x eqn:?
         end;
  cbn [fst] in H; try discriminate H.

Lemma unauthenticated_verdict kw sender name domain a :
  fst (unauthenticated kw sender name domain) = Ok a ->
  a = SMTP_ACTIONS "default" \/ a = SMTP_ACTIONS "reject_forged_sender".
Proof.
  unfold RejectSenderLoginMismatch.unauthenticated. intros H.
  split_run H; injection H as <-; auto.
Qed.

Lemma ldap_checks_verdict kw sender lg a :
  fst (ldap_checks SMTP_ACTIONS st get_account_ldif kw sender lg)
  = Returned (Ok a) ->
  a = SMTP_ACTIONS "default".
Proof.
  unfold ldap_checks. intros H. split_run H. now injection H as <-.
Qed.

Lemma sql_strict_verdict kw sender name domain user lg a :
  fst (sql_strict SMTP_ACTIONS sqlquote kw sender name domain user lg)
  = inl (Ok a) ->
  a = SMTP_ACTIONS "default".
Proof.
  unfold sql_strict. intros H. split_run H; now injection H as <-.
Qed.

Lemma sql_list_member_verdict kw rsu rs lg a :
  fst (sql_list_member SMTP_ACTIONS sqlquote kw rsu rs lg) = Returned (Ok a) ->
  a = SMTP_ACTIONS "default".
Proof.
  unfold sql_list_member. intros H. split_run H; now injection H as <-.
Qed.

Lemma alias_and_member_checks_verdict kw sender name domain user lg a :
  fst (alias_and_member_checks kw sender name domain user lg)
  = Returned (Ok a) ->
  a = SMTP_ACTIONS "default".
Proof.
  unfold RejectSenderLoginMismatch.alias_and_member_checks. intros H.
  destruct (is_strict st || allow_list_member st); [|discriminate H].
  destruct (String.eqb (backend st) "ldap").
  { now apply ldap_checks_verdict in H. }
  destruct (str_in (backend st) ["mysql"; "pgsql"]); [|discriminate H].
  destruct (is_strict st).
  - destruct (sql_strict SMTP_ACTIONS sqlquote kw sender name domain user _)
      as [[r|[rsu rs]] lg1] eqn:Hstrict.
    + cbn [fst] in H. injection H as ->.
      eapply sql_strict_verdict. rewrite Hstrict. reflexivity.
    + destruct (allow_list_member st); [|discriminate H].
      now apply sql_list_member_verdict in H.
  - destruct (allow_list_member st); [|discriminate H].
    now apply sql_list_member_verdict in H.
Qed.

Lemma mlmmj_check_verdict c rs sasl lg a :
  fst (mlmmj_check c rs sasl lg) = Ok a ->
  a = SMTP_ACTIONS "default" \/ a = action_reject.
Proof.
  unfold RejectSenderLoginMismatch.mlmmj_check. intros H.
  split_run H; injection H as <-; auto.
Qed.

Lemma after_allow_list_verdict kw sender name domain user lg a :
  fst (after_allow_list kw sender name domain user lg) = Ok a ->
  a = SMTP_ACTIONS "default" \/ a = action_reject.
Proof.
  unfold RejectSenderLoginMismatch.after_allow_list. intros H.
  destruct (alias_and_member_checks kw sender name domain user lg)
    as [[r|c rs] lg1] eqn:Hc.
  - cbn [fst] in H. subst r. left.
    apply (alias_and_member_checks_verdict kw sender name domain user lg a).
    now rewrite Hc.
  - now apply mlmmj_check_verdict in H.
Qed.

Lemma authenticated_verdict kw sender name domain user a :
  fst (authenticated kw sender name domain user) = Ok a ->
  a = SMTP_ACTIONS "default" \/ a = action_reject.
Proof.
  unfold RejectSenderLoginMismatch.authenticated. intros H.
  repeat match type of H with
         | fst (if ?b then _ else _) = _ => destruct b eqn:?
         end;
    try (now apply after_allow_list_verdict in H);
    cbn [fst] in H; injection H as <-; auto.
Qed.

(** X22.  Whenever [restriction] returns, the verdict is one of three
    actions: the bare default action, the forged-sender REJECT, which
    only an unauthenticated sender gets, or the login-mismatch REJECT,
    which only an authenticated sender gets.  No reason is ever
    attached, and nothing is deferred. *)
Theorem login_mismatch_verdicts (kw : kwargs) (a : string) :
  fst (restriction kw) = Ok a ->
  a = SMTP_ACTIONS "default"
  \/ (a = SMTP_ACTIONS "reject_forged_sender"
      /\ sasl_username kw = EmptyString)
  \/ (a = SMTP_ACTIONS "reject_sender_login_mismatch"
      /\ sasl_username kw <> EmptyString).
Proof.
  unfold RejectSenderLoginMismatch.restriction. intros H.
  destruct (split_sender (sender_without_ext kw)) as [[name domain]|e];
    [|discriminate H].
  destruct (sasl_username kw) as [|c sasl] eqn:Hsasl; cbn [truthy andb negb] in H.
  - apply unauthenticated_verdict in H as [H|H]; auto.
  - destruct (negb (truthy (sender_without_ext kw))).
    + injection H as <-. auto.
    + apply authenticated_verdict in H as [H|H]; auto.
      right. right. split; [exact H | discriminate].
Qed.

(** ** What the verdict does not depend on *)

Lemma mlmmj_check_same (rg1 rg2 : string -> dict string -> result response)
      (c : bool) (rs sasl : string) (lg : list log_record) :
  c = false
  \/ truthy (mlmmjadmin_api_auth_token st) = false
  \/ truthy (mlmmjadmin_api_endpoint st) = false ->
  RejectSenderLoginMismatch.mlmmj_check SMTP_ACTIONS st rg1 c rs sasl lg
  = RejectSenderLoginMismatch.mlmmj_check SMTP_ACTIONS st rg2 c rs sasl lg.
Proof.
  unfold RejectSenderLoginMismatch.mlmmj_check.
  intros [->|[H|H]]; [reflexivity| |]; destruct c; try reflexivity;
    rewrite H; [|rewrite andb_false_r]; reflexivity.
Qed.

Lemma sql_without_list_member_never_sets_flag kw sender name domain user lg :
  str_in (backend st) ["mysql"; "pgsql"] = true ->
  allow_list_member st = false ->
  forall rs, fst (alias_and_member_checks kw sender name domain user lg)
             <> Falls true rs.
Proof.
  intros Hb Hm rs.
  unfold RejectSenderLoginMismatch.alias_and_member_checks.
  rewrite Hm, Hb.
  assert (Hl : String.eqb (backend st) "ldap" = false).
  { cbn [str_in existsb] in Hb.
    destruct (String.eqb (backend st) "mysql") eqn:E1.
    - apply String.eqb_eq in E1. now rewrite E1.
    - destruct (String.eqb (backend st) "pgsql") eqn:E2; [|discriminate].
      apply String.eqb_eq in E2. now rewrite E2. }
  rewrite Hl.
  destruct (is_strict st); cbn [orb]; [|discriminate].
  destruct (sql_strict SMTP_ACTIONS sqlquote kw sender name domain user _)
    as [[r|[rsu rs']] lg1]; discriminate.
Qed.

(** X23.  The mlmmjadmin API is not always asked.  On an SQL backend
    with the list-member mode off, or without an API token, or without
    an API endpoint, the outcome of [restriction] (verdict and log) is
    the same whatever [requests.get] would do. *)
Theorem api_is_not_consulted
        (rg1 rg2 : string -> dict string -> result response) (kw : kwargs) :
  (str_in (backend st) ["mysql"; "pgsql"] = true
   /\ allow_list_member st = false)
  \/ truthy (mlmmjadmin_api_auth_token st) = false
  \/ truthy (mlmmjadmin_api_endpoint st) = false ->
  RejectSenderLoginMismatch.restriction
    SMTP_ACTIONS st is_trusted_client is_local_domain
    is_allowed_server_in_spf get_account_ldif sqlquote rg1 kw
  = RejectSenderLoginMismatch.restriction
      SMTP_ACTIONS st is_trusted_client is_local_domain
      is_allowed_server_in_spf get_account_ldif sqlquote rg2 kw.
Proof.
  intros Hcond.
  assert (Hafter : forall sender name domain user lg,
             RejectSenderLoginMismatch.after_allow_list
               SMTP_ACTIONS st get_account_ldif sqlquote rg1
               kw sender name domain user lg
             = RejectSenderLoginMismatch.after_allow_list
                 SMTP_ACTIONS st get_account_ldif sqlquote rg2
                 kw sender name domain user lg).
  { intros sender name domain user lg.
    unfold RejectSenderLoginMismatch.after_allow_list.
    destruct (alias_and_member_checks kw sender name domain user lg)
      as [[r|c rs] lg1] eqn:Hc; [reflexivity|].
    apply mlmmj_check_same.
    destruct Hcond as [[Hb Hm]|Hcond]; [|now right].
    left. destruct c; [|reflexivity].
    exfalso.
    apply (sql_without_list_member_never_sets_flag
             kw sender name domain user lg Hb Hm rs).
    now rewrite Hc. }
  unfold RejectSenderLoginMismatch.restriction.
  destruct (split_sender (sender_without_ext kw)) as [[name domain]|e];
    [|reflexivity].
  destruct (truthy (sasl_username kw) && negb (truthy (sender_without_ext kw)));
    [reflexivity|].
  destruct (negb (truthy (sasl_username kw))); [reflexivity|].
  unfold RejectSenderLoginMismatch.authenticated.
  repeat match goal with
         | |- (if ?b then _ else _) = (if ?b then _ else _) => destruct b
         end;
    try reflexivity; apply Hafter.
Qed.

(** X24.  For an authenticated sender neither the client address nor
    the recipient domain plays a part: being on a trusted network is
    no way around the login-mismatch check. *)
Theorem authenticated_ignores_client
        (sasl sasl_domain sender rd1 rd2 ca1 ca2 : string) (c : conn) :
  truthy sasl = true ->
  let kw rd ca :=
    {| sasl_username := sasl;
       sasl_username_domain := sasl_domain;
       sender_without_ext := sender;
       recipient_domain := rd;
       client_address := ca;
       conn_vmail := c |} in
  restriction (kw rd1 ca1) = restriction (kw rd2 ca2).
Proof.
  intros Hsasl kw. subst kw.
  unfold RejectSenderLoginMismatch.restriction.
  cbn [sasl_username sender_without_ext]. rewrite Hsasl.
  destruct (split_sender sender) as [[name domain]|e]; [|reflexivity].
  cbn [negb andb].
  destruct (negb (truthy sender)); reflexivity.
Qed.

End WithLibs.

Lemma sender_without_at_sign_raises_witness :
  Samples.login_mismatch (Samples.settings_with ["postmaster"] true true true)
                         Samples.api_subscribed
                         (Samples.sent_as "postmaster" "" "postmaster")
  = (Raise ValueError, []).
Proof.
  refine (sender_without_at_sign_raises
            Samples.actions (Samples.settings_with ["postmaster"] true true true)
            Samples.is_trusted_client Samples.is_local_domain
            Samples.is_allowed_server_in_spf Samples.get_account_ldif
            Samples.sqlquote Samples.api_subscribed
            (Samples.sent_as "postmaster" "" "postmaster") eq_refl _).
  intros name domain H. cbn in H.
  repeat (destruct name as [|? name]; cbn in H; [discriminate|];
          injection H as _ H).
  destruct name; discriminate.
Defined.

Lemma split_sender_recombines_witness :
  "bob@example.com@relay" = ("bob" ++ "@" ++ "example.com@relay")%string
  /\ forall a b, "bob" <> (a ++ "@" ++ b)%string.
Proof.
  exact (split_sender_recombines "bob@example.com@relay" "bob"
                                 "example.com@relay" eq_refl eq_refl).
Defined.

Lemma same_identity_passes_witness :
  fst (Samples.login_mismatch
         (Samples.settings_with [] false false false) Samples.api_down
         (Samples.sent_as "alice@example.com" "example.com" "alice@example.com"))
  = Ok "DUNNO".
Proof.
  refine (same_identity_passes
            Samples.actions (Samples.settings_with [] false false false)
            Samples.is_trusted_client Samples.is_local_domain
            Samples.is_allowed_server_in_spf Samples.get_account_ldif
            Samples.sqlquote Samples.api_down
            (Samples.sent_as "alice@example.com" "example.com"
                             "alice@example.com") eq_refl _).
  right. split; [reflexivity|]. exists "alice", "example.com". reflexivity.
Defined.

(** Nobody sends as u@example.com from an address that is not
    trusted: example.com is local and the SPF check, which is on, does
    not list the client. *)
Lemma unauthenticated_decision_witness :
  fst (Samples.login_mismatch
         (Samples.settings_with [] false false true) Samples.api_down
         (Samples.sent_as "" "" "u@example.com"))
  = Ok "REJECT SMTP AUTH is required for users under this sender domain".
Proof.
  exact (unauthenticated_decision
           Samples.actions (Samples.settings_with [] false false true)
           Samples.is_trusted_client Samples.is_local_domain
           Samples.is_allowed_server_in_spf Samples.get_account_ldif
           Samples.sqlquote Samples.api_down
           (Samples.sent_as "" "" "u@example.com") "u" "example.com"
           true false eq_refl eq_refl eq_refl eq_refl).
Defined.

Lemma login_mismatch_verdicts_witness :
  let kw := Samples.sent_as "alice@example.com" "example.com" "bob@example.com" in
  let a := "REJECT Sender is not same as SMTP authenticate username" in
  a = "DUNNO"
  \/ (a = "REJECT SMTP AUTH is required for users under this sender domain"
      /\ sasl_username kw = EmptyString)
  \/ (a = "REJECT Sender is not same as SMTP authenticate username"
      /\ sasl_username kw <> EmptyString).
Proof.
  exact (login_mismatch_verdicts
           Samples.actions (Samples.settings_with [] false false false)
           Samples.is_trusted_client Samples.is_local_domain
           Samples.is_allowed_server_in_spf Samples.get_account_ldif
           Samples.sqlquote Samples.api_down
           (Samples.sent_as "alice@example.com" "example.com" "bob@example.com")
           "REJECT Sender is not same as SMTP authenticate username" eq_refl).
Defined.

(** Strict mode alone on an SQL backend: the answer of the API makes
    no difference for a sender that is a mailing list. *)
Lemma api_is_not_consulted_witness :
  Samples.login_mismatch (Samples.settings_with [] true false false)
                         Samples.api_subscribed
                         (Samples.sent_as "alice@example.com" "example.com"
                                          "list@example.com")
  = Samples.login_mismatch (Samples.settings_with [] true false false)
                           Samples.api_down
                           (Samples.sent_as "alice@example.com" "example.com"
                                            "list@example.com").
Proof.
  refine (api_is_not_consulted
            Samples.actions (Samples.settings_with [] true false false)
            Samples.is_trusted_client Samples.is_local_domain
            Samples.is_allowed_server_in_spf Samples.get_account_ldif
            Samples.sqlquote Samples.api_subscribed Samples.api_down
            (Samples.sent_as "alice@example.com" "example.com"
                             "list@example.com") _).
  left. split; reflexivity.
Defined.

Lemma authenticated_ignores_client_witness :
  let kw rd ca :=
    {| sasl_username := "alice@example.com";
       sasl_username_domain := "example.com";
       sender_without_ext := "bob@example.com";
       recipient_domain := rd;
       client_address := ca;
       conn_vmail := Samples.database |} in
  Samples.login_mismatch (Samples.settings_with [] false false false)
                         Samples.api_down (kw "example.org" "127.0.0.1")
  = Samples.login_mismatch (Samples.settings_with [] false false false)
                           Samples.api_down (kw "example.com" "192.0.2.7").
Proof.
  exact (authenticated_ignores_client
           Samples.actions (Samples.settings_with [] false false false)
           Samples.is_trusted_client Samples.is_local_domain
           Samples.is_allowed_server_in_spf Samples.get_account_ldif
           Samples.sqlquote Samples.api_down
           "alice@example.com" "example.com" "bob@example.com"
           "example.org" "example.com" "127.0.0.1" "192.0.2.7"
           Samples.database eq_refl).
Defined.

End LoginMismatchExtras.
